(** * Inventory services: energy drinks, cars, sneakers

    A shallow embedding of the three FastAPI applications [Energy.py],
    [app.py] and [sneakers.py].  Each handler is a function of the table it
    works on; a handler that writes returns the committed table next to its
    result, so that "nothing was written" is a statement about that table.

    Conventions.
    - An [Integer] column holds a Python [int], an unbounded [Z], but the
      store takes only the integers of 64 bits: binding any other integer
      to a statement raises [OverflowError].  A [Float] column holds a
      binary64 [float]; the store keeps NaN as NULL and the negative zero
      as zero.  A [String] column holds a [string], the UTF-8 bytes of the
      text.  Every column but the primary key is nullable, as [Column(...)]
      declares it, hence [option].
    - A table is the list of its rows in the order the store scans them
      (ascending primary key): the order of a query with no ORDER BY.
    - An ORDER BY fixes the order of rows with different sort keys only.
      Which of two rows with equal keys the store yields first is its own
      choice; that choice is a parameter of the list handlers, as are what
      the store computes for [column.contains(s)] and which names a model
      class has from [Base] besides those its body declares.
    - A handler either returns or raises; [Raised e] carries the exception.
      An [HTTPException] is the handler's own; the other exceptions are
      those the interpreter, the framework or the store raise.
    - A handler is its body together with the constraints its parameters
      declare; turning the returned rows into a response is the routing
      layer's and is not part of it. *)

From Stdlib Require Import ZArith List String Ascii Bool Lia Floats.
From Stdlib Require Import Sorted Permutation.
Import ListNotations.

Local Open Scope Z_scope.

(* ================================================================= *)
(** ** Python values and exceptions *)

Module Py.

Inductive exn : Type :=
| HTTPException (status_code : Z) (detail : string)
| RequestValidationError      (* a declared parameter constraint failed *)
| AttributeError
| TypeError
| OverflowError               (* an integer the store cannot take *)
| InvalidRequestError.        (* the session could not refresh an object *)

Inductive result (A : Type) : Type :=
| Ok (a : A)
| Raised (e : exn).
Arguments Ok {A} a.
Arguments Raised {A} e.

Definition bind {A B} (r : result A) (k : A -> result B) : result B :=
  match r with
  | Ok a => k a
  | Raised e => Raised e
  end.

(** [if p: then_(p) else: else_] on an optional query parameter: [None],
    the empty string and the integer zero are false. *)
Definition if_str {A} (p : option string) (then_ : string -> A) (else_ : A) : A :=
  match p with
  | Some s => if String.eqb s EmptyString then else_ else then_ s
  | None => else_
  end.

Definition if_int {A} (p : option Z) (then_ : Z -> A) (else_ : A) : A :=
  match p with
  | Some n => if Z.eqb n 0 then else_ else then_ n
  | None => else_
  end.

(** A parameter with a default value. *)
Definition default {A} (d : A) (p : option A) : A :=
  match p with
  | Some a => a
  | None => d
  end.

(** [str.lower], on the ASCII letters: no other character becomes an
    ASCII letter of the word a sort order is compared with. *)
Definition lower_ascii (c : ascii) : ascii :=
  let n := nat_of_ascii c in
  if andb (Nat.leb 65 n) (Nat.leb n 90) then ascii_of_nat (n + 32) else c.

Fixpoint lower (s : string) : string :=
  match s with
  | EmptyString => EmptyString
  | String c s' => String (lower_ascii c) (lower s')
  end.

(** [a < b] and [a - b], [a + b] on a nullable integer attribute: the
    operation on [None] raises [TypeError]. *)
Definition lt_int (a : option Z) (b : Z) : result bool :=
  match a with
  | Some x => Ok (Z.ltb x b)
  | None => Raised TypeError
  end.

Definition sub_int (a : option Z) (b : Z) : result Z :=
  match a with
  | Some x => Ok (x - b)
  | None => Raised TypeError
  end.

Definition add_int (a : option Z) (b : Z) : result Z :=
  match a with
  | Some x => Ok (x + b)
  | None => Raised TypeError
  end.

(** [a == b] on the values of an attribute. *)
Definition eq_int (a b : option Z) : bool :=
  match a, b with
  | None, None => true
  | Some x, Some y => Z.eqb x y
  | _, _ => false
  end.

Definition eq_float (a b : option float) : bool :=
  match a, b with
  | None, None => true
  | Some x, Some y => PrimFloat.eqb x y
  | _, _ => false
  end.

(** The sort orders that ask for a descending sort, letter by letter:
    "desc" in any mix of upper and lower case. *)
Definition is_desc (sort_order : string) : bool :=
  match sort_order with
  | String c1 (String c2 (String c3 (String c4 EmptyString))) =>
      (Ascii.eqb c1 "d" || Ascii.eqb c1 "D")
      && (Ascii.eqb c2 "e" || Ascii.eqb c2 "E")
      && (Ascii.eqb c3 "s" || Ascii.eqb c3 "S")
      && (Ascii.eqb c4 "c" || Ascii.eqb c4 "C")
  | _ => false
  end.

End Py.

Notation "x <~ c ;; k" := (Py.bind c (fun x => k))
  (at level 61, c at next level, right associativity).

(* ================================================================= *)
(** ** The store: values, LIKE, queries and the session *)

Module Orm.

(** *** Values the store takes *)

(** The integers of 64 bits. *)
Definition int64 (n : Z) : bool := Z.leb (- 2 ^ 63) n && Z.ltb n (2 ^ 63).

Definition fits64 (n : Z) : Prop := - 2 ^ 63 <= n < 2 ^ 63.

(** Binding an integer to a statement. *)
Definition bind_int (v : option Z) : Py.result (option Z) :=
  match v with
  | Some n => if int64 n then Py.Ok v else Py.Raised Py.OverflowError
  | None => Py.Ok None
  end.

(** Writing a float: NaN is kept as NULL, and a zero as the zero. *)
Definition bind_float (v : option float) : option float :=
  match v with
  | Some f =>
      if PrimFloat.is_nan f then None
      else if PrimFloat.eqb f 0 then Some 0%float
      else Some f
  | None => None
  end.

(** The value a column has after a commit, from the value the row was
    loaded with and the value the object has now: an attribute that
    compares equal to the loaded one is not written. *)
Definition flush_int (old new : option Z) : Py.result (option Z) :=
  if Py.eq_int new old then Py.Ok old else bind_int new.

Definition flush_float (old new : option float) : option float :=
  if Py.eq_float new old then old else bind_float new.

(** An integer attribute that a commit can write: it is as it was
    loaded, or NULL, or an integer of 64 bits. *)
Definition writable (old new : option Z) : Prop :=
  new = old \/ match new with Some n => fits64 n | None => True end.

(** The value of a field after an update: the value the request sets,
    or the value the field had. *)
Definition updated {A} (old : A) (set : option A) : A :=
  match set with
  | Some v => v
  | None => old
  end.

(** What the store holds of a float that is written: NULL for NULL and
    for NaN, and else a float that compares equal to it, the same float
    unless it is a zero. *)
Definition stores (written stored : option float) : Prop :=
  match written with
  | None => stored = None
  | Some f =>
      if PrimFloat.is_nan f then stored = None
      else exists f', stored = Some f' /\ PrimFloat.eqb f f' = true
                      /\ (PrimFloat.eqb f 0 = false -> f' = f)
  end.

(** *** LIKE *)

(** The characters of a text: a byte from 0xC0 up starts a character
    that runs over the bytes 0x80 to 0xBF after it; any other byte is a
    character by itself. *)
Definition leads (b : ascii) : bool := Nat.leb 192 (nat_of_ascii b).

Definition continues (b : ascii) : bool :=
  Nat.leb 128 (nat_of_ascii b) && Nat.ltb (nat_of_ascii b) 192.

Definition continuation (c : string) : bool :=
  match c with
  | String b EmptyString => continues b
  | _ => false
  end.

Fixpoint take_continuations (cs : list string) : string * list string :=
  match cs with
  | c :: cs' =>
      if continuation c
      then let (t, rest) := take_continuations cs' in (append c t, rest)
      else (EmptyString, cs)
  | [] => (EmptyString, [])
  end.

Fixpoint chars (s : string) : list string :=
  match s with
  | EmptyString => []
  | String b s' =>
      if leads b
      then let (t, rest) := take_continuations (chars s') in String b t :: rest
      else String b EmptyString :: chars s'
  end.

(** A character with its upper-case ASCII letter, if it is one, made
    lower case. *)
Definition fold_ascii (b : ascii) : ascii :=
  let n := nat_of_ascii b in
  if andb (Nat.leb 65 n) (Nat.leb n 90) then ascii_of_nat (n + 32) else b.

Fixpoint nocase (c : string) : string :=
  match c with
  | EmptyString => EmptyString
  | String b c' => String (fold_ascii b) (nocase c')
  end.

(** [like p s]: the pattern [p] matches the text [s], both as characters.
    [%] stands for any run of characters, [_] for any one character, and
    any other character for itself, ASCII letters without regard to
    case. *)
Fixpoint like (p : list string) : list string -> bool :=
  match p with
  | [] => fun s => match s with [] => true | _ :: _ => false end
  | c :: p' =>
      if String.eqb c "%" then
        fix any_run (s : list string) : bool :=
          like p' s || match s with [] => false | _ :: s' => any_run s' end
      else if String.eqb c "_" then
        fun s => match s with [] => false | _ :: s' => like p' s' end
      else
        fun s =>
          match s with
          | [] => false
          | x :: s' => String.eqb (nocase c) (nocase x) && like p' s'
          end
  end.

(** [column.contains(s)] on a text [x]: [x LIKE '%' || s || '%']. *)
Definition contains (x s : string) : bool :=
  like ("%"%string :: chars s ++ ["%"%string]) (chars x).




(** *** WHERE clauses *)

Section Clauses.
Context {Row : Type}.

(** A clause: whether a row satisfies it, and the integers it binds. *)
Record Clause : Type := {
  holds : Row -> bool;
  binds : list Z
}.

(** Comparisons with a nullable column: a comparison with NULL is not
    true, so the row is not selected. *)
Definition eq_key (col : Row -> Z) (v : Z) : Clause :=
  {| holds := fun r => Z.eqb (col r) v; binds := [v] |}.

Definition eq_str (col : Row -> option string) (v : string) : Clause :=
  {| holds := fun r =>
       match col r with Some x => String.eqb x v | None => false end;
     binds := [] |}.

Definition eq_int (col : Row -> option Z) (v : Z) : Clause :=
  {| holds := fun r => match col r with Some x => Z.eqb x v | None => false end;
     binds := [v] |}.

Definition ge_int (col : Row -> option Z) (v : Z) : Clause :=
  {| holds := fun r => match col r with Some x => Z.leb v x | None => false end;
     binds := [v] |}.

Definition le_int (col : Row -> option Z) (v : Z) : Clause :=
  {| holds := fun r => match col r with Some x => Z.leb x v | None => false end;
     binds := [v] |}.

(** [column.contains(s)], with what the store computes for it. *)
Definition has (contains : string -> string -> bool)
    (col : Row -> option string) (s : string) : Clause :=
  {| holds := fun r =>
       match col r with Some x => contains x s | None => false end;
     binds := [] |}.

(** [a | b] *)
Definition or_ (a b : Clause) : Clause :=
  {| holds := fun r => holds a r || holds b r; binds := binds a ++ binds b |}.

End Clauses.

Arguments Clause Row : clear implicits.

(** ORDER BY on a nullable column: NULL sorts before every value. *)
Definition null_first {K} (le : K -> K -> bool) (a b : option K) : bool :=
  match a, b with
  | None, _ => true
  | Some _, None => false
  | Some x, Some y => le x y
  end.

(** The value of a column in a row, and the order of two values of one
    column: NULL is below every value, integers and floats are in the
    order of their numbers, texts in the order of their bytes. *)
Inductive value : Type :=
| Null
| Int (n : Z)
| Text (s : string)
| Real (f : float).

Inductive value_le : value -> value -> Prop :=
| null_le (v : value) : value_le Null v
| int_le (a b : Z) : a <= b -> value_le (Int a) (Int b)
| text_le (a b : string) : String.compare a b <> Gt -> value_le (Text a) (Text b)
| real_le (a b : float) : PrimFloat.leb a b = true -> value_le (Real a) (Real b).

Definition of_int (v : option Z) : value :=
  match v with Some n => Int n | None => Null end.

Definition of_text (v : option string) : value :=
  match v with Some s => Text s | None => Null end.

Definition of_real (v : option float) : value :=
  match v with Some f => Real f | None => Null end.

(** What a [sort_by] asks for: nothing, a sort by a column, or a sort by
    a class attribute that is no column. *)
Inductive sort (Column : Type) : Type :=
| Unsorted
| By (c : Column)
| NotAColumn.
Arguments Unsorted {Column}.
Arguments By {Column} c.
Arguments NotAColumn {Column}.

(** *** Queries *)

Section Query.
Context {Row : Type}.

(** An ORDER BY term: when a row may come before another, and, for two
    rows that may come either way round, whether the store yields the
    first before the second in a statement with these WHERE clauses,
    OFFSET and LIMIT. *)
Record OrderBy : Type := {
  ob_le : Row -> Row -> bool;
  ob_tie : list (Clause Row) -> option Z -> option Z -> Row -> Row -> bool
}.

(** What [db.query(Model)] accumulates: WHERE clauses in the order they
    were added, an ORDER BY, OFFSET and LIMIT. *)
Record Query : Type := {
  q_where : list (Clause Row);
  q_order_by : option OrderBy;
  q_offset : option Z;
  q_limit : option Z
}.

Definition query : Query :=
  {| q_where := []; q_order_by := None; q_offset := None; q_limit := None |}.

Definition filter (q : Query) (w : Clause Row) : Query :=
  {| q_where := q_where q ++ [w]; q_order_by := q_order_by q;
     q_offset := q_offset q; q_limit := q_limit q |}.

Definition order_by (q : Query) (ob : OrderBy) : Query :=
  {| q_where := q_where q; q_order_by := Some ob;
     q_offset := q_offset q; q_limit := q_limit q |}.

Definition offset (q : Query) (n : Z) : Query :=
  {| q_where := q_where q; q_order_by := q_order_by q;
     q_offset := Some n; q_limit := q_limit q |}.

Definition limit (q : Query) (n : Z) : Query :=
  {| q_where := q_where q; q_order_by := q_order_by q;
     q_offset := q_offset q; q_limit := Some n |}.

(** A row is selected when every WHERE clause holds. *)
Definition selects (ws : list (Clause Row)) (r : Row) : bool :=
  forallb (fun w => holds w r) ws.

(** The integers a statement binds: those of its clauses, LIMIT and
    OFFSET. *)
Definition bound (q : Query) : list Z :=
  flat_map binds (q_where q)
  ++ match q_limit q with Some n => [n] | None => [] end
  ++ match q_offset q with Some n => [n] | None => [] end.

(** ORDER BY: [a] comes before [b] when its key is the lower one, or
    when neither key is and the store yields [a] first. *)
Definition before (le tie : Row -> Row -> bool) (a b : Row) : bool :=
  negb (le b a) || (le a b && tie a b).

Fixpoint insert_by (lt : Row -> Row -> bool) (x : Row) (l : list Row) : list Row :=
  match l with
  | [] => [x]
  | y :: l' => if lt x y then x :: l else y :: insert_by lt x l'
  end.

Fixpoint sort_by (lt : Row -> Row -> bool) (l : list Row) : list Row :=
  match l with
  | [] => []
  | x :: l' => insert_by lt x (sort_by lt l')
  end.

Definition ordered (q : Query) (rows : list Row) : list Row :=
  match q_order_by q with
  | Some ob =>
      sort_by (before (ob_le ob) (ob_tie ob (q_where q) (q_offset q) (q_limit q)))
        rows
  | None => rows
  end.

(** OFFSET n skips n rows, a negative n none; LIMIT n keeps n rows, a
    negative n all of them. *)
Definition skip_rows (o : option Z) (l : list Row) : list Row :=
  match o with
  | Some n => skipn (Z.to_nat n) l
  | None => l
  end.

Definition take_rows (o : option Z) (l : list Row) : list Row :=
  match o with
  | Some n => if Z.ltb n 0 then l else firstn (Z.to_nat n) l
  | None => l
  end.

(** [query.all()]: the statement is bound, which raises when an integer
    does not fit; then WHERE, ORDER BY, OFFSET and LIMIT. *)
Definition all (q : Query) (table : list Row) : Py.result (list Row) :=
  if forallb int64 (bound q)
  then Py.Ok (take_rows (q_limit q)
                (skip_rows (q_offset q)
                   (ordered q (List.filter (selects (q_where q)) table))))
  else Py.Raised Py.OverflowError.

(** [query.first()]: the query with LIMIT 1, its row or [None]. *)
Definition first (q : Query) (table : list Row) : Py.result (option Row) :=
  rows <~ all (limit q 1) table ;; Py.Ok (hd_error rows).

(** *** What a list request is to return, in terms of the table *)

(** [selected] is [table] without the rows that fail [P], in the order
    of the table. *)
Inductive keeps (P : Row -> Prop) : list Row -> list Row -> Prop :=
| keeps_nil : keeps P [] []
| keeps_row (r : Row) (table selected : list Row) :
    P r -> keeps P table selected -> keeps P (r :: table) (r :: selected)
| keeps_out (r : Row) (table selected : list Row) :
    ~ P r -> keeps P table selected -> keeps P (r :: table) selected.

(** [rows] is rows [skip, skip+limit) of [full]: it has at most [limit]
    rows, and its i-th row, for i below [limit], is row skip+i of
    [full], if [full] has one. *)
Definition rows_from (skip limit : Z) (full rows : list Row) : Prop :=
  Z.of_nat (List.length rows) <= limit
  /\ forall i : nat,
       nth_error rows i
       = if Z.ltb (Z.of_nat i) limit
         then nth_error full (Z.to_nat skip + i)
         else None.

(** [rows] is the page [skip, skip+limit) of the rows of [table] that
    satisfy [P]: taken in the order of the table when no order is asked
    for, and else in an order in which each row is related by [R] to the
    next. *)
Definition lists (P : Row -> Prop) (R : option (Row -> Row -> Prop))
    (skip limit : Z) (table rows : list Row) : Prop :=
  exists selected full : list Row,
    keeps P table selected
    /\ match R with
       | Some R => Permutation selected full /\ Sorted R full
       | None => full = selected
       end
    /\ rows_from skip limit full rows.

(** *** The session, on a table whose primary key is [pk] *)

Variable pk : Row -> Z.
Variable with_pk : Z -> Row -> Row.

(** The row an INSERT of the object stores, or the exception its values
    raise when they are bound. *)
Variable bind_row : Row -> Py.result Row.

(** The row an UPDATE leaves, from the row as loaded and the object as
    it is now, or the exception the new values raise. *)
Variable flush : Row -> Row -> Py.result Row.

(** The row of the table under a key, if there is one. *)
Definition at_key (i : Z) (table : list Row) : option Row :=
  find (fun r => Z.eqb (pk r) i) table.

(** The key the store gives a new row: one more than the largest key in
    the table, 1 in an empty table.  (In a table that holds the largest
    integer of 64 bits as a key the store tries unused keys at random
    instead; what is proved of the key of a created row is stated for
    tables whose keys are below that integer.) *)
Definition next_pk (table : list Row) : Z :=
  1 + fold_right (fun r m => Z.max (pk r) m) 0 table.

(** The primary-key constraint: no two rows of a table share a key. *)
Definition unique_pk (table : list Row) : Prop := NoDup (map pk table).

(** [db.add(obj); db.commit()]: INSERT. The row is the object as stored,
    with its generated key. *)
Definition insert (obj : Row) (table : list Row) : Py.result (Row * list Row) :=
  stored <~ bind_row obj ;;
  let row := with_pk (next_pk table) stored in
  Py.Ok (row, table ++ [row]).

(** The table with [row] in the place of the rows under the key [i]. *)
Definition put (i : Z) (row : Row) (table : list Row) : list Row :=
  map (fun r => if Z.eqb (pk r) i then row else r) table.

(** [db.commit()] on the object loaded as [old], now [new]:
    UPDATE ... WHERE id = old.id. *)
Definition update (old new : Row) (table : list Row) : Py.result (list Row) :=
  row <~ flush old new ;; Py.Ok (put (pk old) row table).

(** [db.delete(obj); db.commit()]: DELETE ... WHERE id = obj.id. *)
Definition delete (obj : Row) (table : list Row) : list Row :=
  List.filter (fun r => negb (Z.eqb (pk r) (pk obj))) table.

(** [db.refresh(obj)]: the row of [obj]'s key as the table has it. *)
Definition refresh (obj : Row) (table : list Row) : Py.result Row :=
  match at_key (pk obj) table with
  | Some row => Py.Ok row
  | None => Py.Raised Py.InvalidRequestError
  end.

(** A request handler: run on the table, it returns or raises, and
    leaves the table as its commits made it. *)
Definition Handler (A : Type) : Type := list Row -> Py.result A * list Row.

Definition ret {A} (a : A) : Handler A := fun db => (Py.Ok a, db).

Definition raise {A} (e : Py.exn) : Handler A := fun db => (Py.Raised e, db).

Definition bind {A B} (h : Handler A) (k : A -> Handler B) : Handler B :=
  fun db =>
    match h db with
    | (Py.Ok a, db') => k a db'
    | (Py.Raised e, db') => (Py.Raised e, db')
    end.

Definition lift {A} (r : Py.result A) : Handler A := fun db => (r, db).

(** Running a statement that reads. *)
Definition run {A} (f : list Row -> Py.result A) : Handler A :=
  fun db => (f db, db).

(** A commit that raises writes nothing. *)
Definition commit_insert (obj : Row) : Handler Row :=
  fun db =>
    match insert obj db with
    | Py.Ok (row, db') => (Py.Ok row, db')
    | Py.Raised e => (Py.Raised e, db)
    end.

Definition commit_update (old new : Row) : Handler unit :=
  fun db =>
    match update old new db with
    | Py.Ok db' => (Py.Ok tt, db')
    | Py.Raised e => (Py.Raised e, db)
    end.

Definition commit_delete (obj : Row) : Handler unit :=
  fun db => (Py.Ok tt, delete obj db).

Definition db_refresh (obj : Row) : Handler Row :=
  fun db => (refresh obj db, db).

(** Keys in ascending order, none below 1. *)
Definition keys_ok (db : list Row) : Prop :=
  StronglySorted Z.lt (map pk db) /\ Forall (fun r => 1 <= pk r) db.

(** What a request can do to the table: leave it as it was, append one
    row under the next key, put a row in the place of those of its key,
    or remove the rows of a key. *)
Inductive one_write (db : list Row) : list Row -> Prop :=
| write_none : one_write db db
| write_insert (row : Row) :
    pk row = next_pk db -> one_write db (db ++ [row])
| write_update (row : Row) : one_write db (put (pk row) row db)
| write_delete (obj : Row) : one_write db (delete obj db).

End Query.

Arguments OrderBy Row : clear implicits.
Arguments Query Row : clear implicits.
Arguments Handler Row A : clear implicits.

(** The store's choice among rows with equal sort keys, for each column
    and direction of a sort. *)
Definition Ties (Row Column : Type) : Type :=
  Column -> bool -> list (Clause Row) -> option Z -> option Z ->
  Row -> Row -> bool.

(** The tables a service can be in: the empty table, and the table any
    allowed request leaves when served on such a table. *)
Inductive reachable_by {Row Request : Type}
    (serve : Request -> list Row -> list Row) (allowed : Request -> Prop)
  : list Row -> Prop :=
| reach_empty : reachable_by serve allowed []
| reach_serve (req : Request) (db : list Row) :
    reachable_by serve allowed db -> allowed req ->
    reachable_by serve allowed (serve req db).

Definition reachable {Row Request : Type}
    (serve : Request -> list Row -> list Row) : list Row -> Prop :=
  reachable_by serve (fun _ => True).

End Orm.

Notation "x <- c ;; k" := (Orm.bind c (fun x => k))
  (at level 61, c at next level, right associativity).
Notation "c ;;; k" := (Orm.bind c (fun _ => k))
  (at level 61, right associativity).

(* ================================================================= *)
(** ** Energy.py *)

Module Energy.
Import Py.
Local Open Scope string_scope.

Record EnergyDrink : Type := {
  id : Z;
  brand : option string;
  name : option string;
  volume_ml : option Z;
  price : option Z;
  stock : option Z
}.

Definition Table : Type := list EnergyDrink.

Record EnergyDrinkCreate : Type := {
  c_brand : string;
  c_name : string;
  c_volume_ml : Z;
  c_price : Z;
  c_stock : Z
}.

(** A field of the update model is unset ([None]) or set, and then to a
    value or to null ([Some None]). *)
Record EnergyDrinkUpdate : Type := {
  u_brand : option (option string);
  u_name : option (option string);
  u_volume_ml : option (option Z);
  u_price : option (option Z);
  u_stock : option (option Z)
}.

(** The update request that sets no field. *)
Definition no_fields : EnergyDrinkUpdate :=
  {| u_brand := None; u_name := None; u_volume_ml := None; u_price := None;
     u_stock := None |}.

Definition with_id (i : Z) (d : EnergyDrink) : EnergyDrink :=
  {| id := i; brand := brand d; name := name d; volume_ml := volume_ml d;
     price := price d; stock := stock d |}.

Definition with_stock (s : option Z) (d : EnergyDrink) : EnergyDrink :=
  {| id := id d; brand := brand d; name := name d; volume_ml := volume_ml d;
     price := price d; stock := s |}.

(** The columns the class body declares. *)
Inductive column : Type := Id | Brand | Name | VolumeMl | Price | Stock.

(** What [getattr] finds on the class: a column, the table name, or an
    attribute the class has from [Base]. *)
Inductive attribute : Type :=
| Column (c : column)
| Str (s : string)
| Inherited.

Definition tablename : string := "energy_drinks".

Definition column_le (c : column) (a b : EnergyDrink) : bool :=
  match c with
  | Id => Z.leb (id a) (id b)
  | Brand => Orm.null_first String.leb (brand a) (brand b)
  | Name => Orm.null_first String.leb (name a) (name b)
  | VolumeMl => Orm.null_first Z.leb (volume_ml a) (volume_ml b)
  | Price => Orm.null_first Z.leb (price a) (price b)
  | Stock => Orm.null_first Z.leb (stock a) (stock b)
  end.

(** The row an INSERT of the object stores: its integers are bound. *)
Definition bind_row (d : EnergyDrink) : result EnergyDrink :=
  v <~ Orm.bind_int (volume_ml d) ;;
  p <~ Orm.bind_int (price d) ;;
  s <~ Orm.bind_int (stock d) ;;
  Ok {| id := id d; brand := brand d; name := name d; volume_ml := v;
        price := p; stock := s |}.

(** The row an UPDATE leaves: the attributes that changed are bound. *)
Definition flush (old new : EnergyDrink) : result EnergyDrink :=
  v <~ Orm.flush_int (volume_ml old) (volume_ml new) ;;
  p <~ Orm.flush_int (price old) (price new) ;;
  s <~ Orm.flush_int (stock old) (stock new) ;;
  Ok {| id := id old; brand := brand new; name := name new; volume_ml := v;
        price := p; stock := s |}.

(** [drink.dict(exclude_unset=True).items()]: the fields that are set,
    in the order the model declares them. *)
Inductive item : Type :=
| brand_item (v : option string)
| name_item (v : option string)
| volume_ml_item (v : option Z)
| price_item (v : option Z)
| stock_item (v : option Z).

Definition set_items {A} (f : option A) (mk : A -> item) : list item :=
  match f with
  | Some v => [mk v]
  | None => []
  end.

Definition dict_exclude_unset (u : EnergyDrinkUpdate) : list item :=
  set_items (u_brand u) brand_item ++ set_items (u_name u) name_item
  ++ set_items (u_volume_ml u) volume_ml_item
  ++ set_items (u_price u) price_item ++ set_items (u_stock u) stock_item.

Definition setattr (d : EnergyDrink) (kv : item) : EnergyDrink :=
  match kv with
  | brand_item v =>
      {| id := id d; brand := v; name := name d; volume_ml := volume_ml d;
         price := price d; stock := stock d |}
  | name_item v =>
      {| id := id d; brand := brand d; name := v; volume_ml := volume_ml d;
         price := price d; stock := stock d |}
  | volume_ml_item v =>
      {| id := id d; brand := brand d; name := name d; volume_ml := v;
         price := price d; stock := stock d |}
  | price_item v =>
      {| id := id d; brand := brand d; name := name d; volume_ml := volume_ml d;
         price := v; stock := stock d |}
  | stock_item v => with_stock v d
  end.

Definition by_id (drink_id : Z) : Orm.Query EnergyDrink :=
  Orm.filter Orm.query (Orm.eq_key id drink_id).

Definition not_found {A} : Orm.Handler EnergyDrink A :=
  Orm.raise (HTTPException 404 "Energy drink not found").

Section Handlers.
(** [column.contains(s)] as the store evaluates it on two strings. *)
Variable contains : string -> string -> bool.

(** The names, other than those the class body declares, under which the
    class has an attribute that is not [None] ([metadata], [registry],
    [__init__] and the like, from [Base] and [object]); none of them is
    a column. *)
Variable inherited : string -> bool.

(** The order in which the store yields rows with equal sort keys. *)
Variable ties : Orm.Ties EnergyDrink column.

(** [getattr(EnergyDrink, attr, None)]. *)
Definition getattr (attr : string) : option attribute :=
  if String.eqb attr "id" then Some (Column Id)
  else if String.eqb attr "brand" then Some (Column Brand)
  else if String.eqb attr "name" then Some (Column Name)
  else if String.eqb attr "volume_ml" then Some (Column VolumeMl)
  else if String.eqb attr "price" then Some (Column Price)
  else if String.eqb attr "stock" then Some (Column Stock)
  else if String.eqb attr "__tablename__" then Some (Str tablename)
  else if inherited attr then Some Inherited
  else None.

(** [column.asc()] and [column.desc()]: only a column has them. *)
Definition asc (a : attribute) : result (Orm.OrderBy EnergyDrink) :=
  match a with
  | Column c => Ok {| Orm.ob_le := column_le c; Orm.ob_tie := ties c false |}
  | Str _ | Inherited => Raised AttributeError
  end.

Definition desc (a : attribute) : result (Orm.OrderBy EnergyDrink) :=
  match a with
  | Column c =>
      Ok {| Orm.ob_le := fun x y => column_le c y x; Orm.ob_tie := ties c true |}
  | Str _ | Inherited => Raised AttributeError
  end.

Definition read_energy_drinks (skip limit : Z) (sort_by : option string)
    (sort_order : string) (filter_brand : option string)
    (filter_volume : option Z) (search : option string)
  : Orm.Handler EnergyDrink (list EnergyDrink) :=
  let query := Orm.query in
  let query :=
    if_str filter_brand
      (fun v => Orm.filter query (Orm.eq_str brand v)) query in
  let query :=
    if_int filter_volume
      (fun v => Orm.filter query (Orm.eq_int volume_ml v)) query in
  let query :=
    if_str search
      (fun s => Orm.filter query
                  (Orm.or_ (Orm.has contains brand s) (Orm.has contains name s)))
      query in
  query <-
    if_str sort_by
      (fun attr =>
         match getattr attr with
         | Some column =>
             if String.eqb (lower sort_order) "desc"
             then (o <- Orm.lift (desc column) ;; Orm.ret (Orm.order_by query o))
             else (o <- Orm.lift (asc column) ;; Orm.ret (Orm.order_by query o))
         | None => Orm.ret query
         end)
      (Orm.ret query) ;;
  Orm.run (Orm.all (Orm.limit (Orm.offset query skip) limit)).

(** The WHERE clauses a request adds, in order: a filter that is absent,
    empty or zero adds none. *)
Definition clauses (filter_brand : option string) (filter_volume : option Z)
    (search : option string) : list (Orm.Clause EnergyDrink) :=
  if_str filter_brand (fun v => [Orm.eq_str brand v]) []
  ++ if_int filter_volume (fun v => [Orm.eq_int volume_ml v]) []
  ++ if_str search
       (fun s => [Orm.or_ (Orm.has contains brand s) (Orm.has contains name s)])
       [].

(** The ORDER BY a request asks for: none, a term, or the exception that
    resolving [sort_by] raises. *)
Definition ordering (sort_by : option string) (sort_order : string)
  : result (option (Orm.OrderBy EnergyDrink)) :=
  if_str sort_by
    (fun attr =>
       match getattr attr with
       | Some column =>
           if String.eqb (lower sort_order) "desc"
           then (o <~ desc column ;; Ok (Some o))
           else (o <~ asc column ;; Ok (Some o))
       | None => Ok None
       end)
    (Ok None).

End Handlers.

Definition read_energy_drink (drink_id : Z) : Orm.Handler EnergyDrink EnergyDrink :=
  drink <- Orm.run (Orm.first (by_id drink_id)) ;;
  match drink with
  | None => not_found
  | Some drink => Orm.ret drink
  end.

(** The object has no key until the INSERT gives it one; 0 stands for
    the unset key. *)
Definition create_energy_drink (drink : EnergyDrinkCreate)
  : Orm.Handler EnergyDrink EnergyDrink :=
  let db_drink :=
    {| id := 0; brand := Some (c_brand drink); name := Some (c_name drink);
       volume_ml := Some (c_volume_ml drink); price := Some (c_price drink);
       stock := Some (c_stock drink) |} in
  db_drink <- Orm.commit_insert id with_id bind_row db_drink ;;
  Orm.db_refresh id db_drink.

(** The session keeps the object as it was loaded next to the object the
    handler assigns to, and the commit writes what differs. *)
Definition update_energy_drink (drink_id : Z) (drink : EnergyDrinkUpdate)
  : Orm.Handler EnergyDrink EnergyDrink :=
  db_drink <- Orm.run (Orm.first (by_id drink_id)) ;;
  match db_drink with
  | None => not_found
  | Some loaded =>
      let db_drink := fold_left setattr (dict_exclude_unset drink) loaded in
      Orm.commit_update id flush loaded db_drink ;;;
      Orm.db_refresh id db_drink
  end.

Definition delete_energy_drink (drink_id : Z) : Orm.Handler EnergyDrink unit :=
  db_drink <- Orm.run (Orm.first (by_id drink_id)) ;;
  match db_drink with
  | None => not_found
  | Some db_drink => Orm.commit_delete id db_drink
  end.

Definition buy_energy_drink (drink_id : Z) (quantity : option Z)
  : Orm.Handler EnergyDrink EnergyDrink :=
  let quantity := default 1 quantity in
  db_drink <- Orm.run (Orm.first (by_id drink_id)) ;;
  match db_drink with
  | None => not_found
  | Some loaded =>
      short <- Orm.lift (lt_int (stock loaded) quantity) ;;
      if short : bool
      then Orm.raise (HTTPException 400 "Not enough stock available")
      else
        s <- Orm.lift (sub_int (stock loaded) quantity) ;;
        let db_drink := with_stock (Some s) loaded in
        Orm.commit_update id flush loaded db_drink ;;;
        Orm.db_refresh id db_drink
  end.

(** The requests of the service, by route, and the table each leaves. *)
Inductive request : Type :=
| GET_list (skip limit : Z) (sort_by : option string) (sort_order : string)
    (filter_brand : option string) (filter_volume : option Z)
    (search : option string)
| GET_one (drink_id : Z)
| POST (drink : EnergyDrinkCreate)
| PUT (drink_id : Z) (drink : EnergyDrinkUpdate)
| DELETE (drink_id : Z)
| POST_buy (drink_id : Z) (quantity : option Z).

Definition serve (contains : string -> string -> bool)
    (inherited : string -> bool) (ties : Orm.Ties EnergyDrink column)
    (req : request) (db : Table) : Table :=
  match req with
  | GET_list skip limit sort_by sort_order filter_brand filter_volume search =>
      snd (read_energy_drinks contains inherited ties skip limit sort_by
             sort_order filter_brand filter_volume search db)
  | GET_one drink_id => snd (read_energy_drink drink_id db)
  | POST drink => snd (create_energy_drink drink db)
  | PUT drink_id drink => snd (update_energy_drink drink_id drink db)
  | DELETE drink_id => snd (delete_energy_drink drink_id db)
  | POST_buy drink_id quantity => snd (buy_energy_drink drink_id quantity db)
  end.

(** The stock of a drink is a number, and not below zero. *)
Definition stock_nonneg (d : EnergyDrink) : Prop :=
  exists s, stock d = Some s /\ 0 <= s.

(** A request that writes a stock writes a number not below zero. *)
Definition writes_nonneg_stock (req : request) : Prop :=
  match req with
  | POST drink => 0 <= c_stock drink
  | PUT _ drink =>
      match u_stock drink with
      | Some (Some s) => 0 <= s
      | Some None => False
      | None => True
      end
  | _ => True
  end.

(** *** What a list request asks for *)

(** The columns, by the names the class body gives them. *)
Definition columns : list column := [Id; Brand; Name; VolumeMl; Price; Stock].

Definition column_name (c : column) : string :=
  match c with
  | Id => "id"
  | Brand => "brand"
  | Name => "name"
  | VolumeMl => "volume_ml"
  | Price => "price"
  | Stock => "stock"
  end.

(** The sort a [sort_by] asks for: none when it is absent, empty or no
    name of the class; by the column it names; and a sort that cannot be
    made when it names the table name or an inherited attribute. *)
Definition sort_of (inherited : string -> bool) (sort_by : option string)
  : Orm.sort column :=
  match sort_by with
  | None => Orm.Unsorted
  | Some attr =>
      if String.eqb attr "" then Orm.Unsorted
      else
        match find (fun c => String.eqb attr (column_name c)) columns with
        | Some c => Orm.By c
        | None =>
            if String.eqb attr "__tablename__" || inherited attr
            then Orm.NotAColumn
            else Orm.Unsorted
        end
  end.

Definition value_of (c : column) (d : EnergyDrink) : Orm.value :=
  match c with
  | Id => Orm.Int (id d)
  | Brand => Orm.of_text (brand d)
  | Name => Orm.of_text (name d)
  | VolumeMl => Orm.of_int (volume_ml d)
  | Price => Orm.of_int (price d)
  | Stock => Orm.of_int (stock d)
  end.

(** [a] may come before [b] in a sort by [c]: its value is at most that
    of [b], or at least that of [b] when the sort is descending. *)
Definition in_order (c : column) (descending : bool) (a b : EnergyDrink) : Prop :=
  if descending
  then Orm.value_le (value_of c b) (value_of c a)
  else Orm.value_le (value_of c a) (value_of c b).

(** The rows a request selects: each filter given with a value other
    than the empty string or zero holds, and a search string other than
    the empty one is in the brand or in the name, for what [has] takes
    a text to have in it. *)
Definition matches (has : string -> string -> Prop)
    (filter_brand : option string) (filter_volume : option Z)
    (search : option string) (d : EnergyDrink) : Prop :=
  (forall v, filter_brand = Some v -> v <> "" -> brand d = Some v)
  /\ (forall v, filter_volume = Some v -> v <> 0 -> volume_ml d = Some v)
  /\ (forall s, search = Some s -> s <> "" ->
        (exists x, brand d = Some x /\ has x s)
        \/ (exists x, name d = Some x /\ has x s)).

(** What a list request is to answer on a table: no rows, but the
    exception, when its sort cannot be made; and else the page of the
    rows it selects, in the order of the table or of the sort. *)
Definition answers (has : string -> string -> Prop) (inherited : string -> bool)
    (skip limit : Z) (sort_by : option string) (sort_order : string)
    (filter_brand : option string) (filter_volume : option Z)
    (search : option string) (db : Table) (out : result (list EnergyDrink))
  : Prop :=
  match sort_of inherited sort_by with
  | Orm.NotAColumn => out = Raised AttributeError
  | Orm.Unsorted =>
      exists rows,
        out = Ok rows
        /\ Orm.lists (matches has filter_brand filter_volume search) None
             skip limit db rows
  | Orm.By c =>
      exists rows,
        out = Ok rows
        /\ Orm.lists (matches has filter_brand filter_volume search)
             (Some (in_order c (is_desc sort_order))) skip limit db rows
  end.


End Energy.

(* ================================================================= *)
(** ** sneakers.py *)

Module Sneakers.
Import Py.
Local Open Scope string_scope.

Record Sneaker : Type := {
  id : Z;
  brand : option string;
  model : option string;
  price : option Z;
  rating : option float
}.

Definition Table : Type := list Sneaker.

Record SneakerCreate : Type := {
  c_brand : string;
  c_model : string;
  c_price : Z
}.

Record SneakerUpdate : Type := {
  u_brand : option (option string);
  u_model : option (option string);
  u_price : option (option Z);
  u_rating : option (option float)
}.

(** The update request that sets no field. *)
Definition no_fields : SneakerUpdate :=
  {| u_brand := None; u_model := None; u_price := None; u_rating := None |}.

Definition with_id (i : Z) (s : Sneaker) : Sneaker :=
  {| id := i; brand := brand s; model := model s; price := price s;
     rating := rating s |}.

Definition with_rating (v : option float) (s : Sneaker) : Sneaker :=
  {| id := id s; brand := brand s; model := model s; price := price s;
     rating := v |}.

Inductive column : Type := Id | Brand | Model | Price | Rating.

(** What [getattr] finds on the class: a column, the table name, or an
    attribute the class has from [Base]. *)
Inductive attribute : Type :=
| Column (c : column)
| Str (s : string)
| Inherited.

Definition tablename : string := "sneakers".

Definition column_le (c : column) (a b : Sneaker) : bool :=
  match c with
  | Id => Z.leb (id a) (id b)
  | Brand => Orm.null_first String.leb (brand a) (brand b)
  | Model => Orm.null_first String.leb (model a) (model b)
  | Price => Orm.null_first Z.leb (price a) (price b)
  | Rating => Orm.null_first PrimFloat.leb (rating a) (rating b)
  end.

(** The row an INSERT of the object stores. *)
Definition bind_row (s : Sneaker) : result Sneaker :=
  p <~ Orm.bind_int (price s) ;;
  Ok {| id := id s; brand := brand s; model := model s; price := p;
        rating := Orm.bind_float (rating s) |}.

(** The row an UPDATE leaves: the attributes that changed are bound. *)
Definition flush (old new : Sneaker) : result Sneaker :=
  p <~ Orm.flush_int (price old) (price new) ;;
  Ok {| id := id old; brand := brand new; model := model new; price := p;
        rating := Orm.flush_float (rating old) (rating new) |}.

Inductive item : Type :=
| brand_item (v : option string)
| model_item (v : option string)
| price_item (v : option Z)
| rating_item (v : option float).

Definition set_items {A} (f : option A) (mk : A -> item) : list item :=
  match f with
  | Some v => [mk v]
  | None => []
  end.

Definition dict_exclude_unset (u : SneakerUpdate) : list item :=
  set_items (u_brand u) brand_item ++ set_items (u_model u) model_item
  ++ set_items (u_price u) price_item ++ set_items (u_rating u) rating_item.

Definition setattr (s : Sneaker) (kv : item) : Sneaker :=
  match kv with
  | brand_item v =>
      {| id := id s; brand := v; model := model s; price := price s;
         rating := rating s |}
  | model_item v =>
      {| id := id s; brand := brand s; model := v; price := price s;
         rating := rating s |}
  | price_item v =>
      {| id := id s; brand := brand s; model := model s; price := v;
         rating := rating s |}
  | rating_item v => with_rating v s
  end.

Definition by_id (sneaker_id : Z) : Orm.Query Sneaker :=
  Orm.filter Orm.query (Orm.eq_key id sneaker_id).

Definition not_found {A} : Orm.Handler Sneaker A :=
  Orm.raise (HTTPException 404 "Sneaker not found").

(** The constraint [ge=0, le=5] the rate parameter declares. *)
Definition ge0_le5 (v : float) : bool :=
  PrimFloat.leb 0 v && PrimFloat.leb v 5.

Section Handlers.
Variable contains : string -> string -> bool.

(** The names, other than those the class body declares, under which the
    class has an attribute that is not [None] ([metadata], [registry],
    [__init__] and the like, from [Base] and [object]); none of them is
    a column. *)
Variable inherited : string -> bool.

(** The order in which the store yields rows with equal sort keys. *)
Variable ties : Orm.Ties Sneaker column.

(** [getattr(Sneaker, attr, None)]. *)
Definition getattr (attr : string) : option attribute :=
  if String.eqb attr "id" then Some (Column Id)
  else if String.eqb attr "brand" then Some (Column Brand)
  else if String.eqb attr "model" then Some (Column Model)
  else if String.eqb attr "price" then Some (Column Price)
  else if String.eqb attr "rating" then Some (Column Rating)
  else if String.eqb attr "__tablename__" then Some (Str tablename)
  else if inherited attr then Some Inherited
  else None.

Definition asc (a : attribute) : result (Orm.OrderBy Sneaker) :=
  match a with
  | Column c => Ok {| Orm.ob_le := column_le c; Orm.ob_tie := ties c false |}
  | Str _ | Inherited => Raised AttributeError
  end.

Definition desc (a : attribute) : result (Orm.OrderBy Sneaker) :=
  match a with
  | Column c =>
      Ok {| Orm.ob_le := fun x y => column_le c y x; Orm.ob_tie := ties c true |}
  | Str _ | Inherited => Raised AttributeError
  end.

Definition read_sneakers (skip limit : Z) (sort_by : option string)
    (sort_order : string) (filter_brand : option string)
    (filter_price_min filter_price_max : option Z) (search : option string)
  : Orm.Handler Sneaker (list Sneaker) :=
  let query := Orm.query in
  let query :=
    if_str filter_brand
      (fun v => Orm.filter query (Orm.eq_str brand v)) query in
  let query :=
    if_int filter_price_min
      (fun v => Orm.filter query (Orm.ge_int price v)) query in
  let query :=
    if_int filter_price_max
      (fun v => Orm.filter query (Orm.le_int price v)) query in
  let query :=
    if_str search
      (fun s => Orm.filter query
                  (Orm.or_ (Orm.has contains brand s) (Orm.has contains model s)))
      query in
  query <-
    if_str sort_by
      (fun attr =>
         match getattr attr with
         | Some column =>
             if String.eqb (lower sort_order) "desc"
             then (o <- Orm.lift (desc column) ;; Orm.ret (Orm.order_by query o))
             else (o <- Orm.lift (asc column) ;; Orm.ret (Orm.order_by query o))
         | None => Orm.ret query
         end)
      (Orm.ret query) ;;
  Orm.run (Orm.all (Orm.limit (Orm.offset query skip) limit)).

(** The WHERE clauses a request adds, in order: a filter that is absent,
    empty or zero adds none. *)
Definition clauses (filter_brand : option string)
    (filter_price_min filter_price_max : option Z) (search : option string)
  : list (Orm.Clause Sneaker) :=
  if_str filter_brand (fun v => [Orm.eq_str brand v]) []
  ++ if_int filter_price_min (fun v => [Orm.ge_int price v]) []
  ++ if_int filter_price_max (fun v => [Orm.le_int price v]) []
  ++ if_str search
       (fun s => [Orm.or_ (Orm.has contains brand s) (Orm.has contains model s)])
       [].

(** The ORDER BY a request asks for: none, a term, or the exception that
    resolving [sort_by] raises. *)
Definition ordering (sort_by : option string) (sort_order : string)
  : result (option (Orm.OrderBy Sneaker)) :=
  if_str sort_by
    (fun attr =>
       match getattr attr with
       | Some column =>
           if String.eqb (lower sort_order) "desc"
           then (o <~ desc column ;; Ok (Some o))
           else (o <~ asc column ;; Ok (Some o))
       | None => Ok None
       end)
    (Ok None).

End Handlers.

Definition read_sneaker (sneaker_id : Z) : Orm.Handler Sneaker Sneaker :=
  sneaker <- Orm.run (Orm.first (by_id sneaker_id)) ;;
  match sneaker with
  | None => not_found
  | Some sneaker => Orm.ret sneaker
  end.

Definition create_sneaker (sneaker : SneakerCreate) : Orm.Handler Sneaker Sneaker :=
  let db_sneaker :=
    {| id := 0; brand := Some (c_brand sneaker); model := Some (c_model sneaker);
       price := Some (c_price sneaker); rating := Some 0%float |} in
  db_sneaker <- Orm.commit_insert id with_id bind_row db_sneaker ;;
  Orm.db_refresh id db_sneaker.

Definition update_sneaker (sneaker_id : Z) (sneaker : SneakerUpdate)
  : Orm.Handler Sneaker Sneaker :=
  db_sneaker <- Orm.run (Orm.first (by_id sneaker_id)) ;;
  match db_sneaker with
  | None => not_found
  | Some loaded =>
      let db_sneaker := fold_left setattr (dict_exclude_unset sneaker) loaded in
      Orm.commit_update id flush loaded db_sneaker ;;;
      Orm.db_refresh id db_sneaker
  end.

Definition delete_sneaker (sneaker_id : Z) : Orm.Handler Sneaker unit :=
  db_sneaker <- Orm.run (Orm.first (by_id sneaker_id)) ;;
  match db_sneaker with
  | None => not_found
  | Some db_sneaker => Orm.commit_delete id db_sneaker
  end.

(** [rating] is a required query parameter with [ge=0, le=5]: a request
    without it, or with a value that fails the constraint, is refused
    before the body runs. *)
Definition rate_sneaker (sneaker_id : Z) (rating : option float)
  : Orm.Handler Sneaker Sneaker :=
  match rating with
  | None => Orm.raise RequestValidationError
  | Some rating =>
      if ge0_le5 rating then
        db_sneaker <- Orm.run (Orm.first (by_id sneaker_id)) ;;
        match db_sneaker with
        | None => not_found
        | Some loaded =>
            let db_sneaker := with_rating (Some rating) loaded in
            Orm.commit_update id flush loaded db_sneaker ;;;
            Orm.db_refresh id db_sneaker
        end
      else Orm.raise RequestValidationError
  end.

(** The requests of the service, by route, and the table each leaves. *)
Inductive request : Type :=
| GET_list (skip limit : Z) (sort_by : option string) (sort_order : string)
    (filter_brand : option string) (filter_price_min filter_price_max : option Z)
    (search : option string)
| GET_one (sneaker_id : Z)
| POST (sneaker : SneakerCreate)
| PUT (sneaker_id : Z) (sneaker : SneakerUpdate)
| DELETE (sneaker_id : Z)
| POST_rate (sneaker_id : Z) (rating : option float).

Definition serve (contains : string -> string -> bool)
    (inherited : string -> bool) (ties : Orm.Ties Sneaker column)
    (req : request) (db : Table) : Table :=
  match req with
  | GET_list skip limit sort_by sort_order filter_brand filter_price_min
      filter_price_max search =>
      snd (read_sneakers contains inherited ties skip limit sort_by sort_order
             filter_brand filter_price_min filter_price_max search db)
  | GET_one sneaker_id => snd (read_sneaker sneaker_id db)
  | POST sneaker => snd (create_sneaker sneaker db)
  | PUT sneaker_id sneaker => snd (update_sneaker sneaker_id sneaker db)
  | DELETE sneaker_id => snd (delete_sneaker sneaker_id db)
  | POST_rate sneaker_id rating => snd (rate_sneaker sneaker_id rating db)
  end.

(** The rating of a sneaker is a number from 0 to 5. *)
Definition rating_in_range (s : Sneaker) : Prop :=
  exists v, rating s = Some v /\ ge0_le5 v = true.

(** No rating of the table is NaN: the store holds none. *)
Definition no_nan (db : Table) : Prop :=
  forall s v, In s db -> rating s = Some v -> PrimFloat.is_nan v = false.

(** *** What a list request asks for *)

Definition columns : list column := [Id; Brand; Model; Price; Rating].

Definition column_name (c : column) : string :=
  match c with
  | Id => "id"
  | Brand => "brand"
  | Model => "model"
  | Price => "price"
  | Rating => "rating"
  end.

(** The sort a [sort_by] asks for: none when it is absent, empty or no
    name of the class; by the column it names; and a sort that cannot be
    made when it names the table name or an inherited attribute. *)
Definition sort_of (inherited : string -> bool) (sort_by : option string)
  : Orm.sort column :=
  match sort_by with
  | None => Orm.Unsorted
  | Some attr =>
      if String.eqb attr "" then Orm.Unsorted
      else
        match find (fun c => String.eqb attr (column_name c)) columns with
        | Some c => Orm.By c
        | None =>
            if String.eqb attr "__tablename__" || inherited attr
            then Orm.NotAColumn
            else Orm.Unsorted
        end
  end.

Definition value_of (c : column) (s : Sneaker) : Orm.value :=
  match c with
  | Id => Orm.Int (id s)
  | Brand => Orm.of_text (brand s)
  | Model => Orm.of_text (model s)
  | Price => Orm.of_int (price s)
  | Rating => Orm.of_real (rating s)
  end.

(** [a] may come before [b] in a sort by [c]: its value is at most that
    of [b], or at least that of [b] when the sort is descending. *)
Definition in_order (c : column) (descending : bool) (a b : Sneaker) : Prop :=
  if descending
  then Orm.value_le (value_of c b) (value_of c a)
  else Orm.value_le (value_of c a) (value_of c b).

(** The rows a request selects: each filter given with a value other
    than the empty string or zero holds (the price is a number within
    the bound), and a search string other than the empty one is in the
    brand or in the model, for what [has] takes a text to have in it. *)
Definition matches (has : string -> string -> Prop)
    (filter_brand : option string) (filter_price_min filter_price_max : option Z)
    (search : option string) (s : Sneaker) : Prop :=
  (forall v, filter_brand = Some v -> v <> "" -> brand s = Some v)
  /\ (forall v, filter_price_min = Some v -> v <> 0 ->
        exists p, price s = Some p /\ v <= p)
  /\ (forall v, filter_price_max = Some v -> v <> 0 ->
        exists p, price s = Some p /\ p <= v)
  /\ (forall t, search = Some t -> t <> "" ->
        (exists x, brand s = Some x /\ has x t)
        \/ (exists x, model s = Some x /\ has x t)).

(** What a list request is to answer on a table: no rows, but the
    exception, when its sort cannot be made; and else the page of the
    rows it selects, in the order of the table or of the sort, a sort by
    the rating being a sort of numbers. *)
Definition answers (has : string -> string -> Prop) (inherited : string -> bool)
    (skip limit : Z) (sort_by : option string) (sort_order : string)
    (filter_brand : option string) (filter_price_min filter_price_max : option Z)
    (search : option string) (db : Table) (out : result (list Sneaker))
  : Prop :=
  match sort_of inherited sort_by with
  | Orm.NotAColumn => out = Raised AttributeError
  | Orm.Unsorted =>
      exists rows,
        out = Ok rows
        /\ Orm.lists
             (matches has filter_brand filter_price_min filter_price_max search)
             None skip limit db rows
  | Orm.By c =>
      exists rows,
        out = Ok rows
        /\ ((c = Rating -> no_nan db) ->
            Orm.lists
              (matches has filter_brand filter_price_min filter_price_max search)
              (Some (in_order c (is_desc sort_order))) skip limit db rows)
  end.

End Sneakers.

(* ================================================================= *)
(** ** app.py *)

Module Cars.
Import Py.
Local Open Scope string_scope.

Record Car : Type := {
  id : Z;
  make : option string;
  model : option string;
  year : option Z;
  color : option string;
  views : option Z
}.

Definition Table : Type := list Car.

Record CarCreate : Type := {
  c_make : string;
  c_model : string;
  c_year : Z;
  c_color : string
}.

Record CarUpdate : Type := {
  u_make : option (option string);
  u_model : option (option string);
  u_year : option (option Z);
  u_color : option (option string)
}.

(** The update request that sets no field. *)
Definition no_fields : CarUpdate :=
  {| u_make := None; u_model := None; u_year := None; u_color := None |}.

Definition with_id (i : Z) (c : Car) : Car :=
  {| id := i; make := make c; model := model c; year := year c;
     color := color c; views := views c |}.

Definition with_views (v : option Z) (c : Car) : Car :=
  {| id := id c; make := make c; model := model c; year := year c;
     color := color c; views := v |}.

Inductive column : Type := Id | Make | Model | Year | Color | Views.

(** What [getattr] finds on the class: a column, the table name, or an
    attribute the class has from [Base]. *)
Inductive attribute : Type :=
| Column (c : column)
| Str (s : string)
| Inherited.

Definition tablename : string := "cars".

Definition column_le (c : column) (a b : Car) : bool :=
  match c with
  | Id => Z.leb (id a) (id b)
  | Make => Orm.null_first String.leb (make a) (make b)
  | Model => Orm.null_first String.leb (model a) (model b)
  | Year => Orm.null_first Z.leb (year a) (year b)
  | Color => Orm.null_first String.leb (color a) (color b)
  | Views => Orm.null_first Z.leb (views a) (views b)
  end.

(** The row an INSERT of the object stores: its integers are bound. *)
Definition bind_row (c : Car) : result Car :=
  y <~ Orm.bind_int (year c) ;;
  v <~ Orm.bind_int (views c) ;;
  Ok {| id := id c; make := make c; model := model c; year := y;
        color := color c; views := v |}.

(** The row an UPDATE leaves: the attributes that changed are bound. *)
Definition flush (old new : Car) : result Car :=
  y <~ Orm.flush_int (year old) (year new) ;;
  v <~ Orm.flush_int (views old) (views new) ;;
  Ok {| id := id old; make := make new; model := model new; year := y;
        color := color new; views := v |}.

Inductive item : Type :=
| make_item (v : option string)
| model_item (v : option string)
| year_item (v : option Z)
| color_item (v : option string).

Definition set_items {A} (f : option A) (mk : A -> item) : list item :=
  match f with
  | Some v => [mk v]
  | None => []
  end.

Definition dict_exclude_unset (u : CarUpdate) : list item :=
  set_items (u_make u) make_item ++ set_items (u_model u) model_item
  ++ set_items (u_year u) year_item ++ set_items (u_color u) color_item.

Definition setattr (c : Car) (kv : item) : Car :=
  match kv with
  | make_item v =>
      {| id := id c; make := v; model := model c; year := year c;
         color := color c; views := views c |}
  | model_item v =>
      {| id := id c; make := make c; model := v; year := year c;
         color := color c; views := views c |}
  | year_item v =>
      {| id := id c; make := make c; model := model c; year := v;
         color := color c; views := views c |}
  | color_item v =>
      {| id := id c; make := make c; model := model c; year := year c;
         color := v; views := views c |}
  end.

Definition by_id (car_id : Z) : Orm.Query Car :=
  Orm.filter Orm.query (Orm.eq_key id car_id).

Definition not_found {A} : Orm.Handler Car A :=
  Orm.raise (HTTPException 404 "Car not found").

Section Handlers.
Variable contains : string -> string -> bool.

(** The names, other than those the class body declares, under which the
    class has an attribute that is not [None] ([metadata], [registry],
    [__init__] and the like, from [Base] and [object]); none of them is
    a column. *)
Variable inherited : string -> bool.

(** The order in which the store yields rows with equal sort keys. *)
Variable ties : Orm.Ties Car column.

(** [getattr(Car, attr, None)]. *)
Definition getattr (attr : string) : option attribute :=
  if String.eqb attr "id" then Some (Column Id)
  else if String.eqb attr "make" then Some (Column Make)
  else if String.eqb attr "model" then Some (Column Model)
  else if String.eqb attr "year" then Some (Column Year)
  else if String.eqb attr "color" then Some (Column Color)
  else if String.eqb attr "views" then Some (Column Views)
  else if String.eqb attr "__tablename__" then Some (Str tablename)
  else if inherited attr then Some Inherited
  else None.

Definition asc (a : attribute) : result (Orm.OrderBy Car) :=
  match a with
  | Column c => Ok {| Orm.ob_le := column_le c; Orm.ob_tie := ties c false |}
  | Str _ | Inherited => Raised AttributeError
  end.

Definition desc (a : attribute) : result (Orm.OrderBy Car) :=
  match a with
  | Column c =>
      Ok {| Orm.ob_le := fun x y => column_le c y x; Orm.ob_tie := ties c true |}
  | Str _ | Inherited => Raised AttributeError
  end.

Definition read_cars (skip limit : Z) (sort_by : option string)
    (sort_order : string) (filter_make : option string)
    (filter_year : option Z) (search : option string)
  : Orm.Handler Car (list Car) :=
  let query := Orm.query in
  let query :=
    if_str filter_make
      (fun v => Orm.filter query (Orm.eq_str make v)) query in
  let query :=
    if_int filter_year
      (fun v => Orm.filter query (Orm.eq_int year v)) query in
  let query :=
    if_str search
      (fun s => Orm.filter query
                  (Orm.or_ (Orm.has contains make s) (Orm.has contains model s)))
      query in
  query <-
    if_str sort_by
      (fun attr =>
         match getattr attr with
         | Some column =>
             if String.eqb (lower sort_order) "desc"
             then (o <- Orm.lift (desc column) ;; Orm.ret (Orm.order_by query o))
             else (o <- Orm.lift (asc column) ;; Orm.ret (Orm.order_by query o))
         | None => Orm.ret query
         end)
      (Orm.ret query) ;;
  Orm.run (Orm.all (Orm.limit (Orm.offset query skip) limit)).

(** The WHERE clauses a request adds, in order: a filter that is absent,
    empty or zero adds none. *)
Definition clauses (filter_make : option string) (filter_year : option Z)
    (search : option string) : list (Orm.Clause Car) :=
  if_str filter_make (fun v => [Orm.eq_str make v]) []
  ++ if_int filter_year (fun v => [Orm.eq_int year v]) []
  ++ if_str search
       (fun s => [Orm.or_ (Orm.has contains make s) (Orm.has contains model s)])
       [].

(** The ORDER BY a request asks for: none, a term, or the exception that
    resolving [sort_by] raises. *)
Definition ordering (sort_by : option string) (sort_order : string)
  : result (option (Orm.OrderBy Car)) :=
  if_str sort_by
    (fun attr =>
       match getattr attr with
       | Some column =>
           if String.eqb (lower sort_order) "desc"
           then (o <~ desc column ;; Ok (Some o))
           else (o <~ asc column ;; Ok (Some o))
       | None => Ok None
       end)
    (Ok None).

End Handlers.

Definition read_car (car_id : Z) : Orm.Handler Car Car :=
  car <- Orm.run (Orm.first (by_id car_id)) ;;
  match car with
  | None => not_found
  | Some loaded =>
      v <- Orm.lift (add_int (views loaded) 1) ;;
      let car := with_views (Some v) loaded in
      Orm.commit_update id flush loaded car ;;;
      Orm.db_refresh id car
  end.

Definition create_car (car : CarCreate) : Orm.Handler Car Car :=
  let db_car :=
    {| id := 0; make := Some (c_make car); model := Some (c_model car);
       year := Some (c_year car); color := Some (c_color car);
       views := Some 0 |} in
  db_car <- Orm.commit_insert id with_id bind_row db_car ;;
  Orm.db_refresh id db_car.

Definition update_car (car_id : Z) (car : CarUpdate) : Orm.Handler Car Car :=
  db_car <- Orm.run (Orm.first (by_id car_id)) ;;
  match db_car with
  | None => not_found
  | Some loaded =>
      let db_car := fold_left setattr (dict_exclude_unset car) loaded in
      Orm.commit_update id flush loaded db_car ;;;
      Orm.db_refresh id db_car
  end.

Definition delete_car (car_id : Z) : Orm.Handler Car unit :=
  db_car <- Orm.run (Orm.first (by_id car_id)) ;;
  match db_car with
  | None => not_found
  | Some db_car => Orm.commit_delete id db_car
  end.

(** The requests of the service, by route, and the table each leaves. *)
Inductive request : Type :=
| GET_list (skip limit : Z) (sort_by : option string) (sort_order : string)
    (filter_make : option string) (filter_year : option Z)
    (search : option string)
| GET_one (car_id : Z)
| POST (car : CarCreate)
| PUT (car_id : Z) (car : CarUpdate)
| DELETE (car_id : Z).

Definition serve (contains : string -> string -> bool)
    (inherited : string -> bool) (ties : Orm.Ties Car column)
    (req : request) (db : Table) : Table :=
  match req with
  | GET_list skip limit sort_by sort_order filter_make filter_year search =>
      snd (read_cars contains inherited ties skip limit sort_by sort_order
             filter_make filter_year search db)
  | GET_one car_id => snd (read_car car_id db)
  | POST car => snd (create_car car db)
  | PUT car_id car => snd (update_car car_id car db)
  | DELETE car_id => snd (delete_car car_id db)
  end.

(** The views counter of a car is a number, and not below zero. *)
Definition views_nonneg (c : Car) : Prop :=
  exists v, views c = Some v /\ 0 <= v.

(** *** What a list request asks for *)

Definition columns : list column := [Id; Make; Model; Year; Color; Views].

Definition column_name (c : column) : string :=
  match c with
  | Id => "id"
  | Make => "make"
  | Model => "model"
  | Year => "year"
  | Color => "color"
  | Views => "views"
  end.

(** The sort a [sort_by] asks for: none when it is absent, empty or no
    name of the class; by the column it names; and a sort that cannot be
    made when it names the table name or an inherited attribute. *)
Definition sort_of (inherited : string -> bool) (sort_by : option string)
  : Orm.sort column :=
  match sort_by with
  | None => Orm.Unsorted
  | Some attr =>
      if String.eqb attr "" then Orm.Unsorted
      else
        match find (fun c => String.eqb attr (column_name c)) columns with
        | Some c => Orm.By c
        | None =>
            if String.eqb attr "__tablename__" || inherited attr
            then Orm.NotAColumn
            else Orm.Unsorted
        end
  end.

Definition value_of (c : column) (r : Car) : Orm.value :=
  match c with
  | Id => Orm.Int (id r)
  | Make => Orm.of_text (make r)
  | Model => Orm.of_text (model r)
  | Year => Orm.of_int (year r)
  | Color => Orm.of_text (color r)
  | Views => Orm.of_int (views r)
  end.

(** [a] may come before [b] in a sort by [c]: its value is at most that
    of [b], or at least that of [b] when the sort is descending. *)
Definition in_order (c : column) (descending : bool) (a b : Car) : Prop :=
  if descending
  then Orm.value_le (value_of c b) (value_of c a)
  else Orm.value_le (value_of c a) (value_of c b).

(** The rows a request selects: each filter given with a value other
    than the empty string or zero holds, and a search string other than
    the empty one is in the make or in the model, for what [has] takes
    a text to have in it. *)
Definition matches (has : string -> string -> Prop)
    (filter_make : option string) (filter_year : option Z)
    (search : option string) (c : Car) : Prop :=
  (forall v, filter_make = Some v -> v <> "" -> make c = Some v)
  /\ (forall v, filter_year = Some v -> v <> 0 -> year c = Some v)
  /\ (forall s, search = Some s -> s <> "" ->
        (exists x, make c = Some x /\ has x s)
        \/ (exists x, model c = Some x /\ has x s)).

(** What a list request is to answer on a table: no rows, but the
    exception, when its sort cannot be made; and else the page of the
    rows it selects, in the order of the table or of the sort. *)
Definition answers (has : string -> string -> Prop) (inherited : string -> bool)
    (skip limit : Z) (sort_by : option string) (sort_order : string)
    (filter_make : option string) (filter_year : option Z)
    (search : option string) (db : Table) (out : result (list Car))
  : Prop :=
  match sort_of inherited sort_by with
  | Orm.NotAColumn => out = Raised AttributeError
  | Orm.Unsorted =>
      exists rows,
        out = Ok rows
        /\ Orm.lists (matches has filter_make filter_year search) None
             skip limit db rows
  | Orm.By c =>
      exists rows,
        out = Ok rows
        /\ Orm.lists (matches has filter_make filter_year search)
             (Some (in_order c (is_desc sort_order))) skip limit db rows
  end.

End Cars.

(* ================================================================= *)
(** ** Requests and rows used as examples *)

Module Examples.
Local Open Scope string_scope.

(** Some of the names a declarative class has from [Base] and [object]. *)
Definition base_attribute (attr : string) : bool :=
  String.eqb attr "metadata" || String.eqb attr "registry"
  || String.eqb attr "__init__" || String.eqb attr "__class__".

(** Two of the choices a store can make among rows with equal sort keys:
    to yield them in the order of the table, as a sort of the scanned
    rows does, and against it, as a walk down an index does. *)
Definition scan_order {Row Column : Type} : Orm.Ties Row Column :=
  fun _ _ _ _ _ _ _ => true.


Definition drink_XY : Energy.EnergyDrinkCreate :=
  {| Energy.c_brand := "X"; Energy.c_name := "Y"; Energy.c_volume_ml := 250;
     Energy.c_price := 100; Energy.c_stock := 5 |}.

(** The row [create_energy_drink drink_XY] stores in an empty table. *)
Definition drink_1 : Energy.EnergyDrink :=
  {| Energy.id := 1; Energy.brand := Some "X"; Energy.name := Some "Y";
     Energy.volume_ml := Some 250; Energy.price := Some 100;
     Energy.stock := Some 5 |}.

(** A second drink, cheaper than the first, and a third and a fourth of
    the brands of the first two. *)
Definition drink_2 : Energy.EnergyDrink :=
  {| Energy.id := 2; Energy.brand := Some "Z"; Energy.name := Some "W";
     Energy.volume_ml := Some 500; Energy.price := Some 50;
     Energy.stock := Some 7 |}.

Definition drink_3 : Energy.EnergyDrink :=
  {| Energy.id := 3; Energy.brand := Some "X"; Energy.name := Some "V";
     Energy.volume_ml := Some 250; Energy.price := Some 80;
     Energy.stock := Some 0 |}.

Definition drink_4 : Energy.EnergyDrink :=
  {| Energy.id := 4; Energy.brand := Some "Z"; Energy.name := Some "U";
     Energy.volume_ml := Some 330; Energy.price := Some 120;
     Energy.stock := Some 1 |}.

Definition drinks : Energy.Table := [drink_1; drink_2; drink_3; drink_4].

Definition drink_oversold : Energy.EnergyDrinkCreate :=
  {| Energy.c_brand := "X"; Energy.c_name := "Y"; Energy.c_volume_ml := 250;
     Energy.c_price := 100; Energy.c_stock := -1 |}.

(** The update request [{"stock": null}]. *)
Definition stock_null : Energy.EnergyDrinkUpdate :=
  {| Energy.u_brand := None; Energy.u_name := None; Energy.u_volume_ml := None;
     Energy.u_price := None; Energy.u_stock := Some None |}.

Definition sneaker_AB : Sneakers.SneakerCreate :=
  {| Sneakers.c_brand := "A"; Sneakers.c_model := "B"; Sneakers.c_price := 90 |}.

Definition sneaker_1 : Sneakers.Sneaker :=
  {| Sneakers.id := 1; Sneakers.brand := Some "A"; Sneakers.model := Some "B";
     Sneakers.price := Some 90; Sneakers.rating := Some 0%float |}.

(** A second sneaker, dearer than the first. *)
Definition sneaker_2 : Sneakers.Sneaker :=
  {| Sneakers.id := 2; Sneakers.brand := Some "C"; Sneakers.model := Some "D";
     Sneakers.price := Some 120; Sneakers.rating := Some 3%float |}.

(** The update request [{"rating": 7.0}]. *)
Definition rating_7 : Sneakers.SneakerUpdate :=
  {| Sneakers.u_brand := None; Sneakers.u_model := None;
     Sneakers.u_price := None; Sneakers.u_rating := Some (Some 7%float) |}.

(** The update request [{"rating": NaN}]. *)
Definition rating_nan : Sneakers.SneakerUpdate :=
  {| Sneakers.u_brand := None; Sneakers.u_model := None;
     Sneakers.u_price := None; Sneakers.u_rating := Some (Some nan) |}.

Definition car_MN : Cars.CarCreate :=
  {| Cars.c_make := "M"; Cars.c_model := "N"; Cars.c_year := 2020;
     Cars.c_color := "red" |}.

Definition car_1 : Cars.Car :=
  {| Cars.id := 1; Cars.make := Some "M"; Cars.model := Some "N";
     Cars.year := Some 2020; Cars.color := Some "red"; Cars.views := Some 0 |}.

End Examples.

(* ================================================================= *)
(** * Properties *)

Import Py.

(** ** Values the store takes *)

Lemma int64_fits (n : Z) : Orm.int64 n = true <-> Orm.fits64 n.
Proof.
  unfold Orm.int64, Orm.fits64. rewrite andb_true_iff, Z.leb_le, Z.ltb_lt.
  reflexivity.
Qed.

Lemma int64_true (n : Z) : Orm.fits64 n -> Orm.int64 n = true.
Proof. apply int64_fits. Qed.

Lemma int64_false (n : Z) : ~ Orm.fits64 n -> Orm.int64 n = false.
Proof.
  intros H. destruct (Orm.int64 n) eqn:E; [|reflexivity].
  exfalso. apply H. apply int64_fits. exact E.
Qed.

Lemma fits64_dec (n : Z) : Orm.fits64 n \/ ~ Orm.fits64 n.
Proof. unfold Orm.fits64. lia. Qed.

Lemma eq_int_true (a b : option Z) : Py.eq_int a b = true <-> a = b.
Proof.
  destruct a as [x|], b as [y|]; simpl; try (split; congruence).
  rewrite Z.eqb_eq. split; congruence.
Qed.

Lemma flush_int_writable (old new : option Z) :
  Orm.writable old new -> Orm.flush_int old new = Ok new.
Proof.
  unfold Orm.writable, Orm.flush_int. intros H.
  destruct (Py.eq_int new old) eqn:E.
  - apply eq_int_true in E. congruence.
  - destruct H as [->|H].
    + assert (Py.eq_int old old = true) by (apply eq_int_true; reflexivity).
      congruence.
    + destruct new as [n|]; simpl; [|reflexivity].
      rewrite int64_true by exact H. reflexivity.
Qed.

Lemma flush_int_overflow (old new : option Z) :
  ~ Orm.writable old new -> Orm.flush_int old new = Raised OverflowError.
Proof.
  unfold Orm.writable, Orm.flush_int. intros H.
  destruct (Py.eq_int new old) eqn:E.
  - apply eq_int_true in E. exfalso. apply H. left. exact E.
  - destruct new as [n|]; simpl; [|exfalso; apply H; right; exact I].
    rewrite int64_false; [reflexivity|]. intros Hn. apply H. right. exact Hn.
Qed.

Lemma writable_dec (old new : option Z) :
  Orm.writable old new \/ ~ Orm.writable old new.
Proof.
  unfold Orm.writable.
  destruct (Py.eq_int new old) eqn:E.
  - left. left. apply eq_int_true. exact E.
  - assert (new <> old) as Hne.
    { intros ->. assert (Py.eq_int old old = true)
        by (apply eq_int_true; reflexivity). congruence. }
    destruct new as [n|]; [|left; right; exact I].
    destruct (fits64_dec n) as [Hn|Hn]; [left; right; exact Hn|].
    right. intros [H|H]; [apply Hne; exact H | apply Hn; exact H].
Qed.

Lemma bind_int_fits (n : Z) : Orm.fits64 n -> Orm.bind_int (Some n) = Ok (Some n).
Proof. intros H. unfold Orm.bind_int. rewrite int64_true by exact H. reflexivity. Qed.

Lemma bind_int_overflow (n : Z) :
  ~ Orm.fits64 n -> Orm.bind_int (Some n) = Raised OverflowError.
Proof. intros H. unfold Orm.bind_int. rewrite int64_false by exact H. reflexivity. Qed.

(** ** Floats *)

Section FloatFacts.



Lemma SFcompare_refl (x : spec_float) : x <> S754_nan -> SFcompare x x = Some Eq.
Proof.
  destruct x as [s|s| |s m e]; simpl; intros Hx; try congruence.
  - destruct s; reflexivity.
  - rewrite Z.compare_refl.
    assert (Pos.compare_cont Eq m m = Eq) as -> by apply Pos.compare_cont_refl.
    destruct s; reflexivity.
Qed.

Lemma is_nan_false (f : float) : PrimFloat.is_nan f = false <-> Prim2SF f <> S754_nan.
Proof.
  unfold PrimFloat.is_nan. rewrite eqb_spec. unfold SFeqb. split.
  - intros H Hn. rewrite Hn in H. simpl in H. discriminate.
  - intros Hn. rewrite SFcompare_refl by exact Hn. reflexivity.
Qed.


Lemma float_leb_not_nan (a b : float) : PrimFloat.leb a b = true -> PrimFloat.is_nan b = false.
Proof.
  rewrite is_nan_false, leb_spec. unfold SFleb. intros H Hb. rewrite Hb in H.
  destruct (Prim2SF a); simpl in H; discriminate.
Qed.

Lemma SFcompare_Eq (x y : spec_float) :
  SFcompare x y = Some Eq ->
  x = y \/ exists s t, x = S754_zero s /\ y = S754_zero t.
Proof.
  destruct x as [sx|sx| |sx mx ex], y as [sy|sy| |sy my ey]; simpl;
    try discriminate; intros H;
    try (destruct sx; discriminate H); try (destruct sy; discriminate H).
  - right. eauto.
  - left. destruct sx, sy; try discriminate H; reflexivity.
  - left. destruct sx, sy; try discriminate H;
      (destruct (ex ?= ey)%Z eqn:E; try discriminate H;
       apply Z.compare_eq in E; subst ey;
       assert (Pos.compare_cont Eq mx my = Eq) as Hm
         by (destruct (Pos.compare_cont Eq mx my); simpl in H; congruence);
       apply Pcompare_Eq_eq in Hm; subst; reflexivity).
Qed.

(** Two floats that compare equal are the same float, unless they are
    zeros. *)
Lemma float_eqb_exact (f o : float) :
  PrimFloat.eqb f o = true -> PrimFloat.eqb f 0 = false -> o = f.
Proof.
  rewrite !eqb_spec. unfold SFeqb. intros Hfo Hf0.
  destruct (SFcompare (Prim2SF f) (Prim2SF o)) as [[| |]|] eqn:E; try discriminate.
  apply SFcompare_Eq in E. destruct E as [E|(s & t & Hs & Ht)].
  - symmetry. apply Prim2SF_inj. exact E.
  - rewrite Hs in Hf0. vm_compute in Hf0. discriminate.
Qed.

Lemma zero_signs_differ : 0%float <> (-0)%float.
Proof.
  intros H.
  assert (PrimFloat.get_sign 0 = PrimFloat.get_sign (-0)) as Hs
    by (rewrite <- H; reflexivity).
  vm_compute in Hs. discriminate.
Qed.

End FloatFacts.

(** What the store keeps of a float that is written. *)
Lemma bind_float_value (f : float) :
  if PrimFloat.is_nan f then Orm.bind_float (Some f) = None
  else exists f', Orm.bind_float (Some f) = Some f'
                  /\ PrimFloat.eqb f f' = true
                  /\ (PrimFloat.eqb f 0 = false -> f' = f).
Proof.
  unfold Orm.bind_float. destruct (PrimFloat.is_nan f) eqn:En; [reflexivity|].
  destruct (PrimFloat.eqb f 0) eqn:E0.
  - exists 0%float. split; [reflexivity|]. split; [exact E0 | discriminate].
  - exists f. split; [reflexivity|]. split; [|reflexivity].
    unfold PrimFloat.is_nan in En. apply negb_false_iff in En. exact En.
Qed.

Lemma nan_eqb_false (f o : float) :
  PrimFloat.is_nan f = true -> PrimFloat.eqb f o = false.
Proof.
  intros Hn. destruct (PrimFloat.eqb f o) eqn:E; [|reflexivity].
  assert (PrimFloat.is_nan f = false); [|congruence].
  apply is_nan_false. intros Hf. rewrite eqb_spec in E. unfold SFeqb in E.
  rewrite Hf in E. simpl in E. discriminate.
Qed.

Lemma flush_float_value (old : option float) (f : float) :
  if PrimFloat.is_nan f then Orm.flush_float old (Some f) = None
  else exists f', Orm.flush_float old (Some f) = Some f'
                  /\ PrimFloat.eqb f f' = true
                  /\ (PrimFloat.eqb f 0 = false -> f' = f).
Proof.
  unfold Orm.flush_float.
  destruct (Py.eq_float (Some f) old) eqn:E; [|apply bind_float_value].
  destruct old as [o|]; simpl in E; [|discriminate].
  destruct (PrimFloat.is_nan f) eqn:En.
  - rewrite (nan_eqb_false f o En) in E. discriminate.
  - exists o. split; [reflexivity|]. split; [exact E|].
    intros H0. apply float_eqb_exact; assumption.
Qed.

Lemma flush_float_unset (old : option float) :
  (forall o, old = Some o -> PrimFloat.is_nan o = false) ->
  Orm.flush_float old old = old.
Proof.
  intros Hold. unfold Orm.flush_float.
  destruct (Py.eq_float old old) eqn:E; [reflexivity|].
  destruct old as [o|]; simpl in E; [|discriminate].
  specialize (Hold o eq_refl). unfold PrimFloat.is_nan in Hold.
  apply negb_false_iff in Hold. congruence.
Qed.

Lemma flush_float_null (old : option float) : Orm.flush_float old None = None.
Proof.
  unfold Orm.flush_float. destruct old; reflexivity.
Qed.

Lemma flush_float_again (old new : option float) :
  Orm.flush_float (Orm.flush_float old new) new = Orm.flush_float old new.
Proof.
  unfold Orm.flush_float at 2 3.
  destruct (Py.eq_float new old) eqn:E.
  - unfold Orm.flush_float. rewrite E. reflexivity.
  - unfold Orm.flush_float, Orm.bind_float.
    destruct new as [f|]; [|reflexivity].
    destruct (PrimFloat.is_nan f) eqn:En; [reflexivity|].
    destruct (PrimFloat.eqb f 0) eqn:E0; simpl.
    + rewrite E0. reflexivity.
    + unfold PrimFloat.is_nan in En. apply negb_false_iff in En.
      rewrite En. reflexivity.
Qed.

(** ** The sort order *)

Lemma lower_is_desc (sort_order : string) :
  String.eqb (lower sort_order) "desc" = Py.is_desc sort_order.
Proof.
  assert (forall x, Ascii.eqb (lower_ascii x) "d" = Ascii.eqb x "d" || Ascii.eqb x "D")
    as Hd by (intros [[] [] [] [] [] [] [] []]; reflexivity).
  assert (forall x, Ascii.eqb (lower_ascii x) "e" = Ascii.eqb x "e" || Ascii.eqb x "E")
    as He by (intros [[] [] [] [] [] [] [] []]; reflexivity).
  assert (forall x, Ascii.eqb (lower_ascii x) "s" = Ascii.eqb x "s" || Ascii.eqb x "S")
    as Hs by (intros [[] [] [] [] [] [] [] []]; reflexivity).
  assert (forall x, Ascii.eqb (lower_ascii x) "c" = Ascii.eqb x "c" || Ascii.eqb x "C")
    as Hc by (intros [[] [] [] [] [] [] [] []]; reflexivity).
  destruct sort_order as [|c1 [|c2 [|c3 [|c4 [|c5 rest]]]]]; simpl;
    rewrite ?Hd, ?He, ?Hs, ?Hc; try reflexivity.
  - destruct (_ || _); reflexivity.
  - destruct (_ || _); [|reflexivity]. destruct (_ || _); reflexivity.
  - destruct (_ || _); [|reflexivity]. destruct (_ || _); [|reflexivity].
    destruct (_ || _); reflexivity.
  - destruct (_ || _); [|reflexivity]. destruct (_ || _); [|reflexivity].
    destruct (_ || _); [|reflexivity]. destruct (_ || _); reflexivity.
  - destruct (_ || _); [|reflexivity]. destruct (_ || _); [|reflexivity].
    destruct (_ || _); [|reflexivity]. destruct (_ || _); reflexivity.
Qed.

(** ** LIKE *)




(** ** The store: lookups and commits *)

Section OrmFacts.
Context {Row : Type}.
Variable pk : Row -> Z.
Variable with_pk : Z -> Row -> Row.

Lemma first_by_key (i : Z) (db : list Row) :
  Orm.first (Orm.filter Orm.query (Orm.eq_key pk i)) db
  = if Orm.int64 i then Ok (Orm.at_key pk i db) else Raised OverflowError.
Proof.
  unfold Orm.first, Orm.all, Orm.bound, Orm.selects, Orm.at_key; simpl.
  destruct (Orm.int64 i); simpl; [|reflexivity]. f_equal.
  induction db as [|r db IH]; simpl; [reflexivity|].
  rewrite andb_true_r. destruct (Z.eqb (pk r) i); simpl; [reflexivity | exact IH].
Qed.

Lemma first_by_key_fits (i : Z) (db : list Row) :
  Orm.fits64 i ->
  Orm.first (Orm.filter Orm.query (Orm.eq_key pk i)) db = Ok (Orm.at_key pk i db).
Proof.
  intros Hi. rewrite first_by_key, int64_true by exact Hi. reflexivity.
Qed.

Lemma first_by_key_overflow (i : Z) (db : list Row) :
  ~ Orm.fits64 i ->
  Orm.first (Orm.filter Orm.query (Orm.eq_key pk i)) db = Raised OverflowError.
Proof.
  intros Hi. rewrite first_by_key, int64_false by exact Hi. reflexivity.
Qed.

Lemma at_key_some (i : Z) (db : list Row) (d : Row) :
  Orm.at_key pk i db = Some d -> pk d = i /\ In d db.
Proof.
  unfold Orm.at_key. intros H. apply find_some in H. destruct H as [Hin Heq].
  apply Z.eqb_eq in Heq. split; assumption.
Qed.

Lemma at_key_put_same (i : Z) (db : list Row) (d row : Row) :
  Orm.at_key pk i db = Some d -> pk row = i ->
  Orm.at_key pk i (Orm.put pk i row db) = Some row.
Proof.
  unfold Orm.at_key, Orm.put. intros Hfind Hrow.
  induction db as [|r db IH]; simpl in *; [discriminate|].
  destruct (Z.eqb (pk r) i) eqn:E.
  - rewrite Hrow, Z.eqb_refl. reflexivity.
  - rewrite E. apply IH. exact Hfind.
Qed.

Lemma at_key_put_other (i j : Z) (db : list Row) (row : Row) :
  pk row = i -> j <> i ->
  Orm.at_key pk j (Orm.put pk i row db) = Orm.at_key pk j db.
Proof.
  unfold Orm.at_key, Orm.put. intros Hrow Hne.
  induction db as [|r db IH]; simpl; [reflexivity|].
  destruct (Z.eqb (pk r) i) eqn:E.
  - apply Z.eqb_eq in E.
    assert (Z.eqb (pk row) j = false) as -> by (apply Z.eqb_neq; lia).
    assert (Z.eqb (pk r) j = false) as -> by (apply Z.eqb_neq; lia).
    exact IH.
  - destruct (Z.eqb (pk r) j); [reflexivity | exact IH].
Qed.

Lemma put_unchanged (db : list Row) (d : Row) :
  (forall r, In r db -> pk r = pk d -> r = d) ->
  Orm.put pk (pk d) d db = db.
Proof.
  intros H. unfold Orm.put.
  induction db as [|r db IH]; simpl; [reflexivity|].
  rewrite IH by (intros; apply H; [right|]; assumption).
  destruct (Z.eqb (pk r) (pk d)) eqn:E; [|reflexivity].
  apply Z.eqb_eq in E. rewrite (H r); [reflexivity | left; reflexivity | exact E].
Qed.

Lemma unique_pk_inj (db : list Row) (a b : Row) :
  Orm.unique_pk pk db -> In a db -> In b db -> pk a = pk b -> a = b.
Proof.
  unfold Orm.unique_pk. induction db as [|x db IH]; simpl; [contradiction|].
  intros Hnd Ha Hb Hab. inversion Hnd as [|? ? Hx Hnd']; subst.
  destruct Ha as [->|Ha]; destruct Hb as [->|Hb].
  - reflexivity.
  - exfalso. apply Hx. rewrite Hab. apply in_map. exact Hb.
  - exfalso. apply Hx. rewrite <- Hab. apply in_map. exact Ha.
  - apply IH; assumption.
Qed.

Lemma put_same_row (i : Z) (db : list Row) (d : Row) :
  Orm.unique_pk pk db -> Orm.at_key pk i db = Some d -> Orm.put pk i d db = db.
Proof.
  intros Hu Hfind. destruct (at_key_some _ _ _ Hfind) as [Hid Hin].
  rewrite <- Hid. apply put_unchanged. intros r Hr Hpk.
  apply (unique_pk_inj db); assumption.
Qed.

Lemma put_put (i : Z) (r1 r2 : Row) (db : list Row) :
  pk r1 = i -> Orm.put pk i r2 (Orm.put pk i r1 db) = Orm.put pk i r2 db.
Proof.
  intros Hpk. unfold Orm.put. rewrite map_map. apply map_ext.
  intros r. destruct (Z.eqb (pk r) i) eqn:E; [|rewrite E; reflexivity].
  rewrite Hpk, Z.eqb_refl. reflexivity.
Qed.

Lemma map_pk_put (i : Z) (row : Row) (db : list Row) :
  pk row = i -> map pk (Orm.put pk i row db) = map pk db.
Proof.
  intros Hrow. unfold Orm.put. rewrite map_map. apply map_ext.
  intros r. destruct (Z.eqb_spec (pk r) i); congruence.
Qed.

(** Rows of the table after each kind of commit. *)
Lemma Forall_put (P : Row -> Prop) (i : Z) (row : Row) (db : list Row) :
  Forall P db -> P row -> Forall P (Orm.put pk i row db).
Proof.
  intros Hdb Hrow. unfold Orm.put. apply Forall_map.
  apply Forall_impl with (P := P); [|exact Hdb].
  intros r Hr. destruct (Z.eqb (pk r) i); assumption.
Qed.

Lemma Forall_delete (P : Row -> Prop) (obj : Row) (db : list Row) :
  Forall P db -> Forall P (Orm.delete pk obj db).
Proof.
  intros Hdb. unfold Orm.delete. apply Forall_forall.
  intros r Hr. apply filter_In in Hr. destruct Hr as [Hr _].
  rewrite Forall_forall in Hdb. apply Hdb. exact Hr.
Qed.

Lemma at_key_delete_same (obj : Row) (db : list Row) :
  Orm.at_key pk (pk obj) (Orm.delete pk obj db) = None.
Proof.
  unfold Orm.at_key, Orm.delete. induction db as [|x db IH]; simpl; [reflexivity|].
  destruct (Z.eqb (pk x) (pk obj)) eqn:E; simpl; [exact IH|].
  rewrite E. exact IH.
Qed.

Lemma at_key_delete_other (j : Z) (obj : Row) (db : list Row) :
  j <> pk obj ->
  Orm.at_key pk j (Orm.delete pk obj db) = Orm.at_key pk j db.
Proof.
  intros Hj. unfold Orm.at_key, Orm.delete.
  induction db as [|x db IH]; simpl; [reflexivity|].
  destruct (Z.eqb (pk x) (pk obj)) eqn:E; simpl.
  - apply Z.eqb_eq in E.
    assert (Z.eqb (pk x) j = false) as -> by (apply Z.eqb_neq; lia).
    exact IH.
  - destruct (Z.eqb (pk x) j); [reflexivity | exact IH].
Qed.

(** A new row gets a key no row of the table has, and is found under it. *)
Lemma next_pk_above (db : list Row) (r : Row) :
  In r db -> pk r < Orm.next_pk pk db.
Proof.
  unfold Orm.next_pk. induction db as [|x db IH]; cbn [fold_right In];
    [contradiction|].
  set (m := fold_right (fun r m => Z.max (pk r) m) 0 db) in *.
  pose proof (Z.le_max_l (pk x) m). pose proof (Z.le_max_r (pk x) m).
  intros [->|Hin]; [lia|]. specialize (IH Hin). lia.
Qed.

Lemma next_pk_positive (db : list Row) : 1 <= Orm.next_pk pk db.
Proof.
  unfold Orm.next_pk.
  assert (0 <= fold_right (fun r m => Z.max (pk r) m) 0 db); [|lia].
  induction db as [|x db IH]; cbn [fold_right]; [lia|].
  pose proof (Z.le_max_r (pk x) (fold_right (fun r m => Z.max (pk r) m) 0 db)).
  lia.
Qed.

(** The next key is a key of 64 bits when the table has room above its
    largest key. *)
Lemma next_pk_fits (db : list Row) :
  (forall r, In r db -> pk r < 2 ^ 63 - 1) -> Orm.fits64 (Orm.next_pk pk db).
Proof.
  intros Hroom. pose proof (next_pk_positive db) as Hpos.
  unfold Orm.fits64. split; [lia|]. clear Hpos.
  unfold Orm.next_pk.
  assert (fold_right (fun r m => Z.max (pk r) m) 0 db < 2 ^ 63 - 1); [|lia].
  induction db as [|x db IH]; cbn [fold_right]; [lia|].
  apply Z.max_lub_lt.
  - apply Hroom. left. reflexivity.
  - apply IH. intros r Hr. apply Hroom. right. exact Hr.
Qed.

Lemma at_key_app_new (i : Z) (db : list Row) (row : Row) :
  (forall r, In r db -> pk r < i) -> pk row = i ->
  Orm.at_key pk i (db ++ [row]) = Some row.
Proof.
  unfold Orm.at_key. intros Hlt Hrow. induction db as [|x db IH]; simpl.
  - rewrite Hrow, Z.eqb_refl. reflexivity.
  - assert (Z.eqb (pk x) i = false) as ->.
    { apply Z.eqb_neq. specialize (Hlt x (or_introl eq_refl)). lia. }
    apply IH. intros r Hr. apply Hlt. right. exact Hr.
Qed.

Lemma at_key_app_other (j : Z) (db : list Row) (row : Row) :
  j <> pk row -> Orm.at_key pk j (db ++ [row]) = Orm.at_key pk j db.
Proof.
  unfold Orm.at_key. intros Hrow. induction db as [|x db IH]; simpl.
  - assert (Z.eqb (pk row) j = false) as -> by (apply Z.eqb_neq; congruence).
    reflexivity.
  - destruct (Z.eqb (pk x) j); [reflexivity | exact IH].
Qed.

(** A row appended under the next key is found under that key, and every
    other key reads as before. *)
Lemma lookup_after_insert (db : list Row) (row : Row) :
  pk row = Orm.next_pk pk db ->
  (forall r, In r db -> pk r < pk row)
  /\ Orm.at_key pk (pk row) (db ++ [row]) = Some row
  /\ forall j, j <> pk row ->
       Orm.at_key pk j (db ++ [row]) = Orm.at_key pk j db.
Proof.
  intros Hrow.
  assert (forall r, In r db -> pk r < pk row) as Hlt.
  { intros r Hr. rewrite Hrow. apply next_pk_above. exact Hr. }
  split; [exact Hlt|]. split.
  - apply at_key_app_new; [exact Hlt | reflexivity].
  - intros j Hj. apply at_key_app_other. exact Hj.
Qed.

End OrmFacts.

(** Steps of a handler run on a table. *)
Ltac run_handler :=
  unfold Orm.bind, Orm.run, Orm.lift, Orm.ret, Orm.raise,
    Orm.commit_update, Orm.commit_delete, Orm.commit_insert, Orm.db_refresh.

Section CommitFacts.
Context {Row : Type}.
Variable pk : Row -> Z.
Variable flush : Row -> Row -> result Row.

(** A commit of a changed object and the refresh after it: the row the
    flush leaves is in the table under the key, and is what the refresh
    reads; a flush that raises leaves the table as it was. *)
Lemma update_refresh (i : Z) (db : list Row) (old new : Row) :
  Orm.at_key pk i db = Some old -> pk new = i ->
  (forall row, flush old new = Ok row -> pk row = i) ->
  (Orm.commit_update pk flush old new ;;; Orm.db_refresh pk new) db
  = match flush old new with
    | Ok row => (Ok row, Orm.put pk i row db)
    | Raised e => (Raised e, db)
    end.
Proof.
  intros Hold Hnew Hrow. run_handler. unfold Orm.update, Orm.refresh.
  destruct (at_key_some pk _ _ _ Hold) as [Hi _].
  destruct (flush old new) as [row|e]; simpl; [|reflexivity].
  rewrite Hi, Hnew.
  rewrite (at_key_put_same pk i db old row Hold (Hrow row eq_refl)).
  reflexivity.
Qed.

End CommitFacts.

(** ** Sorting and paging *)

Section SortFacts.
Context {Row : Type}.

Lemma insert_by_Permutation (lt : Row -> Row -> bool) (x : Row) (l : list Row) :
  Permutation (x :: l) (Orm.insert_by lt x l).
Proof.
  induction l as [|y l IH]; simpl; [apply Permutation_refl|].
  destruct (lt x y); [apply Permutation_refl|].
  eapply perm_trans; [apply perm_swap | apply perm_skip; exact IH].
Qed.

Lemma sort_by_Permutation (lt : Row -> Row -> bool) (l : list Row) :
  Permutation l (Orm.sort_by lt l).
Proof.
  induction l as [|x l IH]; simpl; [constructor|].
  eapply perm_trans; [apply perm_skip; exact IH | apply insert_by_Permutation].
Qed.


Variables le tie : Row -> Row -> bool.



End SortFacts.

Section PageFacts.
Context {Row : Type}.





Lemma keeps_In (P : Row -> Prop) (db selected : list Row) (r : Row) :
  Orm.keeps P db selected -> (In r selected <-> In r db /\ P r).
Proof.
  induction 1 as [|x db s Hx _ IH|x db s Hx _ IH]; simpl.
  - tauto.
  - rewrite IH. split.
    + intros [->|[Hin HP]]; tauto.
    + intros [[->|Hin] HP]; tauto.
  - rewrite IH. split.
    + tauto.
    + intros [[->|Hin] HP]; [contradiction | tauto].
Qed.

Lemma take_rows_length (limit : Z) (l : list Row) :
  0 <= limit -> Z.of_nat (List.length (Orm.take_rows (Some limit) l)) <= limit.
Proof.
  intros Hl. unfold Orm.take_rows.
  destruct (Z.ltb_spec limit 0); [lia|].
  rewrite length_firstn. lia.
Qed.





Lemma page_nil (skip limit : Z) :
  Orm.take_rows (Some limit) (Orm.skip_rows (Some skip) (@nil Row)) = [].
Proof.
  unfold Orm.take_rows, Orm.skip_rows. rewrite skipn_nil.
  destruct (Z.ltb limit 0); [|rewrite firstn_nil]; reflexivity.
Qed.

(** The statement of a list request, as the table answers it. *)
Lemma all_statement (ws : list (Orm.Clause Row)) (o : option (Orm.OrderBy Row))
    (skip limit : Z) (db : list Row) :
  let q := {| Orm.q_where := ws; Orm.q_order_by := o;
              Orm.q_offset := Some skip; Orm.q_limit := Some limit |} in
  Orm.all q db
  = if forallb Orm.int64 (flat_map Orm.binds ws) && Orm.int64 limit
       && Orm.int64 skip
    then Ok (Orm.take_rows (Some limit)
               (Orm.skip_rows (Some skip)
                  (Orm.ordered q (List.filter (Orm.selects ws) db))))
    else Raised OverflowError.
Proof.
  intros q. unfold Orm.all, Orm.bound. simpl.
  rewrite forallb_app. simpl. rewrite andb_true_r, andb_assoc. reflexivity.
Qed.


End PageFacts.

Ltac split_str p :=
  destruct p as [p|]; [destruct (String.eqb p EmptyString) eqn:?|].

Ltac split_int p :=
  destruct p as [p|]; [destruct (Z.eqb p 0) eqn:?|].

(** ** WHERE clauses and ORDER BY terms *)

Section ClauseFacts.
Context {Row : Type}.

Lemma holds_eq_str (col : Row -> option string) (v : string) (r : Row) :
  Orm.holds (Orm.eq_str col v) r = true <-> col r = Some v.
Proof.
  simpl. destruct (col r) as [x|]; [|split; discriminate].
  rewrite String.eqb_eq. split; congruence.
Qed.

Lemma holds_eq_int (col : Row -> option Z) (v : Z) (r : Row) :
  Orm.holds (Orm.eq_int col v) r = true <-> col r = Some v.
Proof.
  simpl. destruct (col r) as [x|]; [|split; discriminate].
  rewrite Z.eqb_eq. split; congruence.
Qed.

Lemma holds_ge_int (col : Row -> option Z) (v : Z) (r : Row) :
  Orm.holds (Orm.ge_int col v) r = true <-> exists p, col r = Some p /\ v <= p.
Proof.
  simpl. destruct (col r) as [x|].
  - rewrite Z.leb_le. split.
    + intros H. exists x. split; [reflexivity | exact H].
    + intros (p & Hp & H). injection Hp as ->. exact H.
  - split; [discriminate|]. intros (p & Hp & _). discriminate.
Qed.

Lemma holds_le_int (col : Row -> option Z) (v : Z) (r : Row) :
  Orm.holds (Orm.le_int col v) r = true <-> exists p, col r = Some p /\ p <= v.
Proof.
  simpl. destruct (col r) as [x|].
  - rewrite Z.leb_le. split.
    + intros H. exists x. split; [reflexivity | exact H].
    + intros (p & Hp & H). injection Hp as ->. exact H.
  - split; [discriminate|]. intros (p & Hp & _). discriminate.
Qed.

Lemma holds_has (contains : string -> string -> bool)
    (col : Row -> option string) (s : string) (r : Row) :
  Orm.holds (Orm.has contains col s) r = true
  <-> exists x, col r = Some x /\ contains x s = true.
Proof.
  simpl. destruct (col r) as [x|].
  - split.
    + intros H. exists x. split; [reflexivity | exact H].
    + intros (y & Hy & H). injection Hy as ->. exact H.
  - split; [discriminate|]. intros (y & Hy & _). discriminate.
Qed.

Lemma holds_search (contains : string -> string -> bool)
    (c1 c2 : Row -> option string) (s : string) (r : Row) :
  Orm.holds (Orm.or_ (Orm.has contains c1 s) (Orm.has contains c2 s)) r = true
  <-> (exists x, c1 r = Some x /\ contains x s = true)
      \/ (exists x, c2 r = Some x /\ contains x s = true).
Proof.
  change (Orm.holds (Orm.or_ (Orm.has contains c1 s) (Orm.has contains c2 s)) r)
    with (Orm.holds (Orm.has contains c1 s) r || Orm.holds (Orm.has contains c2 s) r).
  rewrite orb_true_iff, !holds_has. reflexivity.
Qed.

(** A filter guarded by [if p:] restricts the rows only when [p] is given
    and is not the empty string or zero. *)
Lemma if_str_selects (p : option string) (w : string -> Orm.Clause Row)
    (Q : string -> Prop) (r : Row) :
  (forall v, Orm.holds (w v) r = true <-> Q v) ->
  Orm.selects (if_str p (fun v => [w v]) []) r = true
  <-> forall v, p = Some v -> v <> EmptyString -> Q v.
Proof.
  intros Hw. unfold if_str, Orm.selects.
  destruct p as [s|]; [destruct (String.eqb_spec s EmptyString) as [->|Hs]|]; simpl.
  - split; [|reflexivity]. intros _ v Hv Hne. congruence.
  - rewrite andb_true_r, Hw. split.
    + intros HQ v Hv _. injection Hv as <-. exact HQ.
    + intros H. apply H; [reflexivity | exact Hs].
  - split; [|reflexivity]. intros _ v Hv. discriminate.
Qed.

Lemma if_int_selects (p : option Z) (w : Z -> Orm.Clause Row)
    (Q : Z -> Prop) (r : Row) :
  (forall v, Orm.holds (w v) r = true <-> Q v) ->
  Orm.selects (if_int p (fun v => [w v]) []) r = true
  <-> forall v, p = Some v -> v <> 0 -> Q v.
Proof.
  intros Hw. unfold if_int, Orm.selects.
  destruct p as [n|]; [destruct (Z.eqb_spec n 0) as [->|Hn]|]; simpl.
  - split; [|reflexivity]. intros _ v Hv Hne. congruence.
  - rewrite andb_true_r, Hw. split.
    + intros HQ v Hv _. injection Hv as <-. exact HQ.
    + intros H. apply H; [reflexivity | exact Hn].
  - split; [|reflexivity]. intros _ v Hv. discriminate.
Qed.

Lemma selects_app (ws1 ws2 : list (Orm.Clause Row)) (r : Row) :
  Orm.selects (ws1 ++ ws2) r = true
  <-> Orm.selects ws1 r = true /\ Orm.selects ws2 r = true.
Proof.
  unfold Orm.selects. rewrite forallb_app, andb_true_iff. reflexivity.
Qed.

(** The integers the guarded filters bind. *)
Lemma if_int_binds (p : option Z) (w : Z -> Orm.Clause Row) :
  (forall v, Orm.binds (w v) = [v]) ->
  forallb Orm.int64 (flat_map Orm.binds (if_int p (fun v => [w v]) [])) = true
  <-> forall v, p = Some v -> Orm.fits64 v.
Proof.
  intros Hw. unfold if_int.
  destruct p as [n|]; [destruct (Z.eqb_spec n 0) as [->|Hn]|]; simpl.
  - split; [|reflexivity]. intros _ v Hv. injection Hv as <-.
    unfold Orm.fits64. lia.
  - rewrite Hw. simpl. rewrite andb_true_r, int64_fits. split.
    + intros H v Hv. injection Hv as <-. exact H.
    + intros H. apply H. reflexivity.
  - split; [|reflexivity]. intros _ v Hv. discriminate.
Qed.

Lemma if_str_binds (p : option string) (w : string -> Orm.Clause Row) :
  (forall v, Orm.binds (w v) = []) ->
  flat_map Orm.binds (if_str p (fun v => [w v]) []) = [].
Proof.
  intros Hw. unfold if_str.
  destruct p as [s|]; [destruct (String.eqb s EmptyString)|]; simpl;
    rewrite ?Hw; reflexivity.
Qed.

End ClauseFacts.






(** ** The list handlers, as statements *)

(** *** Energy drinks *)

Lemma read_energy_drinks_run (contains : string -> string -> bool)
    (inherited : string -> bool) (ties : Orm.Ties Energy.EnergyDrink Energy.column)
    (skip limit : Z) (sort_by : option string) (sort_order : string)
    (filter_brand : option string) (filter_volume : option Z)
    (search : option string) (db : Energy.Table) :
  Energy.read_energy_drinks contains inherited ties skip limit sort_by sort_order
    filter_brand filter_volume search db
  = match Energy.ordering inherited ties sort_by sort_order with
    | Ok o =>
        (Orm.all {| Orm.q_where :=
                      Energy.clauses contains filter_brand filter_volume search;
                    Orm.q_order_by := o;
                    Orm.q_offset := Some skip;
                    Orm.q_limit := Some limit |} db,
         db)
    | Raised e => (Raised e, db)
    end.
Proof.
  unfold Energy.read_energy_drinks, Energy.ordering.
  set (q := if_str search _ _).
  assert (q = {| Orm.q_where :=
                   Energy.clauses contains filter_brand filter_volume search;
                 Orm.q_order_by := None; Orm.q_offset := None;
                 Orm.q_limit := None |}) as ->.
  { subst q. unfold Energy.clauses, if_str, if_int.
    split_str filter_brand; split_int filter_volume; split_str search;
      reflexivity. }
  run_handler. unfold if_str.
  destruct sort_by as [attr|]; [|reflexivity].
  destruct (String.eqb attr EmptyString); [reflexivity|].
  destruct (Energy.getattr inherited attr) as [[c|t|]|]; [| | |reflexivity];
    destruct (String.eqb (lower sort_order) "desc"); reflexivity.
Qed.

Lemma energy_ordering_sort_of (inherited : string -> bool)
    (ties : Orm.Ties Energy.EnergyDrink Energy.column)
    (sort_by : option string) (sort_order : string) :
  Energy.ordering inherited ties sort_by sort_order
  = match Energy.sort_of inherited sort_by with
    | Orm.Unsorted => Ok None
    | Orm.By c =>
        Ok (Some (if Py.is_desc sort_order
                  then {| Orm.ob_le := fun x y => Energy.column_le c y x;
                          Orm.ob_tie := ties c true |}
                  else {| Orm.ob_le := Energy.column_le c;
                          Orm.ob_tie := ties c false |}))
    | Orm.NotAColumn => Raised AttributeError
    end.
Proof.
  unfold Energy.ordering, Energy.sort_of, if_str. rewrite lower_is_desc.
  destruct sort_by as [attr|]; [|reflexivity].
  destruct (String.eqb attr EmptyString); [reflexivity|].
  unfold Energy.getattr, Energy.columns.
  cbn [find Energy.column_name].
  repeat match goal with
         | |- context [String.eqb attr ?s] =>
             destruct (String.eqb attr s);
             [destruct (Py.is_desc sort_order); reflexivity|]
         end.
  destruct (inherited attr); destruct (Py.is_desc sort_order); reflexivity.
Qed.

Lemma energy_clauses_matches (contains : string -> string -> bool)
    (filter_brand : option string) (filter_volume : option Z)
    (search : option string) (r : Energy.EnergyDrink) :
  Orm.selects (Energy.clauses contains filter_brand filter_volume search) r = true
  <-> Energy.matches (fun x s => contains x s = true)
        filter_brand filter_volume search r.
Proof.
  unfold Energy.clauses, Energy.matches. rewrite !selects_app.
  rewrite (if_str_selects filter_brand _ (fun v => Energy.brand r = Some v))
    by (intros v; apply holds_eq_str).
  rewrite (if_int_selects filter_volume _ (fun v => Energy.volume_ml r = Some v))
    by (intros v; apply holds_eq_int).
  rewrite (if_str_selects search _
             (fun s => (exists x, Energy.brand r = Some x /\ contains x s = true)
                       \/ (exists x, Energy.name r = Some x /\ contains x s = true)))
    by (intros v; apply holds_search).
  reflexivity.
Qed.







(** *** Sneakers *)

Lemma read_sneakers_run (contains : string -> string -> bool)
    (inherited : string -> bool) (ties : Orm.Ties Sneakers.Sneaker Sneakers.column)
    (skip limit : Z) (sort_by : option string) (sort_order : string)
    (filter_brand : option string) (filter_price_min filter_price_max : option Z)
    (search : option string) (db : Sneakers.Table) :
  Sneakers.read_sneakers contains inherited ties skip limit sort_by sort_order
    filter_brand filter_price_min filter_price_max search db
  = match Sneakers.ordering inherited ties sort_by sort_order with
    | Ok o =>
        (Orm.all {| Orm.q_where :=
                      Sneakers.clauses contains filter_brand filter_price_min
                        filter_price_max search;
                    Orm.q_order_by := o;
                    Orm.q_offset := Some skip;
                    Orm.q_limit := Some limit |} db,
         db)
    | Raised e => (Raised e, db)
    end.
Proof.
  unfold Sneakers.read_sneakers, Sneakers.ordering.
  set (q := if_str search _ _).
  assert (q = {| Orm.q_where :=
                   Sneakers.clauses contains filter_brand filter_price_min
                     filter_price_max search;
                 Orm.q_order_by := None; Orm.q_offset := None;
                 Orm.q_limit := None |}) as ->.
  { subst q. unfold Sneakers.clauses, if_str, if_int.
    split_str filter_brand; split_int filter_price_min;
      split_int filter_price_max; split_str search; reflexivity. }
  run_handler. unfold if_str.
  destruct sort_by as [attr|]; [|reflexivity].
  destruct (String.eqb attr EmptyString); [reflexivity|].
  destruct (Sneakers.getattr inherited attr) as [[c|t|]|]; [| | |reflexivity];
    destruct (String.eqb (lower sort_order) "desc"); reflexivity.
Qed.

Lemma sneakers_ordering_sort_of (inherited : string -> bool)
    (ties : Orm.Ties Sneakers.Sneaker Sneakers.column)
    (sort_by : option string) (sort_order : string) :
  Sneakers.ordering inherited ties sort_by sort_order
  = match Sneakers.sort_of inherited sort_by with
    | Orm.Unsorted => Ok None
    | Orm.By c =>
        Ok (Some (if Py.is_desc sort_order
                  then {| Orm.ob_le := fun x y => Sneakers.column_le c y x;
                          Orm.ob_tie := ties c true |}
                  else {| Orm.ob_le := Sneakers.column_le c;
                          Orm.ob_tie := ties c false |}))
    | Orm.NotAColumn => Raised AttributeError
    end.
Proof.
  unfold Sneakers.ordering, Sneakers.sort_of, if_str. rewrite lower_is_desc.
  destruct sort_by as [attr|]; [|reflexivity].
  destruct (String.eqb attr EmptyString); [reflexivity|].
  unfold Sneakers.getattr, Sneakers.columns.
  cbn [find Sneakers.column_name].
  repeat match goal with
         | |- context [String.eqb attr ?s] =>
             destruct (String.eqb attr s);
             [destruct (Py.is_desc sort_order); reflexivity|]
         end.
  destruct (inherited attr); destruct (Py.is_desc sort_order); reflexivity.
Qed.

Lemma sneakers_clauses_matches (contains : string -> string -> bool)
    (filter_brand : option string) (filter_price_min filter_price_max : option Z)
    (search : option string) (r : Sneakers.Sneaker) :
  Orm.selects
    (Sneakers.clauses contains filter_brand filter_price_min filter_price_max
       search) r = true
  <-> Sneakers.matches (fun x s => contains x s = true)
        filter_brand filter_price_min filter_price_max search r.
Proof.
  unfold Sneakers.clauses, Sneakers.matches. rewrite !selects_app.
  rewrite (if_str_selects filter_brand _ (fun v => Sneakers.brand r = Some v))
    by (intros v; apply holds_eq_str).
  rewrite (if_int_selects filter_price_min _
             (fun v => exists p, Sneakers.price r = Some p /\ v <= p))
    by (intros v; apply holds_ge_int).
  rewrite (if_int_selects filter_price_max _
             (fun v => exists p, Sneakers.price r = Some p /\ p <= v))
    by (intros v; apply holds_le_int).
  rewrite (if_str_selects search _
             (fun s => (exists x, Sneakers.brand r = Some x /\ contains x s = true)
                       \/ (exists x, Sneakers.model r = Some x
                                     /\ contains x s = true)))
    by (intros v; apply holds_search).
  reflexivity.
Qed.

Lemma sneakers_clauses_binds (contains : string -> string -> bool)
    (filter_brand : option string) (filter_price_min filter_price_max : option Z)
    (search : option string) :
  forallb Orm.int64
    (flat_map Orm.binds
       (Sneakers.clauses contains filter_brand filter_price_min filter_price_max
          search))
  = true
  <-> (forall v, filter_price_min = Some v -> Orm.fits64 v)
      /\ (forall v, filter_price_max = Some v -> Orm.fits64 v).
Proof.
  unfold Sneakers.clauses. rewrite !flat_map_app.
  rewrite !if_str_binds by reflexivity. rewrite app_nil_r. simpl.
  rewrite forallb_app, andb_true_iff.
  rewrite (if_int_binds filter_price_min) by reflexivity.
  rewrite (if_int_binds filter_price_max) by reflexivity.
  reflexivity.
Qed.






(** *** Cars *)

Lemma read_cars_run (contains : string -> string -> bool)
    (inherited : string -> bool) (ties : Orm.Ties Cars.Car Cars.column)
    (skip limit : Z) (sort_by : option string) (sort_order : string)
    (filter_make : option string) (filter_year : option Z)
    (search : option string) (db : Cars.Table) :
  Cars.read_cars contains inherited ties skip limit sort_by sort_order
    filter_make filter_year search db
  = match Cars.ordering inherited ties sort_by sort_order with
    | Ok o =>
        (Orm.all {| Orm.q_where :=
                      Cars.clauses contains filter_make filter_year search;
                    Orm.q_order_by := o;
                    Orm.q_offset := Some skip;
                    Orm.q_limit := Some limit |} db,
         db)
    | Raised e => (Raised e, db)
    end.
Proof.
  unfold Cars.read_cars, Cars.ordering.
  set (q := if_str search _ _).
  assert (q = {| Orm.q_where :=
                   Cars.clauses contains filter_make filter_year search;
                 Orm.q_order_by := None; Orm.q_offset := None;
                 Orm.q_limit := None |}) as ->.
  { subst q. unfold Cars.clauses, if_str, if_int.
    split_str filter_make; split_int filter_year; split_str search;
      reflexivity. }
  run_handler. unfold if_str.
  destruct sort_by as [attr|]; [|reflexivity].
  destruct (String.eqb attr EmptyString); [reflexivity|].
  destruct (Cars.getattr inherited attr) as [[c|t|]|]; [| | |reflexivity];
    destruct (String.eqb (lower sort_order) "desc"); reflexivity.
Qed.

Lemma cars_ordering_sort_of (inherited : string -> bool)
    (ties : Orm.Ties Cars.Car Cars.column)
    (sort_by : option string) (sort_order : string) :
  Cars.ordering inherited ties sort_by sort_order
  = match Cars.sort_of inherited sort_by with
    | Orm.Unsorted => Ok None
    | Orm.By c =>
        Ok (Some (if Py.is_desc sort_order
                  then {| Orm.ob_le := fun x y => Cars.column_le c y x;
                          Orm.ob_tie := ties c true |}
                  else {| Orm.ob_le := Cars.column_le c;
                          Orm.ob_tie := ties c false |}))
    | Orm.NotAColumn => Raised AttributeError
    end.
Proof.
  unfold Cars.ordering, Cars.sort_of, if_str. rewrite lower_is_desc.
  destruct sort_by as [attr|]; [|reflexivity].
  destruct (String.eqb attr EmptyString); [reflexivity|].
  unfold Cars.getattr, Cars.columns.
  cbn [find Cars.column_name].
  repeat match goal with
         | |- context [String.eqb attr ?s] =>
             destruct (String.eqb attr s);
             [destruct (Py.is_desc sort_order); reflexivity|]
         end.
  destruct (inherited attr); destruct (Py.is_desc sort_order); reflexivity.
Qed.

Lemma cars_clauses_matches (contains : string -> string -> bool)
    (filter_make : option string) (filter_year : option Z)
    (search : option string) (r : Cars.Car) :
  Orm.selects (Cars.clauses contains filter_make filter_year search) r = true
  <-> Cars.matches (fun x s => contains x s = true)
        filter_make filter_year search r.
Proof.
  unfold Cars.clauses, Cars.matches. rewrite !selects_app.
  rewrite (if_str_selects filter_make _ (fun v => Cars.make r = Some v))
    by (intros v; apply holds_eq_str).
  rewrite (if_int_selects filter_year _ (fun v => Cars.year r = Some v))
    by (intros v; apply holds_eq_int).
  rewrite (if_str_selects search _
             (fun s => (exists x, Cars.make r = Some x /\ contains x s = true)
                       \/ (exists x, Cars.model r = Some x /\ contains x s = true)))
    by (intros v; apply holds_search).
  reflexivity.
Qed.







(** ** The handlers of one row, as the table answers them *)

(** The lookup a handler starts with, on a key of 64 bits and on another. *)
Ltac lookup_fits M_by_id Hi :=
  unfold Orm.bind at 1; unfold Orm.run, M_by_id;
  rewrite first_by_key_fits by exact Hi.

Ltac lookup_overflow M_by_id Hi :=
  unfold Orm.bind at 1; unfold Orm.run, M_by_id;
  rewrite first_by_key_overflow by exact Hi; reflexivity.

(** *** Energy drinks *)

Lemma energy_flush_id (old new row : Energy.EnergyDrink) :
  Energy.flush old new = Ok row -> Energy.id row = Energy.id old.
Proof.
  unfold Energy.flush, Py.bind.
  destruct (Orm.flush_int (Energy.volume_ml old) _); [|discriminate].
  destruct (Orm.flush_int (Energy.price old) _); [|discriminate].
  destruct (Orm.flush_int (Energy.stock old) _); [|discriminate].
  intros H. injection H as <-. reflexivity.
Qed.

Lemma energy_flush_ok (old new : Energy.EnergyDrink) :
  Energy.id new = Energy.id old ->
  Orm.writable (Energy.volume_ml old) (Energy.volume_ml new) ->
  Orm.writable (Energy.price old) (Energy.price new) ->
  Orm.writable (Energy.stock old) (Energy.stock new) ->
  Energy.flush old new = Ok new.
Proof.
  intros Hid Hv Hp Hs. unfold Energy.flush.
  rewrite !flush_int_writable by assumption. simpl.
  rewrite <- Hid. destruct new; reflexivity.
Qed.

Lemma energy_flush_overflow (old new : Energy.EnergyDrink) :
  ~ (Orm.writable (Energy.volume_ml old) (Energy.volume_ml new)
     /\ Orm.writable (Energy.price old) (Energy.price new)
     /\ Orm.writable (Energy.stock old) (Energy.stock new)) ->
  Energy.flush old new = Raised OverflowError.
Proof.
  intros H. unfold Energy.flush.
  destruct (writable_dec (Energy.volume_ml old) (Energy.volume_ml new)) as [Hv|Hv];
    [rewrite (flush_int_writable _ _ Hv)
    |rewrite (flush_int_overflow _ _ Hv); reflexivity].
  destruct (writable_dec (Energy.price old) (Energy.price new)) as [Hp|Hp];
    [rewrite (flush_int_writable _ _ Hp)
    |rewrite (flush_int_overflow _ _ Hp); reflexivity].
  destruct (writable_dec (Energy.stock old) (Energy.stock new)) as [Hs|Hs];
    [tauto | rewrite (flush_int_overflow _ _ Hs); reflexivity].
Qed.

Lemma read_energy_drink_fits (drink_id : Z) (db : Energy.Table) :
  Orm.fits64 drink_id ->
  Energy.read_energy_drink drink_id db
  = (match Orm.at_key Energy.id drink_id db with
     | Some d => Ok d
     | None => Raised (HTTPException 404 "Energy drink not found")
     end, db).
Proof.
  intros Hi. unfold Energy.read_energy_drink. lookup_fits Energy.by_id Hi.
  destruct (Orm.at_key Energy.id drink_id db); reflexivity.
Qed.

Lemma read_energy_drink_overflow (drink_id : Z) (db : Energy.Table) :
  ~ Orm.fits64 drink_id ->
  Energy.read_energy_drink drink_id db = (Raised OverflowError, db).
Proof.
  intros Hi. unfold Energy.read_energy_drink. lookup_overflow Energy.by_id Hi.
Qed.

Lemma create_energy_drink_fits (db : Energy.Table) (c : Energy.EnergyDrinkCreate) :
  Orm.fits64 (Energy.c_volume_ml c) -> Orm.fits64 (Energy.c_price c) ->
  Orm.fits64 (Energy.c_stock c) ->
  let d :=
    {| Energy.id := Orm.next_pk Energy.id db;
       Energy.brand := Some (Energy.c_brand c);
       Energy.name := Some (Energy.c_name c);
       Energy.volume_ml := Some (Energy.c_volume_ml c);
       Energy.price := Some (Energy.c_price c);
       Energy.stock := Some (Energy.c_stock c) |} in
  Energy.create_energy_drink c db = (Ok d, db ++ [d]).
Proof.
  intros Hv Hp Hs d. unfold Energy.create_energy_drink. run_handler.
  unfold Orm.insert, Energy.bind_row.
  cbn [Energy.volume_ml Energy.price Energy.stock].
  rewrite !bind_int_fits by assumption. simpl.
  unfold Orm.refresh, Energy.with_id; simpl. fold d.
  rewrite (at_key_app_new Energy.id (Orm.next_pk Energy.id db) db d);
    [reflexivity | | reflexivity].
  intros r Hr. apply next_pk_above. exact Hr.
Qed.

Lemma create_energy_drink_overflow (db : Energy.Table)
    (c : Energy.EnergyDrinkCreate) :
  ~ (Orm.fits64 (Energy.c_volume_ml c) /\ Orm.fits64 (Energy.c_price c)
     /\ Orm.fits64 (Energy.c_stock c)) ->
  Energy.create_energy_drink c db = (Raised OverflowError, db).
Proof.
  intros H. unfold Energy.create_energy_drink. run_handler.
  unfold Orm.insert, Energy.bind_row.
  cbn [Energy.volume_ml Energy.price Energy.stock].
  destruct (fits64_dec (Energy.c_volume_ml c)) as [Hv|Hv];
    [rewrite (bind_int_fits _ Hv) | rewrite (bind_int_overflow _ Hv); reflexivity].
  destruct (fits64_dec (Energy.c_price c)) as [Hp|Hp];
    [rewrite (bind_int_fits _ Hp) | rewrite (bind_int_overflow _ Hp); reflexivity].
  destruct (fits64_dec (Energy.c_stock c)) as [Hs|Hs];
    [tauto | rewrite (bind_int_overflow _ Hs); reflexivity].
Qed.

Lemma energy_setattr_fields (u : Energy.EnergyDrinkUpdate) (d : Energy.EnergyDrink) :
  let d' := fold_left Energy.setattr (Energy.dict_exclude_unset u) d in
  Energy.id d' = Energy.id d
  /\ Energy.brand d' = Orm.updated (Energy.brand d) (Energy.u_brand u)
  /\ Energy.name d' = Orm.updated (Energy.name d) (Energy.u_name u)
  /\ Energy.volume_ml d' = Orm.updated (Energy.volume_ml d) (Energy.u_volume_ml u)
  /\ Energy.price d' = Orm.updated (Energy.price d) (Energy.u_price u)
  /\ Energy.stock d' = Orm.updated (Energy.stock d) (Energy.u_stock u).
Proof.
  destruct u as [[b|] [n|] [v|] [p|] [s|]]; simpl; repeat split.
Qed.

Lemma update_energy_drink_found (db : Energy.Table) (drink_id : Z)
    (u : Energy.EnergyDrinkUpdate) (d : Energy.EnergyDrink) :
  Orm.fits64 drink_id ->
  Orm.at_key Energy.id drink_id db = Some d ->
  Energy.update_energy_drink drink_id u db
  = match Energy.flush d (fold_left Energy.setattr (Energy.dict_exclude_unset u) d)
    with
    | Ok row => (Ok row, Orm.put Energy.id drink_id row db)
    | Raised e => (Raised e, db)
    end.
Proof.
  intros Hi Hd. unfold Energy.update_energy_drink.
  lookup_fits Energy.by_id Hi. rewrite Hd.
  destruct (at_key_some Energy.id _ _ _ Hd) as [Hid _].
  apply (update_refresh Energy.id Energy.flush drink_id db d); auto.
  - rewrite <- Hid. apply (energy_setattr_fields u d).
  - intros row Hrow. rewrite (energy_flush_id _ _ _ Hrow). exact Hid.
Qed.

Lemma update_energy_drink_missing (db : Energy.Table) (drink_id : Z)
    (u : Energy.EnergyDrinkUpdate) :
  Orm.fits64 drink_id ->
  Orm.at_key Energy.id drink_id db = None ->
  Energy.update_energy_drink drink_id u db
  = (Raised (HTTPException 404 "Energy drink not found"), db).
Proof.
  intros Hi Hd. unfold Energy.update_energy_drink.
  lookup_fits Energy.by_id Hi. rewrite Hd. reflexivity.
Qed.

Lemma update_energy_drink_overflow (db : Energy.Table) (drink_id : Z)
    (u : Energy.EnergyDrinkUpdate) :
  ~ Orm.fits64 drink_id ->
  Energy.update_energy_drink drink_id u db = (Raised OverflowError, db).
Proof.
  intros Hi. unfold Energy.update_energy_drink. lookup_overflow Energy.by_id Hi.
Qed.

Lemma delete_energy_drink_fits (db : Energy.Table) (drink_id : Z) :
  Orm.fits64 drink_id ->
  Energy.delete_energy_drink drink_id db
  = match Orm.at_key Energy.id drink_id db with
    | Some d => (Ok tt, Orm.delete Energy.id d db)
    | None => (Raised (HTTPException 404 "Energy drink not found"), db)
    end.
Proof.
  intros Hi. unfold Energy.delete_energy_drink. lookup_fits Energy.by_id Hi.
  destruct (Orm.at_key Energy.id drink_id db); reflexivity.
Qed.

Lemma delete_energy_drink_overflow (db : Energy.Table) (drink_id : Z) :
  ~ Orm.fits64 drink_id ->
  Energy.delete_energy_drink drink_id db = (Raised OverflowError, db).
Proof.
  intros Hi. unfold Energy.delete_energy_drink. lookup_overflow Energy.by_id Hi.
Qed.

Lemma buy_energy_drink_found (db : Energy.Table) (drink_id : Z)
    (quantity : option Z) (d : Energy.EnergyDrink) (s : Z) :
  Orm.fits64 drink_id ->
  Orm.at_key Energy.id drink_id db = Some d ->
  Energy.stock d = Some s ->
  let q := default 1 quantity in
  Energy.buy_energy_drink drink_id quantity db
  = if Z.ltb s q
    then (Raised (HTTPException 400 "Not enough stock available"), db)
    else match Energy.flush d (Energy.with_stock (Some (s - q)) d) with
         | Ok row => (Ok row, Orm.put Energy.id drink_id row db)
         | Raised e => (Raised e, db)
         end.
Proof.
  intros Hi Hd Hs q. unfold Energy.buy_energy_drink. fold q.
  lookup_fits Energy.by_id Hi. rewrite Hd.
  unfold Orm.bind at 1. unfold Orm.lift at 1. rewrite Hs. simpl lt_int.
  destruct (Z.ltb s q); [reflexivity|].
  unfold Orm.bind at 1. unfold Orm.lift. simpl sub_int. cbv iota beta.
  destruct (at_key_some Energy.id _ _ _ Hd) as [Hid _].
  apply (update_refresh Energy.id Energy.flush drink_id db d); auto.
  intros row Hrow. rewrite (energy_flush_id _ _ _ Hrow). exact Hid.
Qed.

Lemma buy_energy_drink_null (db : Energy.Table) (drink_id : Z)
    (quantity : option Z) (d : Energy.EnergyDrink) :
  Orm.fits64 drink_id ->
  Orm.at_key Energy.id drink_id db = Some d ->
  Energy.stock d = None ->
  Energy.buy_energy_drink drink_id quantity db = (Raised TypeError, db).
Proof.
  intros Hi Hd Hs. unfold Energy.buy_energy_drink.
  lookup_fits Energy.by_id Hi. rewrite Hd.
  unfold Orm.bind at 1. unfold Orm.lift at 1. rewrite Hs. reflexivity.
Qed.

Lemma buy_energy_drink_missing (db : Energy.Table) (drink_id : Z)
    (quantity : option Z) :
  Orm.fits64 drink_id ->
  Orm.at_key Energy.id drink_id db = None ->
  Energy.buy_energy_drink drink_id quantity db
  = (Raised (HTTPException 404 "Energy drink not found"), db).
Proof.
  intros Hi Hd. unfold Energy.buy_energy_drink.
  lookup_fits Energy.by_id Hi. rewrite Hd. reflexivity.
Qed.

Lemma buy_energy_drink_overflow (db : Energy.Table) (drink_id : Z)
    (quantity : option Z) :
  ~ Orm.fits64 drink_id ->
  Energy.buy_energy_drink drink_id quantity db = (Raised OverflowError, db).
Proof.
  intros Hi. unfold Energy.buy_energy_drink. lookup_overflow Energy.by_id Hi.
Qed.

(** A purchase the stock covers, when what is left is a number the store
    takes: the drink with the stock lowered is returned and stored. *)
Lemma buy_energy_drink_sold (db : Energy.Table) (drink_id : Z)
    (quantity : option Z) (d : Energy.EnergyDrink) (s : Z) :
  Orm.fits64 drink_id ->
  Orm.at_key Energy.id drink_id db = Some d ->
  Energy.stock d = Some s ->
  let q := default 1 quantity in
  q <= s -> q = 0 \/ Orm.fits64 (s - q) ->
  let d' := Energy.with_stock (Some (s - q)) d in
  Energy.buy_energy_drink drink_id quantity db
  = (Ok d', Orm.put Energy.id drink_id d' db)
  /\ Orm.at_key Energy.id drink_id (Orm.put Energy.id drink_id d' db) = Some d'.
Proof.
  intros Hi Hd Hs q Hq Hfit d'.
  destruct (at_key_some Energy.id _ _ _ Hd) as [Hid _]. split.
  - rewrite (buy_energy_drink_found db drink_id quantity d s Hi Hd Hs). fold q.
    destruct (Z.ltb_spec s q); [lia|]. fold d'.
    rewrite energy_flush_ok; [reflexivity | reflexivity | left; reflexivity
                             | left; reflexivity |].
    simpl. rewrite Hs. destruct Hfit as [H0|Hfit].
    + left. f_equal. lia.
    + right. exact Hfit.
  - apply (at_key_put_same Energy.id drink_id db d); [exact Hd | exact Hid].
Qed.

(** *** Sneakers *)

Lemma sneakers_flush_id (old new row : Sneakers.Sneaker) :
  Sneakers.flush old new = Ok row -> Sneakers.id row = Sneakers.id old.
Proof.
  unfold Sneakers.flush, Py.bind.
  destruct (Orm.flush_int (Sneakers.price old) _); [|discriminate].
  intros H. injection H as <-. reflexivity.
Qed.

Lemma sneakers_flush_ok (old new : Sneakers.Sneaker) :
  Sneakers.id new = Sneakers.id old ->
  Orm.writable (Sneakers.price old) (Sneakers.price new) ->
  Sneakers.flush old new
  = Ok (Sneakers.with_rating
          (Orm.flush_float (Sneakers.rating old) (Sneakers.rating new)) new).
Proof.
  intros Hid Hp. unfold Sneakers.flush.
  rewrite flush_int_writable by assumption. simpl.
  rewrite <- Hid. reflexivity.
Qed.

Lemma sneakers_flush_overflow (old new : Sneakers.Sneaker) :
  ~ Orm.writable (Sneakers.price old) (Sneakers.price new) ->
  Sneakers.flush old new = Raised OverflowError.
Proof.
  intros H. unfold Sneakers.flush. rewrite (flush_int_overflow _ _ H).
  reflexivity.
Qed.

Lemma read_sneaker_fits (sneaker_id : Z) (db : Sneakers.Table) :
  Orm.fits64 sneaker_id ->
  Sneakers.read_sneaker sneaker_id db
  = (match Orm.at_key Sneakers.id sneaker_id db with
     | Some s => Ok s
     | None => Raised (HTTPException 404 "Sneaker not found")
     end, db).
Proof.
  intros Hi. unfold Sneakers.read_sneaker. lookup_fits Sneakers.by_id Hi.
  destruct (Orm.at_key Sneakers.id sneaker_id db); reflexivity.
Qed.

Lemma read_sneaker_overflow (sneaker_id : Z) (db : Sneakers.Table) :
  ~ Orm.fits64 sneaker_id ->
  Sneakers.read_sneaker sneaker_id db = (Raised OverflowError, db).
Proof.
  intros Hi. unfold Sneakers.read_sneaker. lookup_overflow Sneakers.by_id Hi.
Qed.

Lemma create_sneaker_fits (db : Sneakers.Table) (c : Sneakers.SneakerCreate) :
  Orm.fits64 (Sneakers.c_price c) ->
  let s :=
    {| Sneakers.id := Orm.next_pk Sneakers.id db;
       Sneakers.brand := Some (Sneakers.c_brand c);
       Sneakers.model := Some (Sneakers.c_model c);
       Sneakers.price := Some (Sneakers.c_price c);
       Sneakers.rating := Some 0%float |} in
  Sneakers.create_sneaker c db = (Ok s, db ++ [s]).
Proof.
  intros Hp s. unfold Sneakers.create_sneaker. run_handler.
  unfold Orm.insert, Sneakers.bind_row. cbn [Sneakers.price].
  rewrite !bind_int_fits by assumption. simpl.
  unfold Orm.refresh, Sneakers.with_id; simpl.
  change (Orm.bind_float (Some 0%float)) with (Some 0%float). fold s.
  rewrite (at_key_app_new Sneakers.id (Orm.next_pk Sneakers.id db) db s);
    [reflexivity | | reflexivity].
  intros r Hr. apply next_pk_above. exact Hr.
Qed.

Lemma create_sneaker_overflow (db : Sneakers.Table) (c : Sneakers.SneakerCreate) :
  ~ Orm.fits64 (Sneakers.c_price c) ->
  Sneakers.create_sneaker c db = (Raised OverflowError, db).
Proof.
  intros H. unfold Sneakers.create_sneaker. run_handler.
  unfold Orm.insert, Sneakers.bind_row. cbn [Sneakers.price].
  rewrite (bind_int_overflow _ H). reflexivity.
Qed.

Lemma sneakers_setattr_fields (u : Sneakers.SneakerUpdate) (s : Sneakers.Sneaker) :
  let s' := fold_left Sneakers.setattr (Sneakers.dict_exclude_unset u) s in
  Sneakers.id s' = Sneakers.id s
  /\ Sneakers.brand s' = Orm.updated (Sneakers.brand s) (Sneakers.u_brand u)
  /\ Sneakers.model s' = Orm.updated (Sneakers.model s) (Sneakers.u_model u)
  /\ Sneakers.price s' = Orm.updated (Sneakers.price s) (Sneakers.u_price u)
  /\ Sneakers.rating s' = Orm.updated (Sneakers.rating s) (Sneakers.u_rating u).
Proof.
  destruct u as [[b|] [m|] [p|] [r|]]; simpl; repeat split.
Qed.

Lemma update_sneaker_found (db : Sneakers.Table) (sneaker_id : Z)
    (u : Sneakers.SneakerUpdate) (s : Sneakers.Sneaker) :
  Orm.fits64 sneaker_id ->
  Orm.at_key Sneakers.id sneaker_id db = Some s ->
  Sneakers.update_sneaker sneaker_id u db
  = match Sneakers.flush s
            (fold_left Sneakers.setattr (Sneakers.dict_exclude_unset u) s)
    with
    | Ok row => (Ok row, Orm.put Sneakers.id sneaker_id row db)
    | Raised e => (Raised e, db)
    end.
Proof.
  intros Hi Hs. unfold Sneakers.update_sneaker.
  lookup_fits Sneakers.by_id Hi. rewrite Hs.
  destruct (at_key_some Sneakers.id _ _ _ Hs) as [Hid _].
  apply (update_refresh Sneakers.id Sneakers.flush sneaker_id db s); auto.
  - rewrite <- Hid. apply (sneakers_setattr_fields u s).
  - intros row Hrow. rewrite (sneakers_flush_id _ _ _ Hrow). exact Hid.
Qed.

Lemma update_sneaker_missing (db : Sneakers.Table) (sneaker_id : Z)
    (u : Sneakers.SneakerUpdate) :
  Orm.fits64 sneaker_id ->
  Orm.at_key Sneakers.id sneaker_id db = None ->
  Sneakers.update_sneaker sneaker_id u db
  = (Raised (HTTPException 404 "Sneaker not found"), db).
Proof.
  intros Hi Hd. unfold Sneakers.update_sneaker.
  lookup_fits Sneakers.by_id Hi. rewrite Hd. reflexivity.
Qed.

Lemma update_sneaker_overflow (db : Sneakers.Table) (sneaker_id : Z)
    (u : Sneakers.SneakerUpdate) :
  ~ Orm.fits64 sneaker_id ->
  Sneakers.update_sneaker sneaker_id u db = (Raised OverflowError, db).
Proof.
  intros Hi. unfold Sneakers.update_sneaker. lookup_overflow Sneakers.by_id Hi.
Qed.

Lemma delete_sneaker_fits (db : Sneakers.Table) (sneaker_id : Z) :
  Orm.fits64 sneaker_id ->
  Sneakers.delete_sneaker sneaker_id db
  = match Orm.at_key Sneakers.id sneaker_id db with
    | Some s => (Ok tt, Orm.delete Sneakers.id s db)
    | None => (Raised (HTTPException 404 "Sneaker not found"), db)
    end.
Proof.
  intros Hi. unfold Sneakers.delete_sneaker. lookup_fits Sneakers.by_id Hi.
  destruct (Orm.at_key Sneakers.id sneaker_id db); reflexivity.
Qed.

Lemma delete_sneaker_overflow (db : Sneakers.Table) (sneaker_id : Z) :
  ~ Orm.fits64 sneaker_id ->
  Sneakers.delete_sneaker sneaker_id db = (Raised OverflowError, db).
Proof.
  intros Hi. unfold Sneakers.delete_sneaker. lookup_overflow Sneakers.by_id Hi.
Qed.

Lemma rate_sneaker_refused (db : Sneakers.Table) (sneaker_id : Z) (rating : float) :
  Sneakers.ge0_le5 rating = false ->
  Sneakers.rate_sneaker sneaker_id (Some rating) db
  = (Raised RequestValidationError, db).
Proof.
  intros H. unfold Sneakers.rate_sneaker. rewrite H. reflexivity.
Qed.

Lemma rate_sneaker_found (db : Sneakers.Table) (sneaker_id : Z) (rating : float)
    (s : Sneakers.Sneaker) :
  Sneakers.ge0_le5 rating = true ->
  Orm.fits64 sneaker_id ->
  Orm.at_key Sneakers.id sneaker_id db = Some s ->
  let s' :=
    Sneakers.with_rating (Orm.flush_float (Sneakers.rating s) (Some rating)) s in
  Sneakers.rate_sneaker sneaker_id (Some rating) db
  = (Ok s', Orm.put Sneakers.id sneaker_id s' db)
  /\ Orm.at_key Sneakers.id sneaker_id (Orm.put Sneakers.id sneaker_id s' db)
     = Some s'.
Proof.
  intros Hr Hi Hs s'.
  destruct (at_key_some Sneakers.id _ _ _ Hs) as [Hid _]. split.
  - unfold Sneakers.rate_sneaker. rewrite Hr.
    lookup_fits Sneakers.by_id Hi. rewrite Hs.
    rewrite (update_refresh Sneakers.id Sneakers.flush sneaker_id db s); auto.
    + rewrite sneakers_flush_ok; [reflexivity | reflexivity | left; reflexivity].
    + intros row Hrow. rewrite (sneakers_flush_id _ _ _ Hrow). exact Hid.
  - apply (at_key_put_same Sneakers.id sneaker_id db s); [exact Hs | exact Hid].
Qed.

Lemma rate_sneaker_missing (db : Sneakers.Table) (sneaker_id : Z) (rating : float) :
  Sneakers.ge0_le5 rating = true ->
  Orm.fits64 sneaker_id ->
  Orm.at_key Sneakers.id sneaker_id db = None ->
  Sneakers.rate_sneaker sneaker_id (Some rating) db
  = (Raised (HTTPException 404 "Sneaker not found"), db).
Proof.
  intros Hr Hi Hs. unfold Sneakers.rate_sneaker. rewrite Hr.
  lookup_fits Sneakers.by_id Hi. rewrite Hs. reflexivity.
Qed.

Lemma rate_sneaker_overflow (db : Sneakers.Table) (sneaker_id : Z) (rating : float) :
  Sneakers.ge0_le5 rating = true ->
  ~ Orm.fits64 sneaker_id ->
  Sneakers.rate_sneaker sneaker_id (Some rating) db = (Raised OverflowError, db).
Proof.
  intros Hr Hi. unfold Sneakers.rate_sneaker. rewrite Hr.
  lookup_overflow Sneakers.by_id Hi.
Qed.

Lemma ge0_le5_bounds (rating : float) :
  Sneakers.ge0_le5 rating = true
  <-> PrimFloat.leb 0 rating = true /\ PrimFloat.leb rating 5 = true.
Proof.
  unfold Sneakers.ge0_le5. apply andb_true_iff.
Qed.

(** *** Cars *)

Lemma cars_flush_id (old new row : Cars.Car) :
  Cars.flush old new = Ok row -> Cars.id row = Cars.id old.
Proof.
  unfold Cars.flush, Py.bind.
  destruct (Orm.flush_int (Cars.year old) _); [|discriminate].
  destruct (Orm.flush_int (Cars.views old) _); [|discriminate].
  intros H. injection H as <-. reflexivity.
Qed.

Lemma cars_flush_ok (old new : Cars.Car) :
  Cars.id new = Cars.id old ->
  Orm.writable (Cars.year old) (Cars.year new) ->
  Orm.writable (Cars.views old) (Cars.views new) ->
  Cars.flush old new = Ok new.
Proof.
  intros Hid Hy Hv. unfold Cars.flush.
  rewrite !flush_int_writable by assumption. simpl.
  rewrite <- Hid. destruct new; reflexivity.
Qed.

Lemma cars_flush_overflow (old new : Cars.Car) :
  ~ (Orm.writable (Cars.year old) (Cars.year new)
     /\ Orm.writable (Cars.views old) (Cars.views new)) ->
  Cars.flush old new = Raised OverflowError.
Proof.
  intros H. unfold Cars.flush.
  destruct (writable_dec (Cars.year old) (Cars.year new)) as [Hy|Hy];
    [rewrite (flush_int_writable _ _ Hy)
    |rewrite (flush_int_overflow _ _ Hy); reflexivity].
  destruct (writable_dec (Cars.views old) (Cars.views new)) as [Hv|Hv];
    [tauto | rewrite (flush_int_overflow _ _ Hv); reflexivity].
Qed.

Lemma create_car_fits (db : Cars.Table) (c : Cars.CarCreate) :
  Orm.fits64 (Cars.c_year c) ->
  let car :=
    {| Cars.id := Orm.next_pk Cars.id db;
       Cars.make := Some (Cars.c_make c);
       Cars.model := Some (Cars.c_model c);
       Cars.year := Some (Cars.c_year c);
       Cars.color := Some (Cars.c_color c);
       Cars.views := Some 0 |} in
  Cars.create_car c db = (Ok car, db ++ [car]).
Proof.
  intros Hy car. unfold Cars.create_car. run_handler.
  unfold Orm.insert, Cars.bind_row. cbn [Cars.year Cars.views].
  rewrite !bind_int_fits by assumption.
  rewrite bind_int_fits by (unfold Orm.fits64; lia). simpl.
  unfold Orm.refresh, Cars.with_id; simpl. fold car.
  rewrite (at_key_app_new Cars.id (Orm.next_pk Cars.id db) db car);
    [reflexivity | | reflexivity].
  intros r Hr. apply next_pk_above. exact Hr.
Qed.

Lemma create_car_overflow (db : Cars.Table) (c : Cars.CarCreate) :
  ~ Orm.fits64 (Cars.c_year c) ->
  Cars.create_car c db = (Raised OverflowError, db).
Proof.
  intros H. unfold Cars.create_car. run_handler.
  unfold Orm.insert, Cars.bind_row. cbn [Cars.year].
  rewrite (bind_int_overflow _ H). reflexivity.
Qed.

Lemma cars_setattr_fields (u : Cars.CarUpdate) (c : Cars.Car) :
  let c' := fold_left Cars.setattr (Cars.dict_exclude_unset u) c in
  Cars.id c' = Cars.id c
  /\ Cars.make c' = Orm.updated (Cars.make c) (Cars.u_make u)
  /\ Cars.model c' = Orm.updated (Cars.model c) (Cars.u_model u)
  /\ Cars.year c' = Orm.updated (Cars.year c) (Cars.u_year u)
  /\ Cars.color c' = Orm.updated (Cars.color c) (Cars.u_color u)
  /\ Cars.views c' = Cars.views c.
Proof.
  destruct u as [[a|] [m|] [y|] [k|]]; simpl; repeat split.
Qed.

Lemma update_car_found (db : Cars.Table) (car_id : Z)
    (u : Cars.CarUpdate) (c : Cars.Car) :
  Orm.fits64 car_id ->
  Orm.at_key Cars.id car_id db = Some c ->
  Cars.update_car car_id u db
  = match Cars.flush c (fold_left Cars.setattr (Cars.dict_exclude_unset u) c) with
    | Ok row => (Ok row, Orm.put Cars.id car_id row db)
    | Raised e => (Raised e, db)
    end.
Proof.
  intros Hi Hc. unfold Cars.update_car.
  lookup_fits Cars.by_id Hi. rewrite Hc.
  destruct (at_key_some Cars.id _ _ _ Hc) as [Hid _].
  apply (update_refresh Cars.id Cars.flush car_id db c); auto.
  - rewrite <- Hid. apply (cars_setattr_fields u c).
  - intros row Hrow. rewrite (cars_flush_id _ _ _ Hrow). exact Hid.
Qed.

Lemma update_car_missing (db : Cars.Table) (car_id : Z) (u : Cars.CarUpdate) :
  Orm.fits64 car_id ->
  Orm.at_key Cars.id car_id db = None ->
  Cars.update_car car_id u db = (Raised (HTTPException 404 "Car not found"), db).
Proof.
  intros Hi Hd. unfold Cars.update_car.
  lookup_fits Cars.by_id Hi. rewrite Hd. reflexivity.
Qed.

Lemma update_car_overflow (db : Cars.Table) (car_id : Z) (u : Cars.CarUpdate) :
  ~ Orm.fits64 car_id ->
  Cars.update_car car_id u db = (Raised OverflowError, db).
Proof.
  intros Hi. unfold Cars.update_car. lookup_overflow Cars.by_id Hi.
Qed.

Lemma delete_car_fits (db : Cars.Table) (car_id : Z) :
  Orm.fits64 car_id ->
  Cars.delete_car car_id db
  = match Orm.at_key Cars.id car_id db with
    | Some c => (Ok tt, Orm.delete Cars.id c db)
    | None => (Raised (HTTPException 404 "Car not found"), db)
    end.
Proof.
  intros Hi. unfold Cars.delete_car. lookup_fits Cars.by_id Hi.
  destruct (Orm.at_key Cars.id car_id db); reflexivity.
Qed.

Lemma delete_car_overflow (db : Cars.Table) (car_id : Z) :
  ~ Orm.fits64 car_id ->
  Cars.delete_car car_id db = (Raised OverflowError, db).
Proof.
  intros Hi. unfold Cars.delete_car. lookup_overflow Cars.by_id Hi.
Qed.

Lemma read_car_found (db : Cars.Table) (car_id : Z) (car : Cars.Car) (v : Z) :
  Orm.fits64 car_id ->
  Orm.at_key Cars.id car_id db = Some car ->
  Cars.views car = Some v ->
  Cars.read_car car_id db
  = match Cars.flush car (Cars.with_views (Some (v + 1)) car) with
    | Ok row => (Ok row, Orm.put Cars.id car_id row db)
    | Raised e => (Raised e, db)
    end.
Proof.
  intros Hi Hcar Hv. unfold Cars.read_car.
  lookup_fits Cars.by_id Hi. rewrite Hcar.
  unfold Orm.bind at 1. unfold Orm.lift at 1. rewrite Hv. simpl add_int.
  cbv iota beta.
  destruct (at_key_some Cars.id _ _ _ Hcar) as [Hid _].
  apply (update_refresh Cars.id Cars.flush car_id db car); auto.
  intros row Hrow. rewrite (cars_flush_id _ _ _ Hrow). exact Hid.
Qed.

Lemma read_car_null (db : Cars.Table) (car_id : Z) (car : Cars.Car) :
  Orm.fits64 car_id ->
  Orm.at_key Cars.id car_id db = Some car ->
  Cars.views car = None ->
  Cars.read_car car_id db = (Raised TypeError, db).
Proof.
  intros Hi Hcar Hv. unfold Cars.read_car.
  lookup_fits Cars.by_id Hi. rewrite Hcar.
  unfold Orm.bind at 1. unfold Orm.lift at 1. rewrite Hv. reflexivity.
Qed.

Lemma read_car_missing (db : Cars.Table) (car_id : Z) :
  Orm.fits64 car_id ->
  Orm.at_key Cars.id car_id db = None ->
  Cars.read_car car_id db = (Raised (HTTPException 404 "Car not found"), db).
Proof.
  intros Hi Hcar. unfold Cars.read_car.
  lookup_fits Cars.by_id Hi. rewrite Hcar. reflexivity.
Qed.

Lemma read_car_overflow (db : Cars.Table) (car_id : Z) :
  ~ Orm.fits64 car_id -> Cars.read_car car_id db = (Raised OverflowError, db).
Proof.
  intros Hi. unfold Cars.read_car. lookup_overflow Cars.by_id Hi.
Qed.

(** A get of a car whose counter can be raised: the car with the counter
    one higher is returned and stored. *)
Lemma read_car_counted (db : Cars.Table) (car_id : Z) (car : Cars.Car) (v : Z) :
  Orm.fits64 car_id ->
  Orm.at_key Cars.id car_id db = Some car ->
  Cars.views car = Some v ->
  Orm.fits64 (v + 1) ->
  let car' := Cars.with_views (Some (v + 1)) car in
  Cars.read_car car_id db = (Ok car', Orm.put Cars.id car_id car' db)
  /\ Orm.at_key Cars.id car_id (Orm.put Cars.id car_id car' db) = Some car'.
Proof.
  intros Hi Hcar Hv Hfit car'.
  destruct (at_key_some Cars.id _ _ _ Hcar) as [Hid _]. split.
  - rewrite (read_car_found db car_id car v Hi Hcar Hv). fold car'.
    rewrite cars_flush_ok; [reflexivity | reflexivity | left; reflexivity |].
    right. exact Hfit.
  - apply (at_key_put_same Cars.id car_id db car); [exact Hcar | exact Hid].
Qed.

(** A counter at the largest integer of the store is not raised. *)
Lemma read_car_full (db : Cars.Table) (car_id : Z) (car : Cars.Car) (v : Z) :
  Orm.fits64 car_id ->
  Orm.at_key Cars.id car_id db = Some car ->
  Cars.views car = Some v ->
  ~ Orm.fits64 (v + 1) ->
  Cars.read_car car_id db = (Raised OverflowError, db).
Proof.
  intros Hi Hcar Hv Hfit.
  rewrite (read_car_found db car_id car v Hi Hcar Hv).
  rewrite cars_flush_overflow; [reflexivity|].
  intros [_ [H|H]]; simpl in H.
  - rewrite Hv in H. injection H as H. lia.
  - apply Hfit. exact H.
Qed.

(** ** What every answer of a list request has *)

Section AnswerFacts.
Context {Row : Type}.

Lemma page_In (skip limit : Z) (l : list Row) (r : Row) :
  In r (Orm.take_rows (Some limit) (Orm.skip_rows (Some skip) l)) -> In r l.
Proof.
  unfold Orm.take_rows, Orm.skip_rows. intros H.
  assert (In r (skipn (Z.to_nat skip) l)) as Hskip.
  { destruct (Z.ltb limit 0); [exact H|].
    rewrite <- (firstn_skipn (Z.to_nat limit) (skipn (Z.to_nat skip) l)).
    apply in_or_app. left. exact H. }
  rewrite <- (firstn_skipn (Z.to_nat skip) l).
  apply in_or_app. right. exact Hskip.
Qed.

Lemma ordered_In (q : Orm.Query Row) (l : list Row) (r : Row) :
  In r (Orm.ordered q l) <-> In r l.
Proof.
  unfold Orm.ordered. destruct (Orm.q_order_by q) as [ob|]; [|reflexivity].
  split; apply Permutation_in;
    [apply Permutation_sym|]; apply sort_by_Permutation.
Qed.

(** The rows of an answer are rows of the table that the clauses select,
    and no more of them than the limit. *)
Lemma statement_rows (ws : list (Orm.Clause Row)) (o : option (Orm.OrderBy Row))
    (skip limit : Z) (db rows : list Row) :
  Orm.all {| Orm.q_where := ws; Orm.q_order_by := o;
             Orm.q_offset := Some skip; Orm.q_limit := Some limit |} db
  = Ok rows ->
  (0 <= limit -> Z.of_nat (List.length rows) <= limit)
  /\ forall r, In r rows -> In r db /\ Orm.selects ws r = true.
Proof.
  rewrite all_statement.
  destruct (forallb Orm.int64 (flat_map Orm.binds ws) && Orm.int64 limit
            && Orm.int64 skip); [|discriminate].
  intros H. injection H as <-. split.
  - apply take_rows_length.
  - intros r Hr. apply page_In in Hr. apply ordered_In in Hr.
    apply filter_In in Hr. exact Hr.
Qed.









End AnswerFacts.

Lemma read_energy_drinks_rows (contains : string -> string -> bool)
    (inherited : string -> bool) (ties : Orm.Ties Energy.EnergyDrink Energy.column)
    (skip limit : Z) (sort_by : option string) (sort_order : string)
    (filter_brand : option string) (filter_volume : option Z)
    (search : option string) (db : Energy.Table) :
  snd (Energy.read_energy_drinks contains inherited ties skip limit sort_by
         sort_order filter_brand filter_volume search db) = db
  /\ forall rows,
       fst (Energy.read_energy_drinks contains inherited ties skip limit sort_by
              sort_order filter_brand filter_volume search db) = Ok rows ->
       (0 <= limit -> Z.of_nat (List.length rows) <= limit)
       /\ forall r, In r rows ->
            In r db
            /\ Energy.matches (fun x s => contains x s = true)
                 filter_brand filter_volume search r.
Proof.
  rewrite read_energy_drinks_run.
  destruct (Energy.ordering inherited ties sort_by sort_order) as [o|e]; simpl;
    [|split; [reflexivity | discriminate]].
  split; [reflexivity|]. intros rows Hrows.
  destruct (statement_rows _ _ _ _ _ _ Hrows) as [Hlen Hin].
  split; [exact Hlen|]. intros r Hr. destruct (Hin r Hr) as [Hdb Hsel].
  split; [exact Hdb | apply energy_clauses_matches; exact Hsel].
Qed.

Lemma read_sneakers_rows (contains : string -> string -> bool)
    (inherited : string -> bool) (ties : Orm.Ties Sneakers.Sneaker Sneakers.column)
    (skip limit : Z) (sort_by : option string) (sort_order : string)
    (filter_brand : option string) (filter_price_min filter_price_max : option Z)
    (search : option string) (db : Sneakers.Table) :
  snd (Sneakers.read_sneakers contains inherited ties skip limit sort_by
         sort_order filter_brand filter_price_min filter_price_max search db) = db
  /\ forall rows,
       fst (Sneakers.read_sneakers contains inherited ties skip limit sort_by
              sort_order filter_brand filter_price_min filter_price_max search db)
       = Ok rows ->
       (0 <= limit -> Z.of_nat (List.length rows) <= limit)
       /\ forall r, In r rows ->
            In r db
            /\ Sneakers.matches (fun x s => contains x s = true)
                 filter_brand filter_price_min filter_price_max search r.
Proof.
  rewrite read_sneakers_run.
  destruct (Sneakers.ordering inherited ties sort_by sort_order) as [o|e]; simpl;
    [|split; [reflexivity | discriminate]].
  split; [reflexivity|]. intros rows Hrows.
  destruct (statement_rows _ _ _ _ _ _ Hrows) as [Hlen Hin].
  split; [exact Hlen|]. intros r Hr. destruct (Hin r Hr) as [Hdb Hsel].
  split; [exact Hdb | apply sneakers_clauses_matches; exact Hsel].
Qed.

Lemma read_cars_rows (contains : string -> string -> bool)
    (inherited : string -> bool) (ties : Orm.Ties Cars.Car Cars.column)
    (skip limit : Z) (sort_by : option string) (sort_order : string)
    (filter_make : option string) (filter_year : option Z)
    (search : option string) (db : Cars.Table) :
  snd (Cars.read_cars contains inherited ties skip limit sort_by
         sort_order filter_make filter_year search db) = db
  /\ forall rows,
       fst (Cars.read_cars contains inherited ties skip limit sort_by
              sort_order filter_make filter_year search db) = Ok rows ->
       (0 <= limit -> Z.of_nat (List.length rows) <= limit)
       /\ forall r, In r rows ->
            In r db
            /\ Cars.matches (fun x s => contains x s = true)
                 filter_make filter_year search r.
Proof.
  rewrite read_cars_run.
  destruct (Cars.ordering inherited ties sort_by sort_order) as [o|e]; simpl;
    [|split; [reflexivity | discriminate]].
  split; [reflexivity|]. intros rows Hrows.
  destruct (statement_rows _ _ _ _ _ _ Hrows) as [Hlen Hin].
  split; [exact Hlen|]. intros r Hr. destruct (Hin r Hr) as [Hdb Hsel].
  split; [exact Hdb | apply cars_clauses_matches; exact Hsel].
Qed.







(** A flush stores the object, or raises on an integer. *)
Lemma energy_flush_cases (old new : Energy.EnergyDrink) :
  Energy.id new = Energy.id old ->
  Energy.flush old new = Ok new \/ Energy.flush old new = Raised OverflowError.
Proof.
  intros Hid.
  destruct (writable_dec (Energy.volume_ml old) (Energy.volume_ml new)) as [Hv|Hv];
    [|right; apply energy_flush_overflow; tauto].
  destruct (writable_dec (Energy.price old) (Energy.price new)) as [Hp|Hp];
    [|right; apply energy_flush_overflow; tauto].
  destruct (writable_dec (Energy.stock old) (Energy.stock new)) as [Hs|Hs];
    [|right; apply energy_flush_overflow; tauto].
  left. apply energy_flush_ok; assumption.
Qed.

Lemma sneakers_flush_cases (old new : Sneakers.Sneaker) :
  Sneakers.id new = Sneakers.id old ->
  Sneakers.flush old new
  = Ok (Sneakers.with_rating
          (Orm.flush_float (Sneakers.rating old) (Sneakers.rating new)) new)
  \/ Sneakers.flush old new = Raised OverflowError.
Proof.
  intros Hid.
  destruct (writable_dec (Sneakers.price old) (Sneakers.price new)) as [Hp|Hp].
  - left. apply sneakers_flush_ok; assumption.
  - right. apply sneakers_flush_overflow; assumption.
Qed.

Lemma cars_flush_cases (old new : Cars.Car) :
  Cars.id new = Cars.id old ->
  Cars.flush old new = Ok new \/ Cars.flush old new = Raised OverflowError.
Proof.
  intros Hid.
  destruct (writable_dec (Cars.year old) (Cars.year new)) as [Hy|Hy];
    [|right; apply cars_flush_overflow; tauto].
  destruct (writable_dec (Cars.views old) (Cars.views new)) as [Hv|Hv];
    [|right; apply cars_flush_overflow; tauto].
  left. apply cars_flush_ok; assumption.
Qed.

(** ** Energy drinks: buy *)

(** C1, as stated, fails on a quantity the stock covers whose remainder
    the store cannot take, and on a drink whose stock an update has set
    to null: neither purchase is refused with the 400 error, and neither
    succeeds. *)
Lemma buy_energy_drink_counterexample :
  (Orm.at_key Energy.id 1 [Examples.drink_1] = Some Examples.drink_1
   /\ Energy.stock Examples.drink_1 = Some 5
   /\ - 2 ^ 63 <= 5
   /\ Energy.buy_energy_drink 1 (Some (- 2 ^ 63)) [Examples.drink_1]
      = (Raised OverflowError, [Examples.drink_1]))
  /\ (Energy.update_energy_drink 1 Examples.stock_null [Examples.drink_1]
      = (Ok (Energy.with_stock None Examples.drink_1),
         [Energy.with_stock None Examples.drink_1])
      /\ Energy.buy_energy_drink 1 (Some 1) [Energy.with_stock None Examples.drink_1]
         = (Raised TypeError, [Energy.with_stock None Examples.drink_1])).
Proof.
  split; [split; [reflexivity|]; split; [reflexivity|]; split; [lia|] |split];
    reflexivity.
Qed.

(** C1, amended. A purchase under an id of 64 bits that the table has,
    of a drink whose stock is a number: a quantity (1 when none is given)
    above the stock raises the 400 error and leaves the table as it was;
    a quantity the stock covers lowers the stock by exactly the quantity,
    and the handler returns the drink with that stock and every other
    field as it was, the table holds that row under the id and every
    other id reads as before, provided the quantity is zero or the new
    stock is an integer of 64 bits; otherwise the commit raises
    [OverflowError] and nothing is written.  A stock that is NULL raises
    [TypeError], an id the table lacks the 404 error, and an id outside
    64 bits [OverflowError]; each leaves the table as it was. *)
Theorem buy_energy_drink_spec :
  forall (db : Energy.Table) (drink_id : Z) (quantity : option Z),
    let q := match quantity with Some q => q | None => 1 end in
    (~ Orm.fits64 drink_id ->
       Energy.buy_energy_drink drink_id quantity db = (Raised OverflowError, db))
    /\ (Orm.fits64 drink_id ->
        match Orm.at_key Energy.id drink_id db with
        | None =>
            Energy.buy_energy_drink drink_id quantity db
            = (Raised (HTTPException 404 "Energy drink not found"), db)
        | Some d =>
            match Energy.stock d with
            | None =>
                Energy.buy_energy_drink drink_id quantity db
                = (Raised TypeError, db)
            | Some s =>
                (s < q ->
                   Energy.buy_energy_drink drink_id quantity db
                   = (Raised (HTTPException 400 "Not enough stock available"),
                      db))
                /\ (q <= s -> q <> 0 -> ~ Orm.fits64 (s - q) ->
                    Energy.buy_energy_drink drink_id quantity db
                    = (Raised OverflowError, db))
                /\ (q <= s -> q = 0 \/ Orm.fits64 (s - q) ->
                    exists d' db',
                      Energy.buy_energy_drink drink_id quantity db = (Ok d', db')
                      /\ Energy.stock d' = Some (s - q)
                      /\ (Energy.id d' = Energy.id d
                          /\ Energy.brand d' = Energy.brand d
                          /\ Energy.name d' = Energy.name d
                          /\ Energy.volume_ml d' = Energy.volume_ml d
                          /\ Energy.price d' = Energy.price d)
                      /\ Orm.at_key Energy.id drink_id db' = Some d'
                      /\ forall j, j <> drink_id ->
                           Orm.at_key Energy.id j db' = Orm.at_key Energy.id j db)
            end
        end).
Proof.
  intros db drink_id quantity q. split; [apply buy_energy_drink_overflow|].
  intros Hi.
  destruct (Orm.at_key Energy.id drink_id db) as [d|] eqn:Hd;
    [|apply buy_energy_drink_missing; assumption].
  destruct (Energy.stock d) as [s|] eqn:Hs;
    [|apply (buy_energy_drink_null db drink_id quantity d); assumption].
  destruct (at_key_some Energy.id _ _ _ Hd) as [Hid _].
  split; [|split].
  - intros Hq. rewrite (buy_energy_drink_found db drink_id quantity d s Hi Hd Hs).
    change (default 1 quantity) with q.
    destruct (Z.ltb_spec s q); [reflexivity | lia].
  - intros Hq H0 Hfit.
    rewrite (buy_energy_drink_found db drink_id quantity d s Hi Hd Hs).
    change (default 1 quantity) with q.
    destruct (Z.ltb_spec s q); [lia|].
    rewrite energy_flush_overflow; [reflexivity|].
    intros (_ & _ & [Hw|Hw]); simpl in Hw.
    + rewrite Hs in Hw. injection Hw as Hw. lia.
    + apply Hfit. exact Hw.
  - intros Hq Hfit.
    destruct (buy_energy_drink_sold db drink_id quantity d s Hi Hd Hs Hq Hfit)
      as [Hrun Hget].
    change (default 1 quantity) with q in Hrun, Hget.
    eexists; eexists. split; [exact Hrun|].
    split; [reflexivity|]. split; [repeat split|]. split; [exact Hget|].
    intros j Hj. apply at_key_put_other; [exact Hid | exact Hj].
Qed.

(** C1 on the scenario: a drink created with stock 5; buying 3 leaves
    stock 2, and buying 10 from stock 2 is refused and leaves the table as
    it was. *)
Lemma buy_energy_drink_spec_witness :
  Energy.create_energy_drink Examples.drink_XY []
  = (Ok Examples.drink_1, [Examples.drink_1])
  /\ (exists d' db',
        Energy.buy_energy_drink 1 (Some 3) [Examples.drink_1] = (Ok d', db')
        /\ Energy.stock d' = Some (5 - 3)
        /\ Orm.at_key Energy.id 1 db' = Some d')
  /\ Energy.buy_energy_drink 1 (Some 10)
       [Energy.with_stock (Some 2) Examples.drink_1]
     = (Raised (HTTPException 400 "Not enough stock available"),
        [Energy.with_stock (Some 2) Examples.drink_1]).
Proof.
  assert (Orm.fits64 1) as H1 by (unfold Orm.fits64; lia).
  split; [reflexivity|]. split.
  - pose proof (proj2 (buy_energy_drink_spec [Examples.drink_1] 1 (Some 3)) H1)
      as H.
    cbv zeta in H. simpl in H. destruct H as (_ & _ & H).
    destruct H as (d' & db' & Hrun & Hstock & _ & Hget & _);
      [lia | right; unfold Orm.fits64; lia |].
    exists d', db'. auto.
  - pose proof (proj2 (buy_energy_drink_spec
                         [Energy.with_stock (Some 2) Examples.drink_1] 1
                         (Some 10)) H1) as H.
    cbv zeta in H. simpl in H. destruct H as (H & _).
    apply H. lia.
Defined.

(** ** Cars: the get that counts views *)

(** C8, as stated, fails on an id the table lacks that is outside 64
    bits: the get raises [OverflowError], not the 404 error. *)
Lemma read_car_counterexample :
  Orm.at_key Cars.id (2 ^ 63) [Examples.car_1] = None
  /\ Cars.read_car (2 ^ 63) [Examples.car_1]
     = (Raised OverflowError, [Examples.car_1]).
Proof.
  split; reflexivity.
Qed.

(** C8, amended. A get under an id of 64 bits that the table has, of a
    car whose views counter is a number below the largest integer of the
    store, returns the car with views one higher and every other field as
    it was, and the table holds that row under the id while every other
    id reads as before.  A counter at the largest integer raises
    [OverflowError], a NULL counter [TypeError], an id of 64 bits that
    the table lacks the 404 error, and an id outside 64 bits
    [OverflowError]; each leaves the table as it was.  Three gets of a
    car just created, in a table with room for a new key, leave its
    views at 3. *)
Theorem read_car_spec :
  forall (db : Cars.Table) (car_id : Z),
    (~ Orm.fits64 car_id -> Cars.read_car car_id db = (Raised OverflowError, db))
    /\ (Orm.fits64 car_id ->
        match Orm.at_key Cars.id car_id db with
        | None =>
            Cars.read_car car_id db
            = (Raised (HTTPException 404 "Car not found"), db)
        | Some car =>
            match Cars.views car with
            | None => Cars.read_car car_id db = (Raised TypeError, db)
            | Some v =>
                (~ Orm.fits64 (v + 1) ->
                   Cars.read_car car_id db = (Raised OverflowError, db))
                /\ (Orm.fits64 (v + 1) ->
                    exists car' db',
                      Cars.read_car car_id db = (Ok car', db')
                      /\ Cars.views car' = Some (v + 1)
                      /\ (Cars.id car' = Cars.id car
                          /\ Cars.make car' = Cars.make car
                          /\ Cars.model car' = Cars.model car
                          /\ Cars.year car' = Cars.year car
                          /\ Cars.color car' = Cars.color car)
                      /\ Orm.at_key Cars.id car_id db' = Some car'
                      /\ (forall j, j <> car_id ->
                            Orm.at_key Cars.id j db' = Orm.at_key Cars.id j db))
            end
        end)
    /\ forall c : Cars.CarCreate,
         Orm.fits64 (Cars.c_year c) ->
         (forall r, In r db -> Cars.id r < 2 ^ 63 - 1) ->
         exists car car3 db3,
           fst (Cars.create_car c db) = Ok car
           /\ (_ <- Cars.create_car c ;; _ <- Cars.read_car (Cars.id car) ;;
               _ <- Cars.read_car (Cars.id car) ;; Cars.read_car (Cars.id car)) db
              = (Ok car3, db3)
           /\ Cars.views car3 = Some 3
           /\ Orm.at_key Cars.id (Cars.id car) db3 = Some car3.
Proof.
  intros db car_id. split; [apply read_car_overflow|]. split.
  - intros Hi.
    destruct (Orm.at_key Cars.id car_id db) as [car|] eqn:Hcar;
      [|apply read_car_missing; assumption].
    destruct (Cars.views car) as [v|] eqn:Hv;
      [|apply (read_car_null db car_id car); assumption].
    destruct (at_key_some Cars.id _ _ _ Hcar) as [Hid _].
    split; [apply (read_car_full db car_id car v); assumption|].
    intros Hfit.
    destruct (read_car_counted db car_id car v Hi Hcar Hv Hfit) as [Hrun Hget].
    eexists; eexists. split; [exact Hrun|].
    split; [reflexivity|]. split; [repeat split|]. split; [exact Hget|].
    intros j Hj. apply at_key_put_other; [exact Hid | exact Hj].
  - intros c Hy Hroom.
    pose proof (create_car_fits db c Hy) as Hcreate. cbv zeta in Hcreate.
    set (car := {| Cars.id := Orm.next_pk Cars.id db;
                   Cars.make := Some (Cars.c_make c);
                   Cars.model := Some (Cars.c_model c);
                   Cars.year := Some (Cars.c_year c);
                   Cars.color := Some (Cars.c_color c);
                   Cars.views := Some 0 |}) in *.
    assert (Orm.fits64 (Cars.id car)) as Hi
        by (apply (next_pk_fits Cars.id); exact Hroom).
    destruct (lookup_after_insert Cars.id db car eq_refl) as (_ & Hget0 & _).
    assert (forall n, 0 <= n < 3 -> Orm.fits64 (n + 1)) as Hfit
        by (intros n Hn; unfold Orm.fits64; lia).
    destruct (read_car_counted _ _ _ 0 Hi Hget0 eq_refl (Hfit 0 ltac:(lia)))
      as [Hrun1 Hget1].
    set (car1 := Cars.with_views (Some (0 + 1)) car) in *.
    destruct (read_car_counted _ (Cars.id car) car1 1 Hi Hget1 eq_refl
                (Hfit 1 ltac:(lia))) as [Hrun2 Hget2].
    set (car2 := Cars.with_views (Some (1 + 1)) car1) in *.
    destruct (read_car_counted _ (Cars.id car) car2 2 Hi Hget2 eq_refl
                (Hfit 2 ltac:(lia))) as [Hrun3 Hget3].
    set (car3 := Cars.with_views (Some (2 + 1)) car2) in *.
    exists car, car3. eexists.
    split; [rewrite Hcreate; reflexivity|].
    split; [|split; [reflexivity | exact Hget3]].
    unfold Orm.bind at 1. rewrite Hcreate.
    unfold Orm.bind at 1. rewrite Hrun1.
    unfold Orm.bind at 1. rewrite Hrun2.
    exact Hrun3.
Qed.

(** C8 on the scenario: a car created in the empty table and read three
    times has views 3; reading an id the empty table lacks raises 404. *)
Lemma read_car_spec_witness :
  (exists car car3 db3,
     fst (Cars.create_car Examples.car_MN []) = Ok car
     /\ (_ <- Cars.create_car Examples.car_MN ;;
         _ <- Cars.read_car (Cars.id car) ;;
         _ <- Cars.read_car (Cars.id car) ;; Cars.read_car (Cars.id car)) []
        = (Ok car3, db3)
     /\ Cars.views car3 = Some 3
     /\ Orm.at_key Cars.id (Cars.id car) db3 = Some car3)
  /\ Cars.read_car 7 [] = (Raised (HTTPException 404 "Car not found"), []).
Proof.
  split.
  - apply (proj2 (proj2 (read_car_spec [] 1)) Examples.car_MN).
    + unfold Orm.fits64. simpl. lia.
    + intros r Hr. destruct Hr.
  - apply (proj1 (proj2 (read_car_spec [] 7))). unfold Orm.fits64. lia.
Defined.

(** ** Sneakers: rate *)

(** C5, as stated, fails on the rating -0.0, which is within the bounds:
    the sneaker's rating becomes 0.0, a float that is not the one
    supplied. *)
Lemma rate_sneaker_counterexample :
  (PrimFloat.leb 0 (-0) = true /\ PrimFloat.leb (-0) 5 = true)
  /\ Sneakers.rate_sneaker 2 (Some (-0)%float)
       [Examples.sneaker_1; Examples.sneaker_2]
     = (Ok (Sneakers.with_rating (Some 0%float) Examples.sneaker_2),
        [Examples.sneaker_1;
         Sneakers.with_rating (Some 0%float) Examples.sneaker_2])
  /\ Some 0%float <> Some (-0)%float.
Proof.
  split; [split; reflexivity|]. split; [reflexivity|].
  intros H. apply zero_signs_differ.
  exact (f_equal (fun o => match o with Some f => f | None => 0%float end) H).
Qed.

(** C5, amended. A rating that is not both at least 0 and at most 5 is
    refused with the validation error, whatever the id, and the table is
    as it was.  A rating within the bounds, under an id of 64 bits that
    the table has, becomes the sneaker's rating: the handler returns the
    sneaker with a rating that compares equal to the one supplied, and is
    the very float supplied unless that is a zero, and with its other
    fields as they were; the table holds that row under the id, and every
    other id reads as before.  Within the bounds, an id of 64 bits that
    the table lacks raises the 404 error and an id outside 64 bits
    [OverflowError], and the table is as it was. *)
Theorem rate_sneaker_spec :
  forall (db : Sneakers.Table) (sneaker_id : Z) (rating : float),
    (~ (PrimFloat.leb 0 rating = true /\ PrimFloat.leb rating 5 = true) ->
       Sneakers.rate_sneaker sneaker_id (Some rating) db
       = (Raised RequestValidationError, db))
    /\ (PrimFloat.leb 0 rating = true /\ PrimFloat.leb rating 5 = true ->
        (~ Orm.fits64 sneaker_id ->
           Sneakers.rate_sneaker sneaker_id (Some rating) db
           = (Raised OverflowError, db))
        /\ (Orm.fits64 sneaker_id ->
            match Orm.at_key Sneakers.id sneaker_id db with
            | None =>
                Sneakers.rate_sneaker sneaker_id (Some rating) db
                = (Raised (HTTPException 404 "Sneaker not found"), db)
            | Some s =>
                exists s' db' stored,
                  Sneakers.rate_sneaker sneaker_id (Some rating) db = (Ok s', db')
                  /\ Sneakers.rating s' = Some stored
                  /\ PrimFloat.eqb rating stored = true
                  /\ (PrimFloat.eqb rating 0 = false -> stored = rating)
                  /\ (Sneakers.id s' = Sneakers.id s
                      /\ Sneakers.brand s' = Sneakers.brand s
                      /\ Sneakers.model s' = Sneakers.model s
                      /\ Sneakers.price s' = Sneakers.price s)
                  /\ Orm.at_key Sneakers.id sneaker_id db' = Some s'
                  /\ (forall j, j <> sneaker_id ->
                        Orm.at_key Sneakers.id j db'
                        = Orm.at_key Sneakers.id j db)
            end)).
Proof.
  intros db sneaker_id rating. split.
  - intros Hout. apply rate_sneaker_refused.
    destruct (Sneakers.ge0_le5 rating) eqn:E; [|reflexivity].
    exfalso. apply Hout. apply ge0_le5_bounds. exact E.
  - intros Hin. pose proof (proj2 (ge0_le5_bounds rating) Hin) as Hr.
    split; [apply rate_sneaker_overflow; exact Hr|]. intros Hi.
    destruct (Orm.at_key Sneakers.id sneaker_id db) as [s|] eqn:Hs;
      [|apply rate_sneaker_missing; assumption].
    destruct (at_key_some Sneakers.id _ _ _ Hs) as [Hid _].
    destruct (rate_sneaker_found db sneaker_id rating s Hr Hi Hs) as [Hrun Hget].
    pose proof (flush_float_value (Sneakers.rating s) rating) as Hstored.
    rewrite (float_leb_not_nan 0 rating (proj1 Hin)) in Hstored.
    destruct Hstored as (stored & Hstored & Heq & Hexact).
    eexists; eexists; exists stored. split; [exact Hrun|].
    split; [exact Hstored|]. split; [exact Heq|]. split; [exact Hexact|].
    split; [repeat split|]. split; [exact Hget|].
    intros j Hj. apply at_key_put_other; [exact Hid | exact Hj].
Qed.

(** C5 on the scenario: rating 7 is refused, rating 4.5 is stored. *)
Lemma rate_sneaker_spec_witness :
  Sneakers.create_sneaker Examples.sneaker_AB []
  = (Ok Examples.sneaker_1, [Examples.sneaker_1])
  /\ Sneakers.rate_sneaker 1 (Some 7%float) [Examples.sneaker_1]
     = (Raised RequestValidationError, [Examples.sneaker_1])
  /\ exists s' db',
       Sneakers.rate_sneaker 1 (Some 4.5%float) [Examples.sneaker_1] = (Ok s', db')
       /\ Sneakers.rating s' = Some 4.5%float
       /\ Orm.at_key Sneakers.id 1 db' = Some s'.
Proof.
  split; [reflexivity|]. split.
  - apply (proj1 (rate_sneaker_spec [Examples.sneaker_1] 1 7%float)).
    intros [_ H]. vm_compute in H. discriminate.
  - assert (Orm.fits64 1) as H1 by (unfold Orm.fits64; lia).
    pose proof (proj2 (proj2 (rate_sneaker_spec [Examples.sneaker_1] 1 4.5%float)
                         (conj eq_refl eq_refl)) H1) as H.
    simpl in H.
    destruct H as (s' & db' & stored & Hrun & Hrating & _ & Hexact & _ & Hget & _).
    exists s', db'. split; [exact Hrun|]. split; [|exact Hget].
    rewrite Hrating. f_equal. apply Hexact. reflexivity.
Defined.

(** ** Partial update *)

Lemma flush_float_stores (old new : option float) :
  Orm.stores new (Orm.flush_float old new).
Proof.
  destruct new as [f|].
  - exact (flush_float_value old f).
  - apply flush_float_null.
Qed.

Lemma update_energy_drink_written (db : Energy.Table) (drink_id : Z)
    (u : Energy.EnergyDrinkUpdate) (d : Energy.EnergyDrink) :
  Orm.fits64 drink_id ->
  Orm.at_key Energy.id drink_id db = Some d ->
  let d' := fold_left Energy.setattr (Energy.dict_exclude_unset u) d in
  (~ (Orm.writable (Energy.volume_ml d) (Energy.volume_ml d')
      /\ Orm.writable (Energy.price d) (Energy.price d')
      /\ Orm.writable (Energy.stock d) (Energy.stock d')) ->
     Energy.update_energy_drink drink_id u db = (Raised OverflowError, db))
  /\ (Orm.writable (Energy.volume_ml d) (Energy.volume_ml d')
      /\ Orm.writable (Energy.price d) (Energy.price d')
      /\ Orm.writable (Energy.stock d) (Energy.stock d') ->
      Energy.update_energy_drink drink_id u db
      = (Ok d', Orm.put Energy.id drink_id d' db)).
Proof.
  intros Hi Hd d'. rewrite (update_energy_drink_found db drink_id u d Hi Hd).
  fold d'. split.
  - intros H. rewrite (energy_flush_overflow d d' H). reflexivity.
  - intros (Hv & Hp & Hs).
    rewrite (energy_flush_ok d d'); auto. apply (energy_setattr_fields u d).
Qed.

Lemma update_sneaker_written (db : Sneakers.Table) (sneaker_id : Z)
    (u : Sneakers.SneakerUpdate) (s : Sneakers.Sneaker) :
  Orm.fits64 sneaker_id ->
  Orm.at_key Sneakers.id sneaker_id db = Some s ->
  let s' := fold_left Sneakers.setattr (Sneakers.dict_exclude_unset u) s in
  (~ Orm.writable (Sneakers.price s) (Sneakers.price s') ->
     Sneakers.update_sneaker sneaker_id u db = (Raised OverflowError, db))
  /\ (Orm.writable (Sneakers.price s) (Sneakers.price s') ->
      Sneakers.update_sneaker sneaker_id u db
      = (Ok (Sneakers.with_rating
               (Orm.flush_float (Sneakers.rating s) (Sneakers.rating s')) s'),
         Orm.put Sneakers.id sneaker_id
           (Sneakers.with_rating
              (Orm.flush_float (Sneakers.rating s) (Sneakers.rating s')) s') db)).
Proof.
  intros Hi Hs s'. rewrite (update_sneaker_found db sneaker_id u s Hi Hs).
  fold s'. split.
  - intros H. rewrite (sneakers_flush_overflow s s' H). reflexivity.
  - intros Hp.
    rewrite (sneakers_flush_ok s s'); auto. apply (sneakers_setattr_fields u s).
Qed.

Lemma update_car_written (db : Cars.Table) (car_id : Z)
    (u : Cars.CarUpdate) (c : Cars.Car) :
  Orm.fits64 car_id ->
  Orm.at_key Cars.id car_id db = Some c ->
  let c' := fold_left Cars.setattr (Cars.dict_exclude_unset u) c in
  (~ Orm.writable (Cars.year c) (Cars.year c') ->
     Cars.update_car car_id u db = (Raised OverflowError, db))
  /\ (Orm.writable (Cars.year c) (Cars.year c') ->
      Cars.update_car car_id u db = (Ok c', Orm.put Cars.id car_id c' db)).
Proof.
  intros Hi Hc c'. rewrite (update_car_found db car_id u c Hi Hc).
  fold c'.
  assert (Cars.views c' = Cars.views c) as Hviews
      by (destruct (cars_setattr_fields u c) as (_ & _ & _ & _ & _ & H); exact H).
  split.
  - intros H. rewrite (cars_flush_overflow c c'); [reflexivity|]. tauto.
  - intros Hy.
    rewrite (cars_flush_ok c c'); auto.
    + apply (cars_setattr_fields u c).
    + left. exact Hviews.
Qed.

(** C9, as stated, fails on a request that sets an integer field to a
    value outside 64 bits: the update of an existing drink raises
    [OverflowError] and changes nothing.  And a request that sets the
    rating of a sneaker to NaN leaves it NULL. *)
Lemma update_partial_counterexample :
  (Orm.at_key Energy.id 1 [Examples.drink_1] = Some Examples.drink_1
   /\ Energy.update_energy_drink 1
        {| Energy.u_brand := None; Energy.u_name := None;
           Energy.u_volume_ml := Some (Some (2 ^ 63));
           Energy.u_price := None; Energy.u_stock := None |}
        [Examples.drink_1]
      = (Raised OverflowError, [Examples.drink_1]))
  /\ Sneakers.update_sneaker 1 Examples.rating_nan [Examples.sneaker_1]
     = (Ok (Sneakers.with_rating None Examples.sneaker_1),
        [Sneakers.with_rating None Examples.sneaker_1]).
Proof.
  split; [split|]; reflexivity.
Qed.

(** C9, amended. For each of the three resources, an update under an id
    of 64 bits that the table has, whose request sets every integer
    field it sets to NULL, to the value the field has, or to an integer
    of 64 bits, returns the entity with every field the request sets at
    the value given and every other field as it was, except that a
    rating that is set is held as the store holds a float (NaN as NULL, a
    zero as a zero that compares equal), and a rating that is not set is
    as it was when the loaded one is not NaN; the table then holds the
    returned row under the id and every other id reads as before.  With
    the request that sets no field the returned entity is the stored one
    and a table with unique keys is unchanged.  A request that sets an
    integer field to a different integer outside 64 bits raises
    [OverflowError], an id of 64 bits that the table lacks the 404
    error, an id outside 64 bits [OverflowError], and each leaves the
    table as it was. *)
Theorem update_partial_spec :
  (forall (db : Energy.Table) (drink_id : Z) (u : Energy.EnergyDrinkUpdate),
     (~ Orm.fits64 drink_id ->
        Energy.update_energy_drink drink_id u db = (Raised OverflowError, db))
     /\ (Orm.fits64 drink_id ->
         match Orm.at_key Energy.id drink_id db with
         | None =>
             Energy.update_energy_drink drink_id u db
             = (Raised (HTTPException 404 "Energy drink not found"), db)
         | Some d =>
             let volume_ml := Orm.updated (Energy.volume_ml d) (Energy.u_volume_ml u) in
             let price := Orm.updated (Energy.price d) (Energy.u_price u) in
             let stock := Orm.updated (Energy.stock d) (Energy.u_stock u) in
             (~ (Orm.writable (Energy.volume_ml d) volume_ml
                 /\ Orm.writable (Energy.price d) price
                 /\ Orm.writable (Energy.stock d) stock) ->
                Energy.update_energy_drink drink_id u db
                = (Raised OverflowError, db))
             /\ (Orm.writable (Energy.volume_ml d) volume_ml
                 /\ Orm.writable (Energy.price d) price
                 /\ Orm.writable (Energy.stock d) stock ->
                 exists d' db',
                   Energy.update_energy_drink drink_id u db = (Ok d', db')
                   /\ (Energy.id d' = Energy.id d
                       /\ Energy.brand d'
                          = Orm.updated (Energy.brand d) (Energy.u_brand u)
                       /\ Energy.name d'
                          = Orm.updated (Energy.name d) (Energy.u_name u)
                       /\ Energy.volume_ml d' = volume_ml
                       /\ Energy.price d' = price
                       /\ Energy.stock d' = stock)
                   /\ Orm.at_key Energy.id drink_id db' = Some d'
                   /\ (forall j, j <> drink_id ->
                         Orm.at_key Energy.id j db' = Orm.at_key Energy.id j db)
                   /\ (u = Energy.no_fields ->
                       d' = d /\ (Orm.unique_pk Energy.id db -> db' = db)))
         end))
  /\ (forall (db : Sneakers.Table) (sneaker_id : Z) (u : Sneakers.SneakerUpdate),
        (~ Orm.fits64 sneaker_id ->
           Sneakers.update_sneaker sneaker_id u db = (Raised OverflowError, db))
        /\ (Orm.fits64 sneaker_id ->
            match Orm.at_key Sneakers.id sneaker_id db with
            | None =>
                Sneakers.update_sneaker sneaker_id u db
                = (Raised (HTTPException 404 "Sneaker not found"), db)
            | Some s =>
                let price := Orm.updated (Sneakers.price s) (Sneakers.u_price u) in
                let kept :=
                  forall f, Sneakers.rating s = Some f -> PrimFloat.is_nan f = false in
                (~ Orm.writable (Sneakers.price s) price ->
                   Sneakers.update_sneaker sneaker_id u db
                   = (Raised OverflowError, db))
                /\ (Orm.writable (Sneakers.price s) price ->
                    exists s' db',
                      Sneakers.update_sneaker sneaker_id u db = (Ok s', db')
                      /\ (Sneakers.id s' = Sneakers.id s
                          /\ Sneakers.brand s'
                             = Orm.updated (Sneakers.brand s) (Sneakers.u_brand u)
                          /\ Sneakers.model s'
                             = Orm.updated (Sneakers.model s) (Sneakers.u_model u)
                          /\ Sneakers.price s' = price
                          /\ (forall r, Sneakers.u_rating u = Some r ->
                                Orm.stores r (Sneakers.rating s'))
                          /\ (Sneakers.u_rating u = None -> kept ->
                                Sneakers.rating s' = Sneakers.rating s))
                      /\ Orm.at_key Sneakers.id sneaker_id db' = Some s'
                      /\ (forall j, j <> sneaker_id ->
                            Orm.at_key Sneakers.id j db'
                            = Orm.at_key Sneakers.id j db)
                      /\ (u = Sneakers.no_fields -> kept ->
                          s' = s /\ (Orm.unique_pk Sneakers.id db -> db' = db)))
            end))
  /\ (forall (db : Cars.Table) (car_id : Z) (u : Cars.CarUpdate),
        (~ Orm.fits64 car_id ->
           Cars.update_car car_id u db = (Raised OverflowError, db))
        /\ (Orm.fits64 car_id ->
            match Orm.at_key Cars.id car_id db with
            | None =>
                Cars.update_car car_id u db
                = (Raised (HTTPException 404 "Car not found"), db)
            | Some c =>
                let year := Orm.updated (Cars.year c) (Cars.u_year u) in
                (~ Orm.writable (Cars.year c) year ->
                   Cars.update_car car_id u db = (Raised OverflowError, db))
                /\ (Orm.writable (Cars.year c) year ->
                    exists c' db',
                      Cars.update_car car_id u db = (Ok c', db')
                      /\ (Cars.id c' = Cars.id c
                          /\ Cars.make c'
                             = Orm.updated (Cars.make c) (Cars.u_make u)
                          /\ Cars.model c'
                             = Orm.updated (Cars.model c) (Cars.u_model u)
                          /\ Cars.year c' = year
                          /\ Cars.color c'
                             = Orm.updated (Cars.color c) (Cars.u_color u)
                          /\ Cars.views c' = Cars.views c)
                      /\ Orm.at_key Cars.id car_id db' = Some c'
                      /\ (forall j, j <> car_id ->
                            Orm.at_key Cars.id j db' = Orm.at_key Cars.id j db)
                      /\ (u = Cars.no_fields ->
                          c' = c /\ (Orm.unique_pk Cars.id db -> db' = db)))
            end)).
Proof.
  split; [|split].
  - intros db drink_id u. split; [apply update_energy_drink_overflow|].
    intros Hi.
    destruct (Orm.at_key Energy.id drink_id db) as [d|] eqn:Hd;
      [|apply update_energy_drink_missing; assumption].
    cbv zeta.
    destruct (at_key_some Energy.id _ _ _ Hd) as [Hid _].
    destruct (update_energy_drink_written db drink_id u d Hi Hd) as [Hover Hrun].
    destruct (energy_setattr_fields u d) as (Fi & Fb & Fn & Fv & Fp & Fs).
    cbv zeta in Hover, Hrun.
    rewrite Fv, Fp, Fs in Hover, Hrun.
    split; [exact Hover|]. intros Hw.
    eexists; eexists. split; [exact (Hrun Hw)|].
    split; [repeat split; assumption|].
    split; [apply (at_key_put_same Energy.id _ _ d); congruence|].
    split; [intros j Hj; apply at_key_put_other; congruence|].
    intros ->. simpl. split; [reflexivity|].
    intros Hu. apply put_same_row; assumption.
  - intros db sneaker_id u. split; [apply update_sneaker_overflow|].
    intros Hi.
    destruct (Orm.at_key Sneakers.id sneaker_id db) as [s|] eqn:Hs;
      [|apply update_sneaker_missing; assumption].
    cbv zeta.
    destruct (at_key_some Sneakers.id _ _ _ Hs) as [Hid _].
    destruct (update_sneaker_written db sneaker_id u s Hi Hs) as [Hover Hrun].
    destruct (sneakers_setattr_fields u s) as (Fi & Fb & Fm & Fp & Fr).
    cbv zeta in Hover, Hrun.
    rewrite Fp in Hover, Hrun. rewrite Fr in Hrun.
    split; [exact Hover|]. intros Hw.
    eexists; eexists. split; [exact (Hrun Hw)|].
    split; [|split; [|split]].
    + split; [exact Fi|]. split; [exact Fb|]. split; [exact Fm|].
      split; [exact Fp|]. split.
      * intros r Hr. rewrite Hr. simpl. apply flush_float_stores.
      * intros Hr Hkept. rewrite Hr. simpl. apply flush_float_unset. exact Hkept.
    + apply (at_key_put_same Sneakers.id _ _ s); [exact Hs|]. simpl. congruence.
    + intros j Hj. apply at_key_put_other; [simpl; congruence | exact Hj].
    + intros -> Hkept. simpl.
      rewrite (flush_float_unset _ Hkept).
      assert (Sneakers.with_rating (Sneakers.rating s) s = s) as ->
          by (destruct s; reflexivity).
      split; [reflexivity|].
      intros Hu. apply put_same_row; assumption.
  - intros db car_id u. split; [apply update_car_overflow|].
    intros Hi.
    destruct (Orm.at_key Cars.id car_id db) as [c|] eqn:Hc;
      [|apply update_car_missing; assumption].
    cbv zeta.
    destruct (at_key_some Cars.id _ _ _ Hc) as [Hid _].
    destruct (update_car_written db car_id u c Hi Hc) as [Hover Hrun].
    destruct (cars_setattr_fields u c) as (Fi & Fa & Fm & Fy & Fk & Fv).
    cbv zeta in Hover, Hrun.
    rewrite Fy in Hover, Hrun.
    split; [exact Hover|]. intros Hw.
    eexists; eexists. split; [exact (Hrun Hw)|].
    split; [repeat split; assumption|].
    split; [apply (at_key_put_same Cars.id _ _ c); congruence|].
    split; [intros j Hj; apply at_key_put_other; congruence|].
    intros ->. simpl. split; [reflexivity|].
    intros Hu. apply put_same_row; assumption.
Qed.

(** C9 on a table of one drink: a request that sets only the price
    changes the price and nothing else, and the empty request returns
    the drink as it is and leaves the table as it is. *)
Lemma update_partial_spec_witness :
  (exists d' db',
     Energy.update_energy_drink 1
       {| Energy.u_brand := None; Energy.u_name := None;
          Energy.u_volume_ml := None; Energy.u_price := Some (Some 120);
          Energy.u_stock := None |} [Examples.drink_1] = (Ok d', db')
     /\ Energy.price d' = Some 120
     /\ Energy.stock d' = Energy.stock Examples.drink_1
     /\ Energy.brand d' = Energy.brand Examples.drink_1)
  /\ Energy.update_energy_drink 1 Energy.no_fields [Examples.drink_1]
     = (Ok Examples.drink_1, [Examples.drink_1]).
Proof.
  assert (Orm.fits64 1) as H1 by (unfold Orm.fits64; lia).
  split.
  - pose proof (proj2 (proj1 update_partial_spec [Examples.drink_1] 1
                  {| Energy.u_brand := None; Energy.u_name := None;
                     Energy.u_volume_ml := None; Energy.u_price := Some (Some 120);
                     Energy.u_stock := None |}) H1) as H.
    simpl in H. destruct H as [_ H].
    destruct H as (d' & db' & Hrun & (_ & Hb & _ & _ & Hp & Hs) & _).
    + split; [left; reflexivity|].
      split; [right; unfold Orm.fits64; lia | left; reflexivity].
    + exists d', db'. repeat split; assumption.
  - pose proof (proj2 (proj1 update_partial_spec [Examples.drink_1] 1
                  Energy.no_fields) H1) as H.
    simpl in H. destruct H as [_ H].
    destruct H as (d' & db' & Hrun & _ & _ & _ & Hsame).
    + repeat split; left; reflexivity.
    + destruct (Hsame eq_refl) as [Hd Hdb]. rewrite Hrun, Hd.
      assert (Orm.unique_pk Energy.id [Examples.drink_1]) as Hu
          by (repeat constructor; simpl; tauto).
      rewrite (Hdb Hu). reflexivity.
Defined.

(** ** The list requests *)











(** ** Invariants of the tables *)

Lemma energy_serve_stock (contains : string -> string -> bool)
    (inherited : string -> bool) (ties : Orm.Ties Energy.EnergyDrink Energy.column)
    (req : Energy.request) (db : Energy.Table) :
  Forall Energy.stock_nonneg db -> Energy.writes_nonneg_stock req ->
  Forall Energy.stock_nonneg (Energy.serve contains inherited ties req db).
Proof.
  intros Hdb Hreq.
  destruct req as [skip limit sb so fb fv search|i|c|i u|i|i quantity]; simpl.
  - rewrite (proj1 (read_energy_drinks_rows _ _ _ _ _ _ _ _ _ _ _)). exact Hdb.
  - destruct (fits64_dec i) as [Hi|Hi];
      [rewrite read_energy_drink_fits by exact Hi
      |rewrite read_energy_drink_overflow by exact Hi]; exact Hdb.
  - destruct (fits64_dec (Energy.c_volume_ml c)) as [Hv|Hv];
      [|rewrite create_energy_drink_overflow by tauto; exact Hdb].
    destruct (fits64_dec (Energy.c_price c)) as [Hp|Hp];
      [|rewrite create_energy_drink_overflow by tauto; exact Hdb].
    destruct (fits64_dec (Energy.c_stock c)) as [Hs|Hs];
      [|rewrite create_energy_drink_overflow by tauto; exact Hdb].
    rewrite create_energy_drink_fits by assumption. simpl.
    apply Forall_app. split; [exact Hdb|].
    constructor; [|constructor].
    exists (Energy.c_stock c). split; [reflexivity | exact Hreq].
  - destruct (fits64_dec i) as [Hi|Hi];
      [|rewrite update_energy_drink_overflow by exact Hi; exact Hdb].
    destruct (Orm.at_key Energy.id i db) as [d|] eqn:Hd;
      [|rewrite update_energy_drink_missing by assumption; exact Hdb].
    rewrite (update_energy_drink_found db i u d Hi Hd).
    destruct (energy_setattr_fields u d) as (Hid & _ & _ & _ & _ & Hstock).
    destruct (energy_flush_cases d _ Hid) as [-> | ->]; [|exact Hdb].
    simpl. apply Forall_put; [exact Hdb|].
    destruct (at_key_some Energy.id _ _ _ Hd) as [_ Hin].
    rewrite Forall_forall in Hdb. destruct (Hdb d Hin) as (s & Hs & Hs0).
    unfold Energy.stock_nonneg. rewrite Hstock. simpl in Hreq.
    destruct (Energy.u_stock u) as [[s'|]|]; simpl.
    + exists s'. split; [reflexivity | exact Hreq].
    + contradiction.
    + exists s. split; assumption.
  - destruct (fits64_dec i) as [Hi|Hi];
      [|rewrite delete_energy_drink_overflow by exact Hi; exact Hdb].
    rewrite delete_energy_drink_fits by exact Hi.
    destruct (Orm.at_key Energy.id i db) as [d|]; simpl; [|exact Hdb].
    apply Forall_delete. exact Hdb.
  - destruct (fits64_dec i) as [Hi|Hi];
      [|rewrite buy_energy_drink_overflow by exact Hi; exact Hdb].
    destruct (Orm.at_key Energy.id i db) as [d|] eqn:Hd;
      [|rewrite buy_energy_drink_missing by assumption; exact Hdb].
    destruct (at_key_some Energy.id _ _ _ Hd) as [_ Hin].
    pose proof Hdb as Hall. rewrite Forall_forall in Hall.
    destruct (Hall d Hin) as (s & Hs & Hs0).
    rewrite (buy_energy_drink_found db i quantity d s Hi Hd Hs). cbv zeta.
    destruct (Z.ltb_spec s (default 1 quantity)); [exact Hdb|].
    destruct (energy_flush_cases d (Energy.with_stock
                                      (Some (s - default 1 quantity)) d) eq_refl)
      as [-> | ->]; [|exact Hdb].
    simpl. apply Forall_put; [exact Hdb|].
    exists (s - default 1 quantity). split; [reflexivity | lia].
Qed.

Lemma cars_serve_views (contains : string -> string -> bool)
    (inherited : string -> bool) (ties : Orm.Ties Cars.Car Cars.column)
    (req : Cars.request) (db : Cars.Table) :
  Forall Cars.views_nonneg db ->
  Forall Cars.views_nonneg (Cars.serve contains inherited ties req db).
Proof.
  intros Hdb. destruct req as [skip limit sb so fm fy search|i|c|i u|i]; simpl.
  - rewrite (proj1 (read_cars_rows _ _ _ _ _ _ _ _ _ _ _)). exact Hdb.
  - destruct (fits64_dec i) as [Hi|Hi];
      [|rewrite read_car_overflow by exact Hi; exact Hdb].
    destruct (Orm.at_key Cars.id i db) as [car|] eqn:Hcar;
      [|rewrite read_car_missing by assumption; exact Hdb].
    destruct (at_key_some Cars.id _ _ _ Hcar) as [_ Hin].
    pose proof Hdb as Hall. rewrite Forall_forall in Hall.
    destruct (Hall car Hin) as (v & Hv & Hv0).
    rewrite (read_car_found db i car v Hi Hcar Hv).
    destruct (cars_flush_cases car (Cars.with_views (Some (v + 1)) car) eq_refl)
      as [-> | ->]; [|exact Hdb].
    simpl. apply Forall_put; [exact Hdb|].
    exists (v + 1). split; [reflexivity | lia].
  - destruct (fits64_dec (Cars.c_year c)) as [Hy|Hy];
      [|rewrite create_car_overflow by exact Hy; exact Hdb].
    rewrite create_car_fits by exact Hy. simpl.
    apply Forall_app. split; [exact Hdb|].
    constructor; [|constructor]. exists 0. split; [reflexivity | lia].
  - destruct (fits64_dec i) as [Hi|Hi];
      [|rewrite update_car_overflow by exact Hi; exact Hdb].
    destruct (Orm.at_key Cars.id i db) as [car|] eqn:Hcar;
      [|rewrite update_car_missing by assumption; exact Hdb].
    rewrite (update_car_found db i u car Hi Hcar).
    destruct (cars_setattr_fields u car) as (Hid & _ & _ & _ & _ & Hviews).
    destruct (cars_flush_cases car _ Hid) as [-> | ->]; [|exact Hdb].
    simpl. apply Forall_put; [exact Hdb|].
    destruct (at_key_some Cars.id _ _ _ Hcar) as [_ Hin].
    rewrite Forall_forall in Hdb. destruct (Hdb car Hin) as (v & Hv & Hv0).
    exists v. split; [|exact Hv0]. rewrite Hviews. exact Hv.
  - destruct (fits64_dec i) as [Hi|Hi];
      [|rewrite delete_car_overflow by exact Hi; exact Hdb].
    rewrite delete_car_fits by exact Hi.
    destruct (Orm.at_key Cars.id i db) as [car|]; simpl; [|exact Hdb].
    apply Forall_delete. exact Hdb.
Qed.

(** C7, as stated, fails for the stock: a create with stock -1 is served
    and leaves a drink with a stock below zero. *)
Lemma stock_nonneg_counterexample :
  Orm.reachable
    (Energy.serve Orm.contains Examples.base_attribute Examples.scan_order)
    (Energy.serve Orm.contains Examples.base_attribute Examples.scan_order
       (Energy.POST Examples.drink_oversold) [])
  /\ ~ Forall Energy.stock_nonneg
         (Energy.serve Orm.contains Examples.base_attribute Examples.scan_order
            (Energy.POST Examples.drink_oversold) []).
Proof.
  split.
  - apply Orm.reach_serve; [apply Orm.reach_empty | exact I].
  - intros H. inversion H as [|d db Hd _]; subst.
    destruct Hd as (s & Hs & Hs0). simpl in Hs. injection Hs as <-. lia.
Qed.

(** C7, amended. Whatever the store computes for [contains], whatever
    names the classes inherit and whatever rows the store puts first
    among equal sort keys: in every table reachable from the empty one
    by the car requests every views counter is a number not below zero,
    and every car request preserves this.  Every energy-drink request
    that writes no stock below zero and no NULL stock preserves that
    every stock is a number not below zero, and so this holds in every
    table reachable from the empty one by such requests. *)
Theorem counts_nonneg_spec :
  forall (contains : string -> string -> bool) (inherited : string -> bool),
    (forall ties db, Orm.reachable (Cars.serve contains inherited ties) db ->
       Forall Cars.views_nonneg db)
    /\ (forall ties req db, Forall Cars.views_nonneg db ->
          Forall Cars.views_nonneg (Cars.serve contains inherited ties req db))
    /\ (forall ties req db, Forall Energy.stock_nonneg db ->
          Energy.writes_nonneg_stock req ->
          Forall Energy.stock_nonneg (Energy.serve contains inherited ties req db))
    /\ (forall ties db,
          Orm.reachable_by (Energy.serve contains inherited ties)
              Energy.writes_nonneg_stock db ->
          Forall Energy.stock_nonneg db).
Proof.
  intros contains inherited. split; [|split; [|split]].
  - intros ties db Hreach. induction Hreach as [|req db _ IH _].
    + constructor.
    + apply cars_serve_views. exact IH.
  - intros ties req db. apply cars_serve_views.
  - intros ties req db. apply energy_serve_stock.
  - intros ties db Hreach. induction Hreach as [|req db _ IH Hreq].
    + constructor.
    + apply energy_serve_stock; assumption.
Qed.

(** C7 on a car created and read, and on a drink of stock 5 bought three
    times over. *)
Lemma counts_nonneg_spec_witness :
  Forall Cars.views_nonneg
    (Cars.serve Orm.contains Examples.base_attribute Examples.scan_order
       (Cars.GET_one 1)
       (Cars.serve Orm.contains Examples.base_attribute Examples.scan_order
          (Cars.POST Examples.car_MN) []))
  /\ Forall Energy.stock_nonneg
       (Energy.serve Orm.contains Examples.base_attribute Examples.scan_order
          (Energy.POST_buy 1 (Some 3)) [Examples.drink_1]).
Proof.
  split.
  - apply (proj1 (counts_nonneg_spec Orm.contains Examples.base_attribute)
             Examples.scan_order).
    apply Orm.reach_serve; [|exact I].
    apply Orm.reach_serve; [apply Orm.reach_empty | exact I].
  - apply (proj1 (proj2 (proj2 (counts_nonneg_spec Orm.contains
                                  Examples.base_attribute)))).
    + constructor; [|constructor]. exists 5. split; [reflexivity | lia].
    + exact I.
Defined.

(** ** The sort that cannot be made *)

(** C4. A list whose [sort_by] is [__tablename__] does not ignore the
    sort: it raises [AttributeError] and returns no rows, for each of
    the three resources, whatever the other parameters and the table. *)
Theorem sort_by_tablename_raises :
  forall (contains : string -> string -> bool) (inherited : string -> bool)
         (skip limit : Z) (sort_order : string) (search : option string),
    (forall ties filter_brand filter_volume (db : Energy.Table),
       Energy.read_energy_drinks contains inherited ties skip limit
         (Some "__tablename__"%string) sort_order filter_brand filter_volume
         search db
       = (Raised AttributeError, db))
    /\ (forall ties filter_brand filter_price_min filter_price_max
               (db : Sneakers.Table),
          Sneakers.read_sneakers contains inherited ties skip limit
            (Some "__tablename__"%string) sort_order filter_brand
            filter_price_min filter_price_max search db
          = (Raised AttributeError, db))
    /\ (forall ties filter_make filter_year (db : Cars.Table),
          Cars.read_cars contains inherited ties skip limit
            (Some "__tablename__"%string) sort_order filter_make filter_year
            search db
          = (Raised AttributeError, db)).
Proof.
  intros contains inherited skip limit sort_order search.
  split; [|split]; intros.
  - rewrite read_energy_drinks_run. unfold Energy.ordering. simpl.
    destruct (String.eqb (lower sort_order) "desc"); reflexivity.
  - rewrite read_sneakers_run. unfold Sneakers.ordering. simpl.
    destruct (String.eqb (lower sort_order) "desc"); reflexivity.
  - rewrite read_cars_run. unfold Cars.ordering. simpl.
    destruct (String.eqb (lower sort_order) "desc"); reflexivity.
Qed.

(** ** The rating an update writes *)

(** C6. A sneaker created and then updated with the rating 7.0 has the
    rating 7.0, which the rate request refuses: the table is reachable,
    and its rating is not within 0 and 5. *)
Theorem update_sneaker_rating_unchecked :
  Sneakers.create_sneaker Examples.sneaker_AB []
  = (Ok Examples.sneaker_1, [Examples.sneaker_1])
  /\ Sneakers.update_sneaker 1 Examples.rating_7 [Examples.sneaker_1]
     = (Ok (Sneakers.with_rating (Some 7%float) Examples.sneaker_1),
        [Sneakers.with_rating (Some 7%float) Examples.sneaker_1])
  /\ Sneakers.ge0_le5 7 = false
  /\ Sneakers.rate_sneaker 1 (Some 7%float) [Examples.sneaker_1]
     = (Raised RequestValidationError, [Examples.sneaker_1])
  /\ Orm.reachable
       (Sneakers.serve Orm.contains Examples.base_attribute Examples.scan_order)
       [Sneakers.with_rating (Some 7%float) Examples.sneaker_1]
  /\ ~ Forall Sneakers.rating_in_range
         [Sneakers.with_rating (Some 7%float) Examples.sneaker_1].
Proof.
  split; [reflexivity|]. split; [reflexivity|]. split; [reflexivity|].
  split; [reflexivity|]. split.
  - change [Sneakers.with_rating (Some 7%float) Examples.sneaker_1]
      with (Sneakers.serve Orm.contains Examples.base_attribute
              Examples.scan_order (Sneakers.PUT 1 Examples.rating_7)
              (Sneakers.serve Orm.contains Examples.base_attribute
                 Examples.scan_order (Sneakers.POST Examples.sneaker_AB) [])).
    apply Orm.reach_serve; [|exact I].
    apply Orm.reach_serve; [apply Orm.reach_empty | exact I].
  - intros H. inversion H as [|s db Hs _]; subst.
    destruct Hs as (v & Hv & Hr). simpl in Hv.
    assert (v = 7%float) as ->
        by (exact (f_equal (fun o => match o with Some f => f | None => v end)
                     (eq_sym Hv))).
    vm_compute in Hr. discriminate.
Qed.

(** ** Falsy filters *)

(** C10. A filter given as the empty string or as 0, and a search string
    given as the empty string, restrict nothing: the list runs to the
    same result and table as the list without that parameter, for each
    filter of each of the three resources. *)
Theorem falsy_filter_ignored :
  forall (contains : string -> string -> bool) (inherited : string -> bool)
         (skip limit : Z)
         (sort_by : option string) (sort_order : string) (search : option string),
    (forall ties filter_brand filter_volume (db : Energy.Table),
       Energy.read_energy_drinks contains inherited ties skip limit sort_by
         sort_order (Some EmptyString) filter_volume search db
       = Energy.read_energy_drinks contains inherited ties skip limit sort_by
           sort_order None filter_volume search db
       /\ Energy.read_energy_drinks contains inherited ties skip limit sort_by
            sort_order filter_brand (Some 0) search db
          = Energy.read_energy_drinks contains inherited ties skip limit sort_by
              sort_order filter_brand None search db
       /\ Energy.read_energy_drinks contains inherited ties skip limit sort_by
            sort_order filter_brand filter_volume (Some EmptyString) db
          = Energy.read_energy_drinks contains inherited ties skip limit sort_by
              sort_order filter_brand filter_volume None db)
    /\ (forall ties filter_brand filter_price_min filter_price_max
               (db : Sneakers.Table),
          Sneakers.read_sneakers contains inherited ties skip limit sort_by
            sort_order (Some EmptyString) filter_price_min filter_price_max
            search db
          = Sneakers.read_sneakers contains inherited ties skip limit sort_by
              sort_order None filter_price_min filter_price_max search db
          /\ Sneakers.read_sneakers contains inherited ties skip limit sort_by
               sort_order filter_brand (Some 0) filter_price_max search db
             = Sneakers.read_sneakers contains inherited ties skip limit sort_by
                 sort_order filter_brand None filter_price_max search db
          /\ Sneakers.read_sneakers contains inherited ties skip limit sort_by
               sort_order filter_brand filter_price_min (Some 0) search db
             = Sneakers.read_sneakers contains inherited ties skip limit sort_by
                 sort_order filter_brand filter_price_min None search db
          /\ Sneakers.read_sneakers contains inherited ties skip limit sort_by
               sort_order filter_brand filter_price_min filter_price_max
               (Some EmptyString) db
             = Sneakers.read_sneakers contains inherited ties skip limit sort_by
                 sort_order filter_brand filter_price_min filter_price_max
                 None db)
    /\ (forall ties filter_make filter_year (db : Cars.Table),
          Cars.read_cars contains inherited ties skip limit sort_by sort_order
            (Some EmptyString) filter_year search db
          = Cars.read_cars contains inherited ties skip limit sort_by sort_order
              None filter_year search db
          /\ Cars.read_cars contains inherited ties skip limit sort_by sort_order
               filter_make (Some 0) search db
             = Cars.read_cars contains inherited ties skip limit sort_by
                 sort_order filter_make None search db
          /\ Cars.read_cars contains inherited ties skip limit sort_by sort_order
               filter_make filter_year (Some EmptyString) db
             = Cars.read_cars contains inherited ties skip limit sort_by
                 sort_order filter_make filter_year None db).
Proof.
  intros contains inherited skip limit sort_by sort_order search.
  split; [|split]; intros; repeat split; reflexivity.
Qed.

(** * Further properties of the handlers *)

(** ** Create, get and delete *)

(** X1. A create whose integers are of 64 bits, on a table whose keys
    are below the largest integer of the store, appends and returns a
    row with the fields of the request (a sneaker's rating 0.0, a car's
    views 0) under a key above every key of the table; a get of that key
    returns the row, and every other key reads as before.  A create with
    an integer outside 64 bits raises [OverflowError] and leaves the
    table as it was. *)
Theorem create_then_get :
  (forall (db : Energy.Table) (c : Energy.EnergyDrinkCreate),
     let within :=
       Orm.fits64 (Energy.c_volume_ml c) /\ Orm.fits64 (Energy.c_price c)
       /\ Orm.fits64 (Energy.c_stock c) in
     (~ within -> Energy.create_energy_drink c db = (Raised OverflowError, db))
     /\ (within -> (forall r, In r db -> Energy.id r < 2 ^ 63 - 1) ->
         exists d,
           Energy.create_energy_drink c db = (Ok d, db ++ [d])
           /\ (Energy.brand d = Some (Energy.c_brand c)
               /\ Energy.name d = Some (Energy.c_name c)
               /\ Energy.volume_ml d = Some (Energy.c_volume_ml c)
               /\ Energy.price d = Some (Energy.c_price c)
               /\ Energy.stock d = Some (Energy.c_stock c))
           /\ (forall r, In r db -> Energy.id r < Energy.id d)
           /\ Energy.read_energy_drink (Energy.id d) (db ++ [d])
              = (Ok d, db ++ [d])
           /\ (forall j, j <> Energy.id d ->
                 Energy.read_energy_drink j (db ++ [d])
                 = (fst (Energy.read_energy_drink j db), db ++ [d]))))
  /\ (forall (db : Sneakers.Table) (c : Sneakers.SneakerCreate),
        (~ Orm.fits64 (Sneakers.c_price c) ->
           Sneakers.create_sneaker c db = (Raised OverflowError, db))
        /\ (Orm.fits64 (Sneakers.c_price c) ->
            (forall r, In r db -> Sneakers.id r < 2 ^ 63 - 1) ->
            exists s,
              Sneakers.create_sneaker c db = (Ok s, db ++ [s])
              /\ (Sneakers.brand s = Some (Sneakers.c_brand c)
                  /\ Sneakers.model s = Some (Sneakers.c_model c)
                  /\ Sneakers.price s = Some (Sneakers.c_price c)
                  /\ Sneakers.rating s = Some 0%float)
              /\ (forall r, In r db -> Sneakers.id r < Sneakers.id s)
              /\ Sneakers.read_sneaker (Sneakers.id s) (db ++ [s])
                 = (Ok s, db ++ [s])
              /\ (forall j, j <> Sneakers.id s ->
                    Sneakers.read_sneaker j (db ++ [s])
                    = (fst (Sneakers.read_sneaker j db), db ++ [s]))))
  /\ (forall (db : Cars.Table) (c : Cars.CarCreate),
        (~ Orm.fits64 (Cars.c_year c) ->
           Cars.create_car c db = (Raised OverflowError, db))
        /\ (Orm.fits64 (Cars.c_year c) ->
            (forall r, In r db -> Cars.id r < 2 ^ 63 - 1) ->
            exists car,
              Cars.create_car c db = (Ok car, db ++ [car])
              /\ (Cars.make car = Some (Cars.c_make c)
                  /\ Cars.model car = Some (Cars.c_model c)
                  /\ Cars.year car = Some (Cars.c_year c)
                  /\ Cars.color car = Some (Cars.c_color c)
                  /\ Cars.views car = Some 0)
              /\ (forall r, In r db -> Cars.id r < Cars.id car)
              /\ Orm.at_key Cars.id (Cars.id car) (db ++ [car]) = Some car
              /\ (forall j, j <> Cars.id car ->
                    Orm.at_key Cars.id j (db ++ [car])
                    = Orm.at_key Cars.id j db))).
Proof.
  split; [|split].
  - intros db c within. split; [apply create_energy_drink_overflow|].
    intros (Hv & Hp & Hs) Hroom.
    eexists. split; [apply create_energy_drink_fits; assumption|].
    split; [repeat split|].
    match goal with |- context [_ ++ [?row]] => set (d := row) end.
    destruct (lookup_after_insert Energy.id db d eq_refl) as (Hlt & Hnew & Hold).
    split; [exact Hlt|]. split.
    + rewrite read_energy_drink_fits by (apply (next_pk_fits Energy.id); exact Hroom).
      rewrite Hnew. reflexivity.
    + intros j Hj. destruct (fits64_dec j) as [Hi|Hi].
      * rewrite !read_energy_drink_fits by exact Hi. rewrite (Hold j Hj).
        reflexivity.
      * rewrite !read_energy_drink_overflow by exact Hi. reflexivity.
  - intros db c. split; [apply create_sneaker_overflow|].
    intros Hp Hroom.
    eexists. split; [apply create_sneaker_fits; assumption|].
    split; [repeat split|].
    match goal with |- context [_ ++ [?row]] => set (s := row) end.
    destruct (lookup_after_insert Sneakers.id db s eq_refl) as (Hlt & Hnew & Hold).
    split; [exact Hlt|]. split.
    + rewrite read_sneaker_fits by (apply (next_pk_fits Sneakers.id); exact Hroom).
      rewrite Hnew. reflexivity.
    + intros j Hj. destruct (fits64_dec j) as [Hi|Hi].
      * rewrite !read_sneaker_fits by exact Hi. rewrite (Hold j Hj).
        reflexivity.
      * rewrite !read_sneaker_overflow by exact Hi. reflexivity.
  - intros db c. split; [apply create_car_overflow|].
    intros Hy Hroom.
    eexists. split; [apply create_car_fits; assumption|].
    split; [repeat split|].
    match goal with |- context [_ ++ [?row]] => set (car := row) end.
    destruct (lookup_after_insert Cars.id db car eq_refl) as (Hlt & Hnew & Hold).
    split; [exact Hlt|]. split; [exact Hnew | exact Hold].
Qed.

(** X1 on the empty table: the drink of the scenario gets the key 1. *)
Lemma create_then_get_witness :
  exists d,
    Energy.create_energy_drink Examples.drink_XY [] = (Ok d, [] ++ [d])
    /\ Energy.stock d = Some 5
    /\ Energy.read_energy_drink (Energy.id d) ([] ++ [d]) = (Ok d, [] ++ [d]).
Proof.
  destruct (proj2 (proj1 create_then_get [] Examples.drink_XY))
    as (d & Hrun & (_ & _ & _ & _ & Hs) & _ & Hget & _).
  - unfold Orm.fits64. simpl. lia.
  - intros r Hr. destruct Hr.
  - exists d. split; [exact Hrun|]. split; [exact Hs | exact Hget].
Defined.

(** X2. A delete under a key of 64 bits that the table has removes it:
    the handler returns, a get of the key and a second delete raise the
    404 error, and every other key reads as before.  Under a key of 64
    bits that the table lacks the delete raises the 404 error, under a
    key outside 64 bits [OverflowError], and the table is as it was.
    For each of the three resources. *)
Theorem delete_then_get :
  (forall (db : Energy.Table) (drink_id : Z),
     (~ Orm.fits64 drink_id ->
        Energy.delete_energy_drink drink_id db = (Raised OverflowError, db))
     /\ (Orm.fits64 drink_id ->
         match Orm.at_key Energy.id drink_id db with
         | None =>
             Energy.delete_energy_drink drink_id db
             = (Raised (HTTPException 404 "Energy drink not found"), db)
         | Some _ =>
             exists db',
               Energy.delete_energy_drink drink_id db = (Ok tt, db')
               /\ Energy.read_energy_drink drink_id db'
                  = (Raised (HTTPException 404 "Energy drink not found"), db')
               /\ Energy.delete_energy_drink drink_id db'
                  = (Raised (HTTPException 404 "Energy drink not found"), db')
               /\ (forall j, j <> drink_id ->
                     Orm.at_key Energy.id j db' = Orm.at_key Energy.id j db)
         end))
  /\ (forall (db : Sneakers.Table) (sneaker_id : Z),
        (~ Orm.fits64 sneaker_id ->
           Sneakers.delete_sneaker sneaker_id db = (Raised OverflowError, db))
        /\ (Orm.fits64 sneaker_id ->
            match Orm.at_key Sneakers.id sneaker_id db with
            | None =>
                Sneakers.delete_sneaker sneaker_id db
                = (Raised (HTTPException 404 "Sneaker not found"), db)
            | Some _ =>
                exists db',
                  Sneakers.delete_sneaker sneaker_id db = (Ok tt, db')
                  /\ Sneakers.read_sneaker sneaker_id db'
                     = (Raised (HTTPException 404 "Sneaker not found"), db')
                  /\ Sneakers.delete_sneaker sneaker_id db'
                     = (Raised (HTTPException 404 "Sneaker not found"), db')
                  /\ (forall j, j <> sneaker_id ->
                        Orm.at_key Sneakers.id j db'
                        = Orm.at_key Sneakers.id j db)
            end))
  /\ (forall (db : Cars.Table) (car_id : Z),
        (~ Orm.fits64 car_id ->
           Cars.delete_car car_id db = (Raised OverflowError, db))
        /\ (Orm.fits64 car_id ->
            match Orm.at_key Cars.id car_id db with
            | None =>
                Cars.delete_car car_id db
                = (Raised (HTTPException 404 "Car not found"), db)
            | Some _ =>
                exists db',
                  Cars.delete_car car_id db = (Ok tt, db')
                  /\ Cars.read_car car_id db'
                     = (Raised (HTTPException 404 "Car not found"), db')
                  /\ Cars.delete_car car_id db'
                     = (Raised (HTTPException 404 "Car not found"), db')
                  /\ (forall j, j <> car_id ->
                        Orm.at_key Cars.id j db' = Orm.at_key Cars.id j db)
            end)).
Proof.
  split; [|split].
  - intros db i. split; [apply delete_energy_drink_overflow|]. intros Hi.
    rewrite (delete_energy_drink_fits db i Hi).
    destruct (Orm.at_key Energy.id i db) as [d|] eqn:Hd; [|reflexivity].
    destruct (at_key_some Energy.id _ _ _ Hd) as [Hid _]. subst i.
    pose proof (at_key_delete_same Energy.id d db) as Hgone.
    eexists. split; [reflexivity|]. split; [|split].
    + rewrite read_energy_drink_fits by exact Hi. rewrite Hgone. reflexivity.
    + rewrite delete_energy_drink_fits by exact Hi. rewrite Hgone. reflexivity.
    + intros j Hj. apply at_key_delete_other. exact Hj.
  - intros db i. split; [apply delete_sneaker_overflow|]. intros Hi.
    rewrite (delete_sneaker_fits db i Hi).
    destruct (Orm.at_key Sneakers.id i db) as [d|] eqn:Hd; [|reflexivity].
    destruct (at_key_some Sneakers.id _ _ _ Hd) as [Hid _]. subst i.
    pose proof (at_key_delete_same Sneakers.id d db) as Hgone.
    eexists. split; [reflexivity|]. split; [|split].
    + rewrite read_sneaker_fits by exact Hi. rewrite Hgone. reflexivity.
    + rewrite delete_sneaker_fits by exact Hi. rewrite Hgone. reflexivity.
    + intros j Hj. apply at_key_delete_other. exact Hj.
  - intros db i. split; [apply delete_car_overflow|]. intros Hi.
    rewrite (delete_car_fits db i Hi).
    destruct (Orm.at_key Cars.id i db) as [d|] eqn:Hd; [|reflexivity].
    destruct (at_key_some Cars.id _ _ _ Hd) as [Hid _]. subst i.
    pose proof (at_key_delete_same Cars.id d db) as Hgone.
    eexists. split; [reflexivity|]. split; [|split].
    + apply read_car_missing; assumption.
    + rewrite delete_car_fits by exact Hi. rewrite Hgone. reflexivity.
    + intros j Hj. apply at_key_delete_other. exact Hj.
Qed.

(** X2 on a table of four drinks: the second is deleted, and then is
    not found. *)
Lemma delete_then_get_witness :
  exists db',
    Energy.delete_energy_drink 2 Examples.drinks = (Ok tt, db')
    /\ Energy.read_energy_drink 2 db'
       = (Raised (HTTPException 404 "Energy drink not found"), db')
    /\ Orm.at_key Energy.id 3 db' = Some Examples.drink_3.
Proof.
  assert (Orm.fits64 2) as H2 by (unfold Orm.fits64; lia).
  pose proof (proj2 (proj1 delete_then_get Examples.drinks 2) H2) as H.
  simpl in H. destruct H as (db' & Hrun & Hget & _ & Hother).
  exists db'. split; [exact Hrun|]. split; [exact Hget|].
  rewrite Hother by lia. reflexivity.
Defined.

(** X3. The lists of the three resources, and the get of an energy
    drink and of a sneaker, write nothing: whatever the parameters, and
    whether they return or raise, the table after the request is the
    table before it. *)
Theorem reads_leave_table :
  forall (contains : string -> string -> bool) (inherited : string -> bool)
         (skip limit : Z) (sort_by : option string) (sort_order : string)
         (search : option string),
    (forall ties filter_brand filter_volume drink_id (db : Energy.Table),
       snd (Energy.read_energy_drinks contains inherited ties skip limit sort_by
              sort_order filter_brand filter_volume search db) = db
       /\ snd (Energy.read_energy_drink drink_id db) = db)
    /\ (forall ties filter_brand filter_price_min filter_price_max sneaker_id
               (db : Sneakers.Table),
          snd (Sneakers.read_sneakers contains inherited ties skip limit sort_by
                 sort_order filter_brand filter_price_min filter_price_max
                 search db) = db
          /\ snd (Sneakers.read_sneaker sneaker_id db) = db)
    /\ (forall ties filter_make filter_year (db : Cars.Table),
          snd (Cars.read_cars contains inherited ties skip limit sort_by
                 sort_order filter_make filter_year search db) = db).
Proof.
  intros contains inherited skip limit sort_by sort_order search.
  split; [|split]; intros.
  - split; [apply read_energy_drinks_rows|].
    destruct (fits64_dec drink_id) as [Hi|Hi];
      [rewrite read_energy_drink_fits by exact Hi
      |rewrite read_energy_drink_overflow by exact Hi]; reflexivity.
  - split; [apply read_sneakers_rows|].
    destruct (fits64_dec sneaker_id) as [Hi|Hi];
      [rewrite read_sneaker_fits by exact Hi
      |rewrite read_sneaker_overflow by exact Hi]; reflexivity.
  - apply read_cars_rows.
Qed.

(** X4. Under a key of 64 bits that the table lacks, the get and the buy
    of an energy drink, whatever the quantity, and the get and the rate
    of a sneaker, with a rating within the bounds, raise the 404 error;
    under a key outside 64 bits they raise [OverflowError]; the table is
    as it was. *)
Theorem missing_id_not_found :
  (forall (db : Energy.Table) (drink_id : Z) (quantity : option Z),
     (Orm.fits64 drink_id -> Orm.at_key Energy.id drink_id db = None ->
      Energy.read_energy_drink drink_id db
      = (Raised (HTTPException 404 "Energy drink not found"), db)
      /\ Energy.buy_energy_drink drink_id quantity db
         = (Raised (HTTPException 404 "Energy drink not found"), db))
     /\ (~ Orm.fits64 drink_id ->
         Energy.read_energy_drink drink_id db = (Raised OverflowError, db)
         /\ Energy.buy_energy_drink drink_id quantity db
            = (Raised OverflowError, db)))
  /\ (forall (db : Sneakers.Table) (sneaker_id : Z) (rating : float),
        PrimFloat.leb 0 rating = true /\ PrimFloat.leb rating 5 = true ->
        (Orm.fits64 sneaker_id -> Orm.at_key Sneakers.id sneaker_id db = None ->
         Sneakers.read_sneaker sneaker_id db
         = (Raised (HTTPException 404 "Sneaker not found"), db)
         /\ Sneakers.rate_sneaker sneaker_id (Some rating) db
            = (Raised (HTTPException 404 "Sneaker not found"), db))
        /\ (~ Orm.fits64 sneaker_id ->
            Sneakers.read_sneaker sneaker_id db = (Raised OverflowError, db)
            /\ Sneakers.rate_sneaker sneaker_id (Some rating) db
               = (Raised OverflowError, db))).
Proof.
  split.
  - intros db i q. split.
    + intros Hi Hnone. split.
      * rewrite read_energy_drink_fits by exact Hi. rewrite Hnone. reflexivity.
      * apply buy_energy_drink_missing; assumption.
    + intros Hi. split.
      * apply read_energy_drink_overflow; exact Hi.
      * apply buy_energy_drink_overflow; exact Hi.
  - intros db i r Hin. pose proof (proj2 (ge0_le5_bounds r) Hin) as Hr. split.
    + intros Hi Hnone. split.
      * rewrite read_sneaker_fits by exact Hi. rewrite Hnone. reflexivity.
      * apply rate_sneaker_missing; assumption.
    + intros Hi. split.
      * apply read_sneaker_overflow; exact Hi.
      * apply rate_sneaker_overflow; assumption.
Qed.

(** X4 on tables of one row, under the key 2 and under the key 2^63. *)
Lemma missing_id_not_found_witness :
  (Energy.read_energy_drink 2 [Examples.drink_1]
   = (Raised (HTTPException 404 "Energy drink not found"), [Examples.drink_1])
   /\ Energy.buy_energy_drink 2 (Some 1) [Examples.drink_1]
      = (Raised (HTTPException 404 "Energy drink not found"), [Examples.drink_1]))
  /\ (Sneakers.read_sneaker (2 ^ 63) [Examples.sneaker_1]
      = (Raised OverflowError, [Examples.sneaker_1])
      /\ Sneakers.rate_sneaker (2 ^ 63) (Some 4.5%float) [Examples.sneaker_1]
         = (Raised OverflowError, [Examples.sneaker_1])).
Proof.
  split.
  - apply (proj1 (proj1 missing_id_not_found [Examples.drink_1] 2 (Some 1)));
      [unfold Orm.fits64; lia | reflexivity].
  - apply (proj2 (proj2 missing_id_not_found [Examples.sneaker_1] (2 ^ 63)
                    4.5%float (conj eq_refl eq_refl))).
    unfold Orm.fits64. lia.
Defined.

(** ** Primary keys of the reachable tables *)

Section KeyFacts.
Context {Row : Type}.
Variable pk : Row -> Z.

Lemma ascending_NoDup (l : list Z) : StronglySorted Z.lt l -> NoDup l.
Proof.
  induction 1 as [|k l Hs IH Hall]; constructor; [|exact IH].
  intros Hin. rewrite Forall_forall in Hall. specialize (Hall k Hin). lia.
Qed.

Lemma ascending_app_last (l : list Z) (k : Z) :
  StronglySorted Z.lt l -> Forall (fun x => x < k) l ->
  StronglySorted Z.lt (l ++ [k]).
Proof.
  induction 1 as [|x l Hs IH Hall]; intros Hk; simpl.
  - constructor; constructor.
  - inversion Hk as [|? ? Hx Hk']; subst. constructor.
    + apply IH. exact Hk'.
    + apply Forall_app. split; [exact Hall | constructor; [exact Hx | constructor]].
Qed.

Lemma ascending_filter (f : Row -> bool) (db : list Row) :
  StronglySorted Z.lt (map pk db) ->
  StronglySorted Z.lt (map pk (List.filter f db)).
Proof.
  induction db as [|x db IH]; simpl; intros Hs; [constructor|].
  apply StronglySorted_inv in Hs. destruct Hs as [Hs Hall].
  destruct (f x); simpl; [|apply IH; exact Hs].
  constructor; [apply IH; exact Hs|].
  rewrite Forall_forall in *. intros k Hk. apply Hall.
  apply in_map_iff in Hk. destruct Hk as (r & <- & Hr).
  apply filter_In in Hr. apply in_map. apply Hr.
Qed.

Lemma keys_ok_insert (db : list Row) (row : Row) :
  Orm.keys_ok pk db -> pk row = Orm.next_pk pk db -> Orm.keys_ok pk (db ++ [row]).
Proof.
  intros [Hs Hpos] Hrow. split.
  - rewrite map_app. simpl. apply ascending_app_last; [exact Hs|].
    apply Forall_map. apply Forall_forall. intros r Hr.
    rewrite Hrow. apply next_pk_above. exact Hr.
  - apply Forall_app. split; [exact Hpos|]. constructor; [|constructor].
    rewrite Hrow. apply next_pk_positive.
Qed.

Lemma keys_ok_put (db : list Row) (row : Row) :
  Orm.keys_ok pk db -> Orm.keys_ok pk (Orm.put pk (pk row) row db).
Proof.
  intros [Hs Hpos]. split.
  - rewrite map_pk_put by reflexivity. exact Hs.
  - apply Forall_map with (f := pk) (P := fun k => 1 <= k).
    rewrite map_pk_put by reflexivity. apply Forall_map. exact Hpos.
Qed.

Lemma keys_ok_delete (db : list Row) (obj : Row) :
  Orm.keys_ok pk db -> Orm.keys_ok pk (Orm.delete pk obj db).
Proof.
  intros [Hs Hpos]. split.
  - apply ascending_filter. exact Hs.
  - apply Forall_delete. exact Hpos.
Qed.

Lemma keys_ok_one_write (db db' : list Row) :
  Orm.one_write pk db db' -> Orm.keys_ok pk db -> Orm.keys_ok pk db'.
Proof.
  intros [|row Hrow|row|obj] Hok.
  - exact Hok.
  - apply keys_ok_insert; assumption.
  - apply keys_ok_put. exact Hok.
  - apply keys_ok_delete. exact Hok.
Qed.

Lemma reachable_keys_ok {Request : Type} (serve : Request -> list Row -> list Row)
    (allowed : Request -> Prop) (db : list Row) :
  (forall req t, Orm.one_write pk t (serve req t)) ->
  Orm.reachable_by serve allowed db ->
  StronglySorted Z.lt (map pk db) /\ Forall (fun r => 1 <= pk r) db
  /\ Orm.unique_pk pk db.
Proof.
  intros Hserve Hreach.
  assert (Orm.keys_ok pk db) as [Hs Hpos].
  { induction Hreach as [|req t _ IH _].
    - split; constructor.
    - apply (keys_ok_one_write t); [apply Hserve | exact IH]. }
  split; [exact Hs|]. split; [exact Hpos|].
  apply ascending_NoDup. exact Hs.
Qed.

(** The write of a commit that stores a row under the key it was loaded
    with. *)
Lemma one_write_flush (flush : Row -> Row -> result Row) (i : Z)
    (old new : Row) (db : list Row) :
  (forall row, flush old new = Ok row -> pk row = i) ->
  Orm.one_write pk db
    (snd (match flush old new with
          | Ok row => (Ok row, Orm.put pk i row db)
          | Raised e => (Raised e, db)
          end)).
Proof.
  intros Hid. destruct (flush old new) as [row|e]; simpl.
  - rewrite <- (Hid row eq_refl). apply Orm.write_update.
  - apply Orm.write_none.
Qed.

End KeyFacts.

Lemma energy_serve_one_write (contains : string -> string -> bool)
    (inherited : string -> bool) (ties : Orm.Ties Energy.EnergyDrink Energy.column)
    (req : Energy.request) (db : Energy.Table) :
  Orm.one_write Energy.id db (Energy.serve contains inherited ties req db).
Proof.
  destruct req as [skip limit sb so fb fv search|i|c|i u|i|i quantity];
    cbn [Energy.serve].
  - rewrite (proj1 (read_energy_drinks_rows _ _ _ _ _ _ _ _ _ _ _)).
    apply Orm.write_none.
  - destruct (fits64_dec i) as [Hi|Hi];
      [rewrite read_energy_drink_fits by exact Hi
      |rewrite read_energy_drink_overflow by exact Hi]; apply Orm.write_none.
  - destruct (fits64_dec (Energy.c_volume_ml c)) as [Hv|Hv];
      [|rewrite create_energy_drink_overflow by tauto; apply Orm.write_none].
    destruct (fits64_dec (Energy.c_price c)) as [Hp|Hp];
      [|rewrite create_energy_drink_overflow by tauto; apply Orm.write_none].
    destruct (fits64_dec (Energy.c_stock c)) as [Hs|Hs];
      [|rewrite create_energy_drink_overflow by tauto; apply Orm.write_none].
    rewrite create_energy_drink_fits by assumption.
    apply Orm.write_insert. reflexivity.
  - destruct (fits64_dec i) as [Hi|Hi];
      [|rewrite update_energy_drink_overflow by exact Hi; apply Orm.write_none].
    destruct (Orm.at_key Energy.id i db) as [d|] eqn:Hd;
      [|rewrite update_energy_drink_missing by assumption; apply Orm.write_none].
    rewrite (update_energy_drink_found db i u d Hi Hd).
    destruct (at_key_some Energy.id _ _ _ Hd) as [Hid _].
    apply one_write_flush. intros row Hrow.
    rewrite (energy_flush_id _ _ _ Hrow). exact Hid.
  - destruct (fits64_dec i) as [Hi|Hi];
      [|rewrite delete_energy_drink_overflow by exact Hi; apply Orm.write_none].
    rewrite delete_energy_drink_fits by exact Hi.
    destruct (Orm.at_key Energy.id i db) as [d|]; simpl;
      [apply Orm.write_delete | apply Orm.write_none].
  - destruct (fits64_dec i) as [Hi|Hi];
      [|rewrite buy_energy_drink_overflow by exact Hi; apply Orm.write_none].
    destruct (Orm.at_key Energy.id i db) as [d|] eqn:Hd;
      [|rewrite buy_energy_drink_missing by assumption; apply Orm.write_none].
    destruct (at_key_some Energy.id _ _ _ Hd) as [Hid _].
    destruct (Energy.stock d) as [s|] eqn:Hs;
      [|rewrite (buy_energy_drink_null db i quantity d) by assumption;
        apply Orm.write_none].
    rewrite (buy_energy_drink_found db i quantity d s Hi Hd Hs). cbv zeta.
    destruct (Z.ltb s (default 1 quantity)); [apply Orm.write_none|].
    apply one_write_flush. intros row Hrow.
    rewrite (energy_flush_id _ _ _ Hrow). exact Hid.
Qed.

Lemma sneakers_serve_one_write (contains : string -> string -> bool)
    (inherited : string -> bool) (ties : Orm.Ties Sneakers.Sneaker Sneakers.column)
    (req : Sneakers.request) (db : Sneakers.Table) :
  Orm.one_write Sneakers.id db (Sneakers.serve contains inherited ties req db).
Proof.
  destruct req as [skip limit sb so fb fmin fmax search|i|c|i u|i|i rating];
    cbn [Sneakers.serve].
  - rewrite (proj1 (read_sneakers_rows _ _ _ _ _ _ _ _ _ _ _ _)).
    apply Orm.write_none.
  - destruct (fits64_dec i) as [Hi|Hi];
      [rewrite read_sneaker_fits by exact Hi
      |rewrite read_sneaker_overflow by exact Hi]; apply Orm.write_none.
  - destruct (fits64_dec (Sneakers.c_price c)) as [Hp|Hp];
      [|rewrite create_sneaker_overflow by exact Hp; apply Orm.write_none].
    rewrite create_sneaker_fits by assumption.
    apply Orm.write_insert. reflexivity.
  - destruct (fits64_dec i) as [Hi|Hi];
      [|rewrite update_sneaker_overflow by exact Hi; apply Orm.write_none].
    destruct (Orm.at_key Sneakers.id i db) as [d|] eqn:Hd;
      [|rewrite update_sneaker_missing by assumption; apply Orm.write_none].
    rewrite (update_sneaker_found db i u d Hi Hd).
    destruct (at_key_some Sneakers.id _ _ _ Hd) as [Hid _].
    apply one_write_flush. intros row Hrow.
    rewrite (sneakers_flush_id _ _ _ Hrow). exact Hid.
  - destruct (fits64_dec i) as [Hi|Hi];
      [|rewrite delete_sneaker_overflow by exact Hi; apply Orm.write_none].
    rewrite delete_sneaker_fits by exact Hi.
    destruct (Orm.at_key Sneakers.id i db) as [d|]; simpl;
      [apply Orm.write_delete | apply Orm.write_none].
  - destruct rating as [r|]; [|apply Orm.write_none].
    destruct (Sneakers.ge0_le5 r) eqn:Hr;
      [|rewrite rate_sneaker_refused by exact Hr; apply Orm.write_none].
    destruct (fits64_dec i) as [Hi|Hi];
      [|rewrite rate_sneaker_overflow by assumption; apply Orm.write_none].
    destruct (Orm.at_key Sneakers.id i db) as [d|] eqn:Hd;
      [|rewrite rate_sneaker_missing by assumption; apply Orm.write_none].
    destruct (at_key_some Sneakers.id _ _ _ Hd) as [Hid _].
    rewrite (proj1 (rate_sneaker_found db i r d Hr Hi Hd)). simpl.
    rewrite <- Hid at 1.
    apply (Orm.write_update Sneakers.id db
             (Sneakers.with_rating
                (Orm.flush_float (Sneakers.rating d) (Some r)) d)).
Qed.

Lemma cars_serve_one_write (contains : string -> string -> bool)
    (inherited : string -> bool) (ties : Orm.Ties Cars.Car Cars.column)
    (req : Cars.request) (db : Cars.Table) :
  Orm.one_write Cars.id db (Cars.serve contains inherited ties req db).
Proof.
  destruct req as [skip limit sb so fm fy search|i|c|i u|i]; cbn [Cars.serve].
  - rewrite (proj1 (read_cars_rows _ _ _ _ _ _ _ _ _ _ _)).
    apply Orm.write_none.
  - destruct (fits64_dec i) as [Hi|Hi];
      [|rewrite read_car_overflow by exact Hi; apply Orm.write_none].
    destruct (Orm.at_key Cars.id i db) as [d|] eqn:Hd;
      [|rewrite read_car_missing by assumption; apply Orm.write_none].
    destruct (at_key_some Cars.id _ _ _ Hd) as [Hid _].
    destruct (Cars.views d) as [v|] eqn:Hv;
      [|rewrite (read_car_null db i d) by assumption; apply Orm.write_none].
    rewrite (read_car_found db i d v Hi Hd Hv).
    apply one_write_flush. intros row Hrow.
    rewrite (cars_flush_id _ _ _ Hrow). exact Hid.
  - destruct (fits64_dec (Cars.c_year c)) as [Hy|Hy];
      [|rewrite create_car_overflow by exact Hy; apply Orm.write_none].
    rewrite create_car_fits by assumption.
    apply Orm.write_insert. reflexivity.
  - destruct (fits64_dec i) as [Hi|Hi];
      [|rewrite update_car_overflow by exact Hi; apply Orm.write_none].
    destruct (Orm.at_key Cars.id i db) as [d|] eqn:Hd;
      [|rewrite update_car_missing by assumption; apply Orm.write_none].
    rewrite (update_car_found db i u d Hi Hd).
    destruct (at_key_some Cars.id _ _ _ Hd) as [Hid _].
    apply one_write_flush. intros row Hrow.
    rewrite (cars_flush_id _ _ _ Hrow). exact Hid.
  - destruct (fits64_dec i) as [Hi|Hi];
      [|rewrite delete_car_overflow by exact Hi; apply Orm.write_none].
    rewrite delete_car_fits by exact Hi.
    destruct (Orm.at_key Cars.id i db) as [d|]; simpl;
      [apply Orm.write_delete | apply Orm.write_none].
Qed.

(** X5. In every table reachable from the empty one by the requests of a
    service, the ids are in ascending order along the table, none is below
    1, and no two rows share an id: no request writes an id, and a create
    takes the id after the largest. This holds for energy drinks, sneakers
    and cars. *)
Theorem reachable_ids_ascending :
  forall (contains : string -> string -> bool) (inherited : string -> bool),
    (forall ties (db : Energy.Table),
       Orm.reachable (Energy.serve contains inherited ties) db ->
       StronglySorted Z.lt (map Energy.id db)
       /\ Forall (fun r => 1 <= Energy.id r) db
       /\ Orm.unique_pk Energy.id db)
    /\ (forall ties (db : Sneakers.Table),
          Orm.reachable (Sneakers.serve contains inherited ties) db ->
          StronglySorted Z.lt (map Sneakers.id db)
          /\ Forall (fun r => 1 <= Sneakers.id r) db
          /\ Orm.unique_pk Sneakers.id db)
    /\ (forall ties (db : Cars.Table),
          Orm.reachable (Cars.serve contains inherited ties) db ->
          StronglySorted Z.lt (map Cars.id db)
          /\ Forall (fun r => 1 <= Cars.id r) db
          /\ Orm.unique_pk Cars.id db).
Proof.
  intros contains inherited. split; [|split]; intros ties db Hreach.
  - apply (reachable_keys_ok Energy.id (Energy.serve contains inherited ties)
             (fun _ => True) db); [|exact Hreach].
    intros req t. apply energy_serve_one_write.
  - apply (reachable_keys_ok Sneakers.id (Sneakers.serve contains inherited ties)
             (fun _ => True) db); [|exact Hreach].
    intros req t. apply sneakers_serve_one_write.
  - apply (reachable_keys_ok Cars.id (Cars.serve contains inherited ties)
             (fun _ => True) db); [|exact Hreach].
    intros req t. apply cars_serve_one_write.
Qed.

(** X5 on the table two creates leave: its two drinks have ids 1 and 2. *)
Lemma reachable_ids_ascending_witness :
  StronglySorted Z.lt
    (map Energy.id
       (Energy.serve Orm.contains Examples.base_attribute Examples.scan_order
          (Energy.POST Examples.drink_XY)
          (Energy.serve Orm.contains Examples.base_attribute Examples.scan_order
             (Energy.POST Examples.drink_XY) [])))
  /\ Forall (fun r => 1 <= Energy.id r)
       (Energy.serve Orm.contains Examples.base_attribute Examples.scan_order
          (Energy.POST Examples.drink_XY)
          (Energy.serve Orm.contains Examples.base_attribute Examples.scan_order
             (Energy.POST Examples.drink_XY) []))
  /\ Orm.unique_pk Energy.id
       (Energy.serve Orm.contains Examples.base_attribute Examples.scan_order
          (Energy.POST Examples.drink_XY)
          (Energy.serve Orm.contains Examples.base_attribute Examples.scan_order
             (Energy.POST Examples.drink_XY) [])).
Proof.
  apply (proj1 (reachable_ids_ascending Orm.contains Examples.base_attribute)
           Examples.scan_order).
  apply Orm.reach_serve; [|exact I].
  apply Orm.reach_serve; [apply Orm.reach_empty | exact I].
Defined.

(** ** Repeating and combining requests *)

(** X6. Reading a car n times in a row adds n to its views, up to the
    largest integer the store holds, where the counter stays: for a car
    under a key of 64 bits whose counter is an integer of 64 bits, after
    the n gets the row under the key is the car with views the smaller
    of v + n and 2^63 - 1 and every other field as it was, and every
    other key reads as before. *)
Theorem read_car_counts :
  forall (db : Cars.Table) (car_id : Z) (car : Cars.Car) (v : Z) (n : nat),
    Orm.fits64 car_id ->
    Orm.at_key Cars.id car_id db = Some car ->
    Cars.views car = Some v -> Orm.fits64 v ->
    let db' := Nat.iter n (fun t => snd (Cars.read_car car_id t)) db in
    Orm.at_key Cars.id car_id db'
    = Some (Cars.with_views (Some (Z.min (v + Z.of_nat n) (2 ^ 63 - 1))) car)
    /\ forall j, j <> car_id ->
         Orm.at_key Cars.id j db' = Orm.at_key Cars.id j db.
Proof.
  intros db car_id car v n Hi Hcar Hv Hfit.
  destruct (at_key_some Cars.id _ _ _ Hcar) as [Hid _].
  induction n as [|n IH].
  - simpl. split; [|reflexivity]. rewrite Hcar. f_equal.
    destruct car as [i mk md y c vw]. simpl in Hv. subst vw.
    unfold Cars.with_views. simpl. do 2 f_equal.
    unfold Orm.fits64 in Hfit. lia.
  - cbv zeta in *. destruct IH as [IHcar IHoth]. rewrite Nat.iter_succ.
    set (t := Nat.iter n (fun t => snd (Cars.read_car car_id t)) db) in *.
    set (m := Z.min (v + Z.of_nat n) (2 ^ 63 - 1)) in *.
    destruct (Z.ltb_spec m (2 ^ 63 - 1)) as [Hm|Hm].
    + assert (Orm.fits64 (m + 1)) as Hm1
          by (unfold Orm.fits64 in *; subst m; lia).
      destruct (read_car_counted t car_id _ m Hi IHcar eq_refl Hm1)
        as [Hrun Hget].
      rewrite Hrun. cbn [snd]. split.
      * rewrite Hget. unfold Cars.with_views. simpl. do 3 f_equal.
        subst m. lia.
      * intros j Hj. rewrite <- (IHoth j Hj).
        apply at_key_put_other; [exact Hid | exact Hj].
    + assert (~ Orm.fits64 (m + 1)) as Hm1 by (unfold Orm.fits64; lia).
      rewrite (read_car_full t car_id _ m Hi IHcar eq_refl Hm1). cbn [snd].
      split; [|exact IHoth].
      rewrite IHcar. do 3 f_equal. subst m. lia.
Qed.

(** X6 on a car just created and read five times. *)
Lemma read_car_counts_witness :
  exists car,
    Orm.at_key Cars.id 1
      (Nat.iter 5 (fun t => snd (Cars.read_car 1 t))
         (snd (Cars.create_car Examples.car_MN [])))
    = Some car
    /\ Cars.views car = Some 5.
Proof.
  assert (Orm.fits64 1) as H1 by (unfold Orm.fits64; lia).
  assert (Orm.fits64 0) as H0 by (unfold Orm.fits64; lia).
  pose proof (read_car_counts (snd (Cars.create_car Examples.car_MN [])) 1 _ 0 5
                H1 eq_refl eq_refl H0) as H.
  cbv zeta in H. destruct H as [H _].
  eexists. split; [exact H | reflexivity].
Defined.

(** X7. Two purchases in a row that the stock covers, each leaving a
    stock that is an integer of 64 bits, return the drink and leave the
    table that the one purchase of the two quantities together does. *)
Theorem buy_twice_is_buy_sum :
  forall (db : Energy.Table) (drink_id q1 q2 : Z) (d : Energy.EnergyDrink) (s : Z),
    Orm.fits64 drink_id ->
    Orm.at_key Energy.id drink_id db = Some d ->
    Energy.stock d = Some s ->
    q1 <= s -> q2 <= s - q1 ->
    Orm.fits64 (s - q1) -> Orm.fits64 (s - q1 - q2) ->
    (_ <- Energy.buy_energy_drink drink_id (Some q1) ;;
     Energy.buy_energy_drink drink_id (Some q2)) db
    = Energy.buy_energy_drink drink_id (Some (q1 + q2)) db.
Proof.
  intros db drink_id q1 q2 d s Hi Hd Hs H1 H2 Hf1 Hf2.
  destruct (at_key_some Energy.id _ _ _ Hd) as [Hid _].
  destruct (buy_energy_drink_sold db drink_id (Some q1) d s Hi Hd Hs H1
              (or_intror Hf1)) as [Hrun1 Hget1].
  destruct (buy_energy_drink_sold _ drink_id (Some q2) _ (s - q1) Hi Hget1
              eq_refl H2 (or_intror Hf2)) as [Hrun2 _].
  assert (q1 + q2 <= s) as H12 by lia.
  assert (Orm.fits64 (s - (q1 + q2))) as Hf12
      by (replace (s - (q1 + q2)) with (s - q1 - q2) by lia; exact Hf2).
  destruct (buy_energy_drink_sold db drink_id (Some (q1 + q2)) d s Hi Hd Hs H12
              (or_intror Hf12)) as [Hrun12 _].
  unfold Orm.bind. rewrite Hrun1. cbv zeta in Hrun2. simpl in Hrun2.
  simpl. rewrite Hrun2, Hrun12.
  unfold Energy.with_stock. simpl.
  replace (s - q1 - q2) with (s - (q1 + q2)) by lia.
  f_equal. apply put_put. exact Hid.
Qed.

(** X7 on a drink of stock 5: buying 3 and then 2 is buying 5. *)
Lemma buy_twice_is_buy_sum_witness :
  (_ <- Energy.buy_energy_drink 1 (Some 3) ;; Energy.buy_energy_drink 1 (Some 2))
    [Examples.drink_1]
  = Energy.buy_energy_drink 1 (Some (3 + 2)) [Examples.drink_1].
Proof.
  apply (buy_twice_is_buy_sum [Examples.drink_1] 1 3 2 Examples.drink_1 5);
    try reflexivity; unfold Orm.fits64; lia.
Defined.

Lemma flush_int_again (v : option Z) : Orm.flush_int v v = Ok v.
Proof.
  apply flush_int_writable. left. reflexivity.
Qed.

Lemma flush_float_kept (old : option float) :
  Orm.flush_float (Orm.flush_float old old) (Orm.flush_float old old)
  = Orm.flush_float old old.
Proof.
  unfold Orm.flush_float at 2 3 4.
  destruct (Py.eq_float old old) eqn:E.
  - unfold Orm.flush_float. rewrite E. reflexivity.
  - destruct old as [o|]; [|reflexivity].
    simpl in E. unfold Orm.bind_float.
    assert (PrimFloat.is_nan o = true) as ->
        by (unfold PrimFloat.is_nan; rewrite E; reflexivity).
    reflexivity.
Qed.

Lemma energy_update_again (u : Energy.EnergyDrinkUpdate) (d row : Energy.EnergyDrink) :
  Energy.flush d (fold_left Energy.setattr (Energy.dict_exclude_unset u) d) = Ok row ->
  Energy.flush row (fold_left Energy.setattr (Energy.dict_exclude_unset u) row)
  = Ok row.
Proof.
  intros H.
  destruct (energy_setattr_fields u d) as (Fi & Fb & Fn & Fv & Fp & Fs).
  destruct (energy_flush_cases d _ Fi) as [Hok|Hraise]; [|congruence].
  rewrite Hok in H. injection H as <-.
  set (d' := fold_left Energy.setattr (Energy.dict_exclude_unset u) d) in *.
  assert (fold_left Energy.setattr (Energy.dict_exclude_unset u) d' = d') as ->.
  { subst d'. destruct u as [[b|] [n|] [v|] [p|] [s|]], d; reflexivity. }
  unfold Energy.flush. rewrite !flush_int_again. simpl.
  destruct d'; reflexivity.
Qed.

Lemma sneakers_update_again (u : Sneakers.SneakerUpdate) (s row : Sneakers.Sneaker) :
  Sneakers.flush s (fold_left Sneakers.setattr (Sneakers.dict_exclude_unset u) s)
  = Ok row ->
  Sneakers.flush row
    (fold_left Sneakers.setattr (Sneakers.dict_exclude_unset u) row)
  = Ok row.
Proof.
  intros H.
  destruct (sneakers_setattr_fields u s) as (Fi & Fb & Fm & Fp & Fr).
  destruct (sneakers_flush_cases s _ Fi) as [Hok|Hraise]; [|congruence].
  rewrite Hok in H. injection H as <-. rewrite Fr.
  destruct u as [[b|] [m|] [p|] [r|]], s as [i sb sm sp sr];
    unfold Sneakers.flush; simpl; rewrite flush_int_again; simpl;
    rewrite ?flush_float_again, ?flush_float_kept; reflexivity.
Qed.

Lemma cars_update_again (u : Cars.CarUpdate) (c row : Cars.Car) :
  Cars.flush c (fold_left Cars.setattr (Cars.dict_exclude_unset u) c) = Ok row ->
  Cars.flush row (fold_left Cars.setattr (Cars.dict_exclude_unset u) row) = Ok row.
Proof.
  intros H.
  destruct (cars_setattr_fields u c) as (Fi & Fa & Fm & Fy & Fk & Fv).
  destruct (cars_flush_cases c _ Fi) as [Hok|Hraise]; [|congruence].
  rewrite Hok in H. injection H as <-.
  set (c' := fold_left Cars.setattr (Cars.dict_exclude_unset u) c) in *.
  assert (fold_left Cars.setattr (Cars.dict_exclude_unset u) c' = c') as ->.
  { subst c'. destruct u as [[a|] [m|] [y|] [k|]], c; reflexivity. }
  unfold Cars.flush. rewrite !flush_int_again. simpl.
  destruct c'; reflexivity.
Qed.

(** X8. Update is idempotent: the same partial update sent twice in a
    row returns the row, or raises the exception, and leaves the table
    that sending it once does, for every table, id and request of each
    of the three resources. *)
Theorem update_twice_is_update :
  (forall (db : Energy.Table) (drink_id : Z) (u : Energy.EnergyDrinkUpdate),
     (_ <- Energy.update_energy_drink drink_id u ;;
      Energy.update_energy_drink drink_id u) db
     = Energy.update_energy_drink drink_id u db)
  /\ (forall (db : Sneakers.Table) (sneaker_id : Z) (u : Sneakers.SneakerUpdate),
        (_ <- Sneakers.update_sneaker sneaker_id u ;;
         Sneakers.update_sneaker sneaker_id u) db
        = Sneakers.update_sneaker sneaker_id u db)
  /\ (forall (db : Cars.Table) (car_id : Z) (u : Cars.CarUpdate),
        (_ <- Cars.update_car car_id u ;; Cars.update_car car_id u) db
        = Cars.update_car car_id u db).
Proof.
  split; [|split].
  - intros db i u. unfold Orm.bind at 1.
    destruct (fits64_dec i) as [Hi|Hi];
      [|rewrite update_energy_drink_overflow by exact Hi; reflexivity].
    destruct (Orm.at_key Energy.id i db) as [d|] eqn:Hd;
      [|rewrite update_energy_drink_missing by assumption; reflexivity].
    destruct (at_key_some Energy.id _ _ _ Hd) as [Hid _].
    rewrite (update_energy_drink_found db i u d Hi Hd).
    destruct (Energy.flush d _) as [row|e] eqn:Hrow; [|reflexivity].
    pose proof (energy_flush_id _ _ _ Hrow) as Hrid.
    assert (Energy.id row = i) as Hri by congruence.
    rewrite (update_energy_drink_found _ i u row Hi
               (at_key_put_same Energy.id i db d row Hd Hri)).
    rewrite (energy_update_again u d row Hrow).
    f_equal. apply put_put. exact Hri.
  - intros db i u. unfold Orm.bind at 1.
    destruct (fits64_dec i) as [Hi|Hi];
      [|rewrite update_sneaker_overflow by exact Hi; reflexivity].
    destruct (Orm.at_key Sneakers.id i db) as [d|] eqn:Hd;
      [|rewrite update_sneaker_missing by assumption; reflexivity].
    destruct (at_key_some Sneakers.id _ _ _ Hd) as [Hid _].
    rewrite (update_sneaker_found db i u d Hi Hd).
    destruct (Sneakers.flush d _) as [row|e] eqn:Hrow; [|reflexivity].
    pose proof (sneakers_flush_id _ _ _ Hrow) as Hrid.
    assert (Sneakers.id row = i) as Hri by congruence.
    rewrite (update_sneaker_found _ i u row Hi
               (at_key_put_same Sneakers.id i db d row Hd Hri)).
    rewrite (sneakers_update_again u d row Hrow).
    f_equal. apply put_put. exact Hri.
  - intros db i u. unfold Orm.bind at 1.
    destruct (fits64_dec i) as [Hi|Hi];
      [|rewrite update_car_overflow by exact Hi; reflexivity].
    destruct (Orm.at_key Cars.id i db) as [d|] eqn:Hd;
      [|rewrite update_car_missing by assumption; reflexivity].
    destruct (at_key_some Cars.id _ _ _ Hd) as [Hid _].
    rewrite (update_car_found db i u d Hi Hd).
    destruct (Cars.flush d _) as [row|e] eqn:Hrow; [|reflexivity].
    pose proof (cars_flush_id _ _ _ Hrow) as Hrid.
    assert (Cars.id row = i) as Hri by congruence.
    rewrite (update_car_found _ i u row Hi
               (at_key_put_same Cars.id i db d row Hd Hri)).
    rewrite (cars_update_again u d row Hrow).
    f_equal. apply put_put. exact Hri.
Qed.

(** ** The order of a list *)

Lemma is_desc_order (sort_order : string) :
  Py.is_desc (if Py.is_desc sort_order then "desc" else "asc")
  = Py.is_desc sort_order.
Proof.
  destruct (Py.is_desc sort_order); reflexivity.
Qed.

(** X9. [sort_order] asks for a descending sort when it is "desc" in any
    mix of upper and lower case, and for an ascending sort with every
    other value: a list runs as the list with [sort_order] "desc" in the
    first case and as the list with "asc" in the second, for each of the
    three resources. *)
Theorem sort_order_desc_or_asc :
  forall (contains : string -> string -> bool) (inherited : string -> bool)
         (skip limit : Z) (sort_by : option string) (sort_order : string)
         (search : option string),
    let order :=
      if Py.is_desc sort_order then "desc"%string else "asc"%string in
    (forall ties filter_brand filter_volume (db : Energy.Table),
       Energy.read_energy_drinks contains inherited ties skip limit sort_by
         sort_order filter_brand filter_volume search db
       = Energy.read_energy_drinks contains inherited ties skip limit sort_by
           order filter_brand filter_volume search db)
    /\ (forall ties filter_brand filter_price_min filter_price_max
               (db : Sneakers.Table),
          Sneakers.read_sneakers contains inherited ties skip limit sort_by
            sort_order filter_brand filter_price_min filter_price_max search db
          = Sneakers.read_sneakers contains inherited ties skip limit sort_by
              order filter_brand filter_price_min filter_price_max search db)
    /\ (forall ties filter_make filter_year (db : Cars.Table),
          Cars.read_cars contains inherited ties skip limit sort_by sort_order
            filter_make filter_year search db
          = Cars.read_cars contains inherited ties skip limit sort_by order
              filter_make filter_year search db).
Proof.
  intros contains inherited skip limit sort_by sort_order search order.
  split; [|split]; intros.
  - rewrite !read_energy_drinks_run, !energy_ordering_sort_of.
    subst order. rewrite is_desc_order. reflexivity.
  - rewrite !read_sneakers_run, !sneakers_ordering_sort_of.
    subst order. rewrite is_desc_order. reflexivity.
  - rewrite !read_cars_run, !cars_ordering_sort_of.
    subst order. rewrite is_desc_order. reflexivity.
Qed.

(** X9 on a table of four drinks, by price: "DESC" lists the dearest
    first, and "descending" the cheapest. *)
Lemma sort_order_desc_or_asc_witness :
  Energy.read_energy_drinks Orm.contains Examples.base_attribute
    Examples.scan_order 0 10 (Some "price"%string) "DESC" None None None
    Examples.drinks
  = (Ok [Examples.drink_4; Examples.drink_1; Examples.drink_3; Examples.drink_2],
     Examples.drinks)
  /\ Energy.read_energy_drinks Orm.contains Examples.base_attribute
       Examples.scan_order 0 10 (Some "price"%string) "descending" None None
       None Examples.drinks
     = (Ok [Examples.drink_2; Examples.drink_3; Examples.drink_1;
            Examples.drink_4],
        Examples.drinks).
Proof.
  split.
  - rewrite (proj1 (sort_order_desc_or_asc Orm.contains Examples.base_attribute
                      0 10 (Some "price"%string) "DESC" None)).
    reflexivity.
  - rewrite (proj1 (sort_order_desc_or_asc Orm.contains Examples.base_attribute
                      0 10 (Some "price"%string) "descending" None)).
    reflexivity.
Defined.





(** X11. A list of sneakers with both price filters other than 0 and
    the minimum above the maximum returns no row: if it returns, it
    returns the empty list, and it does return when skip, limit and the
    two prices are integers of 64 bits and [sort_by] names neither the
    table name nor an inherited attribute. *)
Theorem empty_price_range :
  forall (contains : string -> string -> bool) (inherited : string -> bool)
         (ties : Orm.Ties Sneakers.Sneaker Sneakers.column)
         (skip limit : Z) (sort_by : option string) (sort_order : string)
         (filter_brand search : option string) (lo hi : Z) (db : Sneakers.Table),
    lo <> 0 -> hi <> 0 -> hi < lo ->
    (forall rows,
       fst (Sneakers.read_sneakers contains inherited ties skip limit sort_by
              sort_order filter_brand (Some lo) (Some hi) search db) = Ok rows ->
       rows = [])
    /\ (Orm.fits64 skip -> Orm.fits64 limit -> Orm.fits64 lo -> Orm.fits64 hi ->
        Sneakers.sort_of inherited sort_by <> Orm.NotAColumn ->
        Sneakers.read_sneakers contains inherited ties skip limit sort_by
          sort_order filter_brand (Some lo) (Some hi) search db = (Ok [], db)).
Proof.
  intros contains inherited ties skip limit sort_by sort_order fb search lo hi db
         Hlo Hhi Hlt.
  assert (forall rows,
            fst (Sneakers.read_sneakers contains inherited ties skip limit sort_by
                   sort_order fb (Some lo) (Some hi) search db) = Ok rows ->
            rows = []) as Hempty.
  { intros rows Hrows.
    destruct (read_sneakers_rows contains inherited ties skip limit sort_by
                sort_order fb (Some lo) (Some hi) search db) as [_ H].
    destruct (H rows Hrows) as [_ Hin].
    destruct rows as [|r rows]; [reflexivity|]. exfalso.
    destruct (Hin r (or_introl eq_refl)) as [_ (_ & Hmin & Hmax & _)].
    destruct (Hmin lo eq_refl Hlo) as (p & Hp & Hlop).
    destruct (Hmax hi eq_refl Hhi) as (p' & Hp' & Hphi).
    rewrite Hp in Hp'. injection Hp' as <-. lia. }
  split; [exact Hempty|].
  intros Hs Hl Hflo Hfhi Hsort.
  assert (exists rows,
            Sneakers.read_sneakers contains inherited ties skip limit sort_by
              sort_order fb (Some lo) (Some hi) search db = (Ok rows, db))
    as (rows & Hrun).
  { rewrite read_sneakers_run, sneakers_ordering_sort_of.
    destruct (Sneakers.sort_of inherited sort_by) as [|c|]; [| |congruence];
      rewrite all_statement;
      rewrite (proj2 (sneakers_clauses_binds contains fb (Some lo) (Some hi)
                        search))
        by (split; intros v Hv; injection Hv as <-; assumption);
      rewrite !int64_true by assumption; eexists; reflexivity. }
  rewrite Hrun. rewrite (Hempty rows); [reflexivity|]. rewrite Hrun. reflexivity.
Qed.

(** X11 on two sneakers of prices 90 and 120, from 200 to 100. *)
Lemma empty_price_range_witness :
  Sneakers.read_sneakers Orm.contains Examples.base_attribute Examples.scan_order
    0 10 None "asc" None (Some 200) (Some 100) None
    [Examples.sneaker_1; Examples.sneaker_2]
  = (Ok [], [Examples.sneaker_1; Examples.sneaker_2]).
Proof.
  apply (proj2 (empty_price_range Orm.contains Examples.base_attribute
                  Examples.scan_order 0 10 None "asc" None None 200 100
                  [Examples.sneaker_1; Examples.sneaker_2]
                  ltac:(lia) ltac:(lia) ltac:(lia)));
    try (unfold Orm.fits64; lia).
  discriminate.
Defined.

(** ** Sorting by the key, and pages *)

Section KeySortFacts.
Context {Row : Type}.
Variable pk : Row -> Z.
Variable tie : Row -> Row -> bool.




End KeySortFacts.

Section PagesFacts.
Context {Row : Type}.




End PagesFacts.




